(** * Telemetry transport and device supervisor of the CSI firmware

    A shallow embedding of the firmware's supervisor loop ([main/main.c]),
    its remote configuration glue ([main/remote_config.c]) and the two
    telemetry transports declared in
    [components/websocket_telemetry/include/websocket_telemetry.h] and
    [components/http_telemetry/include/http_telemetry.h].

    Machine integers are [Z] with the wrap-around written out, wire bytes
    are [Byte.byte], C strings are [string]s read up to their first NUL,
    and the calls that leave the two C files (FreeRTOS, ESP-IDF, the
    collector, the MQTT wrapper, the clock, the updater, the configuration
    store) are performed by a [Platform] over an abstract world, every call
    being appended to a trace together with the value it returned. *)

From Stdlib Require Import String Ascii.
From Stdlib Require Import ZArith List Bool Lia.
From Stdlib Require Import Strings.Byte.
Import ListNotations.

Local Open Scope Z_scope.

(** ** Machine arithmetic *)

Definition wrap8 (z : Z) : Z := z mod 2 ^ 8.
Definition wrap16 (z : Z) : Z := z mod 2 ^ 16.
Definition wrap32 (z : Z) : Z := z mod 2 ^ 32.
Definition wrap64 (z : Z) : Z := z mod 2 ^ 64.

Definition zlength {A : Type} (l : list A) : Z := Z.of_nat (length l).

(** Results of fallible operations. *)
Inductive result (E A : Type) : Type :=
| Ok (a : A)
| Err (e : E).

Arguments Ok {E A} a.
Arguments Err {E A} e.

(** The error taxonomy the specification names for the two transports. *)
Inductive telemetry_error : Type :=
| PayloadTooLarge
| FramingError
| NotConnected
| InvalidArgument
| TransmissionFailed.

(** ** WireCodec *)

Module WireCodec.

(** [websocket_msg_type_t], websocket_telemetry.h lines 62-70. *)
Inductive websocket_msg_type_t : Type :=
| WS_MSG_CSI_DATA
| WS_MSG_SYSTEM_METRICS
| WS_MSG_HEARTBEAT
| WS_MSG_ALERT
| WS_MSG_BATCH_CSI
| WS_MSG_PING
| WS_MSG_PONG.

Definition msg_type_value (t : websocket_msg_type_t) : Z :=
  match t with
  | WS_MSG_CSI_DATA => 1
  | WS_MSG_SYSTEM_METRICS => 2
  | WS_MSG_HEARTBEAT => 3
  | WS_MSG_ALERT => 4
  | WS_MSG_BATCH_CSI => 5
  | WS_MSG_PING => 6
  | WS_MSG_PONG => 7
  end.

Definition msg_type_of_value (z : Z) : option websocket_msg_type_t :=
  match z with
  | 1 => Some WS_MSG_CSI_DATA
  | 2 => Some WS_MSG_SYSTEM_METRICS
  | 3 => Some WS_MSG_HEARTBEAT
  | 4 => Some WS_MSG_ALERT
  | 5 => Some WS_MSG_BATCH_CSI
  | 6 => Some WS_MSG_PING
  | 7 => Some WS_MSG_PONG
  | _ => None
  end.

(** [websocket_msg_header_t], websocket_telemetry.h lines 75-80: a packed
    struct of a [uint8_t], a [uint8_t], a [uint16_t] and a [uint32_t]. *)
Record websocket_msg_header_t : Type := mk_header {
  msg_type : Z;
  device_id_len : Z;
  payload_len : Z;
  sequence_num : Z
}.

Definition HEADER_SIZE : Z := 8.

Definition byte_of_Z (z : Z) : byte :=
  match Byte.of_N (Z.to_N (wrap8 z)) with
  | Some b => b
  | None => x00
  end.

Definition Z_of_byte (b : byte) : Z := Z.of_N (Byte.to_N b).

(** The in-memory image of an unsigned field of [n] bytes on the
    little-endian target, least significant byte first. *)
Fixpoint le_bytes (n : nat) (z : Z) : list byte :=
  match n with
  | O => []
  | S n' => byte_of_Z z :: le_bytes n' (z / 256)
  end.

Fixpoint le_value (bs : list byte) : Z :=
  match bs with
  | [] => 0
  | b :: rest => Z_of_byte b + 256 * le_value rest
  end.

Definition header_bytes (h : websocket_msg_header_t) : list byte :=
  le_bytes 1 (msg_type h) ++ le_bytes 1 (device_id_len h) ++
  le_bytes 2 (payload_len h) ++ le_bytes 4 (sequence_num h).

(** Modelled from the spec: the body of the encoder is not part of the
    sources (only the header struct it fills is).  Section 4.1:
    [encode(tag, device_id, payload)] builds the 8-byte header
    (tag:1, device_id_len:1, payload_len:2, sequence:4) followed by the
    payload, and fails with [PayloadTooLarge] if the payload exceeds the
    16-bit limit or the configured buffer size.  The sequence number and
    the buffer size come from the channel that calls the encoder. *)
Definition encode (buffer_size sequence : Z) (tag : websocket_msg_type_t)
    (device_id payload : list byte) : result telemetry_error (list byte) :=
  if (65535 <? zlength payload) || (buffer_size <? zlength payload)
  then Err PayloadTooLarge
  else Ok (header_bytes
             {| msg_type := msg_type_value tag;
                device_id_len := wrap8 (zlength device_id);
                payload_len := zlength payload;
                sequence_num := wrap32 sequence |} ++ payload).

(** Modelled from the spec: the body of the decoder is not part of the
    sources.  Section 4.1: [decode(bytes) -> (header, payload)] fails with
    [FramingError] if the buffer is shorter than the declared header plus
    payload length or the tag is unrecognized; it is total. *)
Definition decode (bytes : list byte)
  : result telemetry_error (websocket_msg_header_t * list byte) :=
  match bytes with
  | t :: dl :: p0 :: p1 :: s0 :: s1 :: s2 :: s3 :: rest =>
      let h := {| msg_type := Z_of_byte t;
                  device_id_len := Z_of_byte dl;
                  payload_len := le_value [p0; p1];
                  sequence_num := le_value [s0; s1; s2; s3] |} in
      match msg_type_of_value (msg_type h) with
      | None => Err FramingError
      | Some _ =>
          if zlength rest <? payload_len h then Err FramingError
          else Ok (h, firstn (Z.to_nat (payload_len h)) rest)
      end
  | _ => Err FramingError
  end.

(** What a caller reads back from a decoded message: its tag, the length
    of the device identifier, its sequence number and its payload. *)
Definition decoded_tag (h : websocket_msg_header_t) : option websocket_msg_type_t :=
  msg_type_of_value (msg_type h).

End WireCodec.

(** ** StreamChannel *)

Module StreamChannel.
Import WireCodec.

(** [websocket_csi_packet_t], websocket_telemetry.h lines 37-45; the two
    float arrays are kept as the raw 32-bit words they hold. *)
Record websocket_csi_packet_t : Type := mk_packet {
  pkt_timestamp : Z;
  pkt_mac_address : list Z;
  pkt_rssi : Z;
  pkt_channel : Z;
  pkt_data_length : Z;
  pkt_amplitude_data : list Z;
  pkt_phase_data : option (list Z)
}.

Definition WS_MAX_CSI_BATCH_SIZE : Z := 50.
Definition WS_DEFAULT_BUFFER_SIZE : Z := 1024.

(** Modelled from the spec: the channel states of section 3; the sources
    declare no such type. *)
Inductive ChannelState : Type :=
| Disconnected
| Connecting
| Connected
| Reconnecting
| Closed.

(** Modelled from the spec: the part of the streaming channel the send
    path reads and writes (the sources declare only its configuration
    struct): its state, the two configuration values the encoder needs,
    the next sequence number, the frames put on the wire (oldest first)
    and the sent-message counter. *)
Record channel : Type := mk_channel {
  ch_state : ChannelState;
  ch_buffer_size : Z;
  ch_device_id : list byte;
  ch_next_sequence : Z;
  ch_wire : list (list byte);
  ch_messages_sent : Z
}.

Definition is_connected (ch : channel) : bool :=
  match ch_state ch with
  | Connected => true
  | _ => false
  end.

(** Modelled from the spec: the body of the channel's send operation is
    not part of the sources.  Section 4.2: [send(message)] fails with
    [NotConnected] if the channel is not in the Connected state (no
    buffering configured); section 3: sequence numbers increase by one per
    message and wrap at the 32-bit boundary without resetting the channel. *)
Definition send (tag : websocket_msg_type_t) (payload : list byte)
    (ch : channel) : result telemetry_error unit * channel :=
  if is_connected ch then
    match encode (ch_buffer_size ch) (ch_next_sequence ch) tag
                 (ch_device_id ch) payload with
    | Ok frame =>
        (Ok tt,
         {| ch_state := ch_state ch;
            ch_buffer_size := ch_buffer_size ch;
            ch_device_id := ch_device_id ch;
            ch_next_sequence := wrap32 (ch_next_sequence ch + 1);
            ch_wire := ch_wire ch ++ [frame];
            ch_messages_sent := wrap32 (ch_messages_sent ch + 1) |})
    | Err e => (Err e, ch)
    end
  else (Err NotConnected, ch).

Section Batch.

(** The byte encoding of one sample and the value returned for an empty
    batch are not fixed by the specification. *)
Variable encode_sample : websocket_csi_packet_t -> list byte.
Variable empty_batch_result : result telemetry_error unit.

(** The lower send operation the assembled message is handed to. *)
Variable transmit : websocket_msg_type_t -> list byte -> channel ->
  result telemetry_error unit * channel.

Definition batch_payload (samples : list websocket_csi_packet_t) : list byte :=
  concat (map encode_sample samples).

(** Modelled from the spec: the body of
    [websocket_telemetry_send_csi_batch] (declared at
    websocket_telemetry.h lines 134-135) is not part of the sources.
    Section 4.2: [sendBatch(samples)] assembles at most 50 samples into one
    [BatchCsi] message and rejects with [InvalidArgument] if given more
    than 50; section 3: zero-sample batches are not sent. *)
Definition sendBatch (samples : list websocket_csi_packet_t) (ch : channel)
  : result telemetry_error unit * channel :=
  let packet_count := zlength samples in
  if packet_count =? 0 then (empty_batch_result, ch)
  else if WS_MAX_CSI_BATCH_SIZE <? packet_count then (Err InvalidArgument, ch)
  else transmit WS_MSG_BATCH_CSI (batch_payload samples) ch.

End Batch.

(** A sample codec for concrete runs: timestamp (8 bytes), channel (2
    bytes), data length (2 bytes), then the amplitude words (4 bytes
    each). *)
Definition bench_encode_sample (p : websocket_csi_packet_t) : list byte :=
  le_bytes 8 (pkt_timestamp p) ++ le_bytes 2 (pkt_channel p) ++
  le_bytes 2 (pkt_data_length p) ++
  concat (map (le_bytes 4) (pkt_amplitude_data p)).

Definition bench_packet (t : Z) : websocket_csi_packet_t :=
  {| pkt_timestamp := t; pkt_mac_address := [0; 17; 34; 51; 68; 85];
     pkt_rssi := -45; pkt_channel := 6; pkt_data_length := 2;
     pkt_amplitude_data := [1065353216; 1073741824];
     pkt_phase_data := None |}.

Definition bench_channel : channel :=
  {| ch_state := Connected; ch_buffer_size := WS_DEFAULT_BUFFER_SIZE;
     ch_device_id := [x6e; x31]; ch_next_sequence := 41; ch_wire := [];
     ch_messages_sent := 0 |}.

(** The same channel before it is started. *)
Definition idle_channel : channel :=
  {| ch_state := Disconnected; ch_buffer_size := WS_DEFAULT_BUFFER_SIZE;
     ch_device_id := [x6e; x31]; ch_next_sequence := 41; ch_wire := [];
     ch_messages_sent := 0 |}.

End StreamChannel.

(** ** HttpChannel *)

Module HttpChannel.

(** The fixed endpoint set, http_telemetry.h lines 165-168. *)
Inductive endpoint : Type :=
| HTTP_ENDPOINT_CSI_DATA
| HTTP_ENDPOINT_SYSTEM_METRICS
| HTTP_ENDPOINT_HEARTBEAT
| HTTP_ENDPOINT_ALERT.

Definition endpoint_path (e : endpoint) : string :=
  match e with
  | HTTP_ENDPOINT_CSI_DATA => "/api/csi/data"
  | HTTP_ENDPOINT_SYSTEM_METRICS => "/api/system/metrics"
  | HTTP_ENDPOINT_HEARTBEAT => "/api/device/heartbeat"
  | HTTP_ENDPOINT_ALERT => "/api/device/alert"
  end%string.

(** The numeric fields of [http_telemetry_config_t], http_telemetry.h
    lines 23-30. *)
Record http_telemetry_config_t : Type := mk_http_config {
  timeout_ms : Z;
  retry_count : Z;
  compress_data : bool
}.

(** The counters read by [http_telemetry_get_stats], http_telemetry.h
    lines 153-154, all [uint32_t]. *)
Record http_stats : Type := mk_http_stats {
  requests_sent : Z;
  requests_failed : Z;
  bytes_sent : Z
}.

Inductive attempt_outcome : Type :=
| AttemptOk
| AttemptTimeout
| AttemptRefused.

Inductive http_event : Type :=
| EvAttempt (e : endpoint) (timeout : Z) (o : attempt_outcome)
| EvBackoff (delay_ms : Z).

Definition is_attempt (e : http_event) : bool :=
  match e with
  | EvAttempt _ _ _ => true
  | EvBackoff _ => false
  end.

Definition attempts (tr : list http_event) : nat :=
  length (filter is_attempt tr).

Section Send.

(** The network: one request attempt against the server, bounded by the
    given timeout, and the delay policy between two attempts. *)
Variable Net : Type.
Variable perform : endpoint -> list byte -> Z -> Net -> attempt_outcome * Net.
Variable backoff_ms : nat -> Z.

(** Modelled from the spec: the attempt loop of [send] below, whose body
    is not part of the sources.  [remaining] attempts are still allowed,
    [done] have been made; a backoff delay separates two attempts. *)
Fixpoint attempt_loop (remaining done : nat) (cfg : http_telemetry_config_t)
    (e : endpoint) (payload : list byte) (net : Net) (tr : list http_event)
  : bool * Net * list http_event :=
  match remaining with
  | O => (false, net, tr)
  | S remaining' =>
      let (o, net') := perform e payload (timeout_ms cfg) net in
      let tr' := tr ++ [EvAttempt e (timeout_ms cfg) o] in
      match o with
      | AttemptOk => (true, net', tr')
      | _ =>
          match remaining' with
          | O => (false, net', tr')
          | S _ =>
              attempt_loop remaining' (S done) cfg e payload net'
                           (tr' ++ [EvBackoff (backoff_ms done)])
          end
      end
  end.

(** Modelled from the spec: the bodies of the [http_telemetry_send_*]
    functions are not part of the sources (only their declarations, the
    configuration struct and the statistics getter are).  Section 4.3:
    [send(endpoint, payload, retry_count)] is a synchronous attempt loop
    bounded by [timeout_ms] per attempt and [retry_count] total attempts,
    with a backoff delay between attempts; it returns [TransmissionFailed]
    only after all attempts are exhausted and increments the failure
    counter once per call. *)
Definition send (cfg : http_telemetry_config_t) (e : endpoint)
    (payload : list byte) (retries : Z) (st : http_stats) (net : Net)
  : result telemetry_error unit * http_stats * Net * list http_event :=
  match attempt_loop (Z.to_nat retries) 0 cfg e payload net [] with
  | (true, net', tr) =>
      (Ok tt,
       {| requests_sent := wrap32 (requests_sent st + 1);
          requests_failed := requests_failed st;
          bytes_sent := wrap32 (bytes_sent st + zlength payload) |},
       net', tr)
  | (false, net', tr) =>
      (Err TransmissionFailed,
       {| requests_sent := requests_sent st;
          requests_failed := wrap32 (requests_failed st + 1);
          bytes_sent := bytes_sent st |},
       net', tr)
  end.

End Send.

End HttpChannel.

(** ** C strings, fixed-capacity character arrays and cJSON values *)

Module CStr.

Definition NUL : ascii := Ascii.zero.

(** The C string a [char *] points to: the characters before the first
    NUL. *)
Fixpoint c_string (s : string) : string :=
  match s with
  | EmptyString => EmptyString
  | String c rest =>
      if Ascii.eqb c NUL then EmptyString else String c (c_string rest)
  end.

(** The C string held by a character array; an array without a NUL is
    read up to its end. *)
Definition c_str (buf : list ascii) : string :=
  c_string (string_of_list_ascii buf).

(** [strcmp(a, b) == 0]. *)
Definition strcmp_eq (a b : string) : bool :=
  String.eqb (c_string a) (c_string b).

(** [strncpy(dst, src, n)]: the first [n] characters of [dst] become the
    characters of the string [src], cut after [n] of them or padded with
    NULs up to [n]; the rest of [dst] is left as it was.  No terminator is
    written when [src] has [n] characters or more. *)
Definition strncpy (dst : list ascii) (src : string) (n : nat) : list ascii :=
  firstn n (list_ascii_of_string (c_string src) ++ repeat NUL n) ++ skipn n dst.

(** The idiom of both C files, [strncpy(dst, src, sizeof(dst) - 1)]. *)
Definition bounded_copy (dst : list ascii) (src : string) : list ascii :=
  strncpy dst src (length dst - 1).

(** A zero-initialised array of [cap] characters. *)
Definition zeroed (cap : nat) : list ascii := repeat NUL cap.

(** [snprintf(buf, size, fmt, ...)] keeps at most [size - 1] characters of
    the formatted text. *)
Definition snprintf_cut (size : nat) (formatted : string) : string :=
  string_of_list_ascii (firstn (size - 1) (list_ascii_of_string formatted)).

(** The first [n] characters of a string. *)
Definition prefix (n : nat) (s : string) : string :=
  string_of_list_ascii (firstn n (list_ascii_of_string s)).

Definition tolower (c : ascii) : ascii :=
  let n := N_of_ascii c in
  if ((65 <=? n) && (n <=? 90))%N then ascii_of_N (n + 32) else c.

Fixpoint case_insensitive_eq (a b : string) : bool :=
  match a, b with
  | EmptyString, EmptyString => true
  | String x a', String y b' =>
      Ascii.eqb (tolower x) (tolower y) && case_insensitive_eq a' b'
  | _, _ => false
  end.

End CStr.

Module Json.
Import CStr.

#[local] Set Warnings "-register-all".

(** Floating-point values are kept as the expressions that produce them:
    a literal (of the program or of a JSON document), the conversion of an
    integer, a quotient. *)
Inductive double : Type :=
| Dbl_lit (text : string)
| Dbl_of_int (z : Z)
| Dbl_div (x y : double).

(** The items the cJSON parser produces.  A number carries both of its
    readings, [valueint] and [valuedouble]. *)
Inductive cJSON : Type :=
| cJSON_NULL
| cJSON_False
| cJSON_True
| cJSON_Number (valueint : Z) (valuedouble : double)
| cJSON_String (valuestring : string)
| cJSON_Array (items : list cJSON)
| cJSON_Object (members : list (string * cJSON)).

Fixpoint find_member (name : string) (members : list (string * cJSON))
  : option cJSON :=
  match members with
  | [] => None
  | (key, item) :: rest =>
      if case_insensitive_eq (c_string name) (c_string key) then Some item
      else find_member name rest
  end.

(** [cJSON_GetObjectItem(object, name)]: the first member whose key
    equals [name] up to letter case; NULL for a NULL object and for an
    item without named children. *)
Definition cJSON_GetObjectItem (object : option cJSON) (name : string)
  : option cJSON :=
  match object with
  | Some (cJSON_Object members) => find_member name members
  | _ => None
  end.

Definition cJSON_IsString (item : cJSON) : bool :=
  match item with
  | cJSON_String _ => true
  | _ => false
  end.

Definition cJSON_IsNumber (item : cJSON) : bool :=
  match item with
  | cJSON_Number _ _ => true
  | _ => false
  end.

Definition cJSON_IsBool (item : cJSON) : bool :=
  match item with
  | cJSON_True | cJSON_False => true
  | _ => false
  end.

Definition cJSON_IsTrue (item : cJSON) : bool :=
  match item with
  | cJSON_True => true
  | _ => false
  end.

(** [item && cJSON_IsString(item)], with the string it then holds. *)
Definition string_item (item : option cJSON) : option string :=
  match item with
  | Some (cJSON_String s) => Some s
  | _ => None
  end.

(** [item && cJSON_IsNumber(item)], with both readings. *)
Definition number_item (item : option cJSON) : option (Z * double) :=
  match item with
  | Some (cJSON_Number i d) => Some (i, d)
  | _ => None
  end.

(** [item && cJSON_IsBool(item)], with [cJSON_IsTrue(item)]. *)
Definition bool_item (item : option cJSON) : option bool :=
  match item with
  | Some cJSON_True => Some true
  | Some cJSON_False => Some false
  | _ => None
  end.

(** The documents the firmware builds with [cJSON_CreateObject] and the
    [cJSON_Add...ToObject] functions, members in insertion order. *)
Inductive json_out : Type :=
| Out_String (s : string)
| Out_Number (d : double)
| Out_Bool (b : bool)
| Out_Object (members : list (string * json_out)).

End Json.

(** ** The platform: every call that leaves the two C files *)

Module Platform.
Import CStr Json.

(** [esp_err_t] and the ESP-IDF codes the two files name. *)
Definition esp_err_t : Type := Z.
Definition ESP_OK : esp_err_t := 0.
Definition ESP_ERR_INVALID_ARG : esp_err_t := 258.
Definition ESP_ERR_NOT_SUPPORTED : esp_err_t := 262.

Definition is_ok (err : esp_err_t) : bool := err =? ESP_OK.

(** [csi_data_t] as main.c and the tests use it. *)
Record csi_data_t : Type := mk_csi_data {
  timestamp : Z;
  mac : list Z;
  rssi : Z;
  len : Z;
  data : list Z
}.

Definition set_timestamp (d : csi_data_t) (t : Z) : csi_data_t :=
  {| timestamp := t; mac := mac d; rssi := rssi d; len := len d;
     data := data d |}.

Record timeval : Type := mk_timeval { tv_sec : Z; tv_usec : Z }.

Record ntp_sync_quality_t : Type := mk_quality {
  quality : Z;
  offset_ms : Z;
  time_since_sync_sec : Z
}.

Record mqtt_stats_t : Type := mk_mqtt_stats {
  messages_sent : Z;
  messages_received : Z;
  connection_errors : Z
}.

Record csi_collector_stats_t : Type := mk_csi_stats {
  packets_received : Z;
  packets_processed : Z;
  packets_dropped : Z
}.

(** The fields of [csi_collector_config_t] that [handle_csi_config]
    writes; their widths are declared in csi_collector.h, which is not
    among the sources, so the assigned values are kept as they are. *)
Record csi_collector_config_t : Type := mk_csi_config {
  sample_rate : Z;
  buffer_size : Z;
  filter_enabled : bool;
  filter_threshold : double
}.

(** The fields of [app_config_t] the two files read or write.  Character
    arrays are lists whose length is the array's capacity. *)
Record wifi_section : Type := mk_wifi {
  ssid : list ascii;
  password : list ascii
}.

Record mqtt_section : Type := mk_mqtt {
  mqtt_enabled : bool;
  broker_url : list ascii;
  port : Z;
  mqtt_username : list ascii;
  mqtt_password : list ascii;
  client_id : list ascii;
  topic_prefix : list ascii;
  ssl_enabled : bool;
  keepalive : Z
}.

Record web_server_section : Type := mk_web {
  web_enabled : bool;
  web_port : Z;
  auth_enabled : bool;
  web_username : list ascii;
  web_password : list ascii
}.

Record ntp_section : Type := mk_ntp {
  ntp_enabled : bool;
  sync_interval : Z;
  server1 : list ascii;
  server2 : list ascii;
  server3 : list ascii
}.

Record ota_section : Type := mk_ota {
  ota_enabled : bool;
  auto_update : bool;
  check_interval : Z;
  update_url : list ascii
}.

Record app_config_t : Type := mk_app_config {
  device_name : list ascii;
  firmware_version : list ascii;
  wifi : wifi_section;
  mqtt : mqtt_section;
  web_server : web_server_section;
  ntp : ntp_section;
  ota : ota_section
}.

Definition set_device_name (c : app_config_t) (v : list ascii) : app_config_t :=
  {| device_name := v; firmware_version := firmware_version c;
     wifi := wifi c; mqtt := mqtt c; web_server := web_server c;
     ntp := ntp c; ota := ota c |}.

Definition set_wifi (c : app_config_t) (v : wifi_section) : app_config_t :=
  {| device_name := device_name c; firmware_version := firmware_version c;
     wifi := v; mqtt := mqtt c; web_server := web_server c;
     ntp := ntp c; ota := ota c |}.

Definition set_mqtt (c : app_config_t) (v : mqtt_section) : app_config_t :=
  {| device_name := device_name c; firmware_version := firmware_version c;
     wifi := wifi c; mqtt := v; web_server := web_server c;
     ntp := ntp c; ota := ota c |}.

Definition set_ssid (w : wifi_section) (v : list ascii) : wifi_section :=
  {| ssid := v; password := password w |}.

Definition set_password (w : wifi_section) (v : list ascii) : wifi_section :=
  {| ssid := ssid w; password := v |}.

Definition set_broker_url (m : mqtt_section) (v : list ascii) : mqtt_section :=
  {| mqtt_enabled := mqtt_enabled m; broker_url := v; port := port m;
     mqtt_username := mqtt_username m; mqtt_password := mqtt_password m;
     client_id := client_id m; topic_prefix := topic_prefix m;
     ssl_enabled := ssl_enabled m; keepalive := keepalive m |}.

Definition set_port (m : mqtt_section) (v : Z) : mqtt_section :=
  {| mqtt_enabled := mqtt_enabled m; broker_url := broker_url m; port := v;
     mqtt_username := mqtt_username m; mqtt_password := mqtt_password m;
     client_id := client_id m; topic_prefix := topic_prefix m;
     ssl_enabled := ssl_enabled m; keepalive := keepalive m |}.

Definition set_topic_prefix (m : mqtt_section) (v : list ascii) : mqtt_section :=
  {| mqtt_enabled := mqtt_enabled m; broker_url := broker_url m;
     port := port m;
     mqtt_username := mqtt_username m; mqtt_password := mqtt_password m;
     client_id := client_id m; topic_prefix := v;
     ssl_enabled := ssl_enabled m; keepalive := keepalive m |}.

Inductive log_level : Type := LOG_E | LOG_W | LOG_I | LOG_D.

(** The calls, indexed by the type of what they hand back.  Out
    parameters are handed back next to the returned [esp_err_t]; they are
    meaningful only when that is [ESP_OK], and the callers read them only
    then. *)
Inductive call : Type -> Type :=
| esp_log (level : log_level) (format : string) : call unit
| vTaskDelay (ticks : Z) : call unit
| xTaskGetTickCount : call Z
| uxTaskGetNumberOfTasks : call Z
| esp_restart : call unit
| esp_get_free_heap_size : call Z
| esp_get_minimum_free_heap_size : call Z
| esp_timer_get_time : call Z
| nvs_flash_erase : call esp_err_t
| csi_collector_is_running : call bool
| csi_collector_get_data (timeout_ticks : Z) : call (esp_err_t * csi_data_t)
| csi_collector_free_data (d : csi_data_t) : call unit
| csi_collector_start : call esp_err_t
| csi_collector_stop : call esp_err_t
| csi_collector_get_config : call (esp_err_t * csi_collector_config_t)
| csi_collector_update_config (c : csi_collector_config_t) : call esp_err_t
| csi_collector_get_stats : call (esp_err_t * csi_collector_stats_t)
| ntp_sync_is_synchronized : call bool
| ntp_sync_get_time : call (esp_err_t * timeval)
| ntp_client_get_sync_quality : call (esp_err_t * ntp_sync_quality_t)
| mqtt_client_is_connected : call bool
| mqtt_client_publish_csi_data (d : csi_data_t) : call esp_err_t
| mqtt_client_get_stats : call (esp_err_t * mqtt_stats_t)
| mqtt_client_publish (topic payload : string) (length : Z) (qos : Z)
    (retain : bool) : call esp_err_t
| mqtt_client_stop : call esp_err_t
| mqtt_client_init (c : mqtt_section) : call esp_err_t
| mqtt_client_start : call esp_err_t
| mqtt_publish_system_metrics (device : string) (cpu_usage : double)
    (free_heap min_free_heap task_count : Z) : call esp_err_t
| mqtt_publish_alert (device level component message : string)
    : call esp_err_t
| ota_updater_check_for_updates : call esp_err_t
| app_config_load : call (esp_err_t * app_config_t)
| app_config_save (c : app_config_t) : call esp_err_t
| cJSON_PrintUnformatted (doc : json_out) : call (option string).

(** One entry of the trace: a call and what it handed back. *)
Inductive event : Type :=
| Ev (A : Type) (c : call A) (r : A).

Arguments Ev {A} c r.

(** A platform over a world [W]: the tick rate FreeRTOS was built with,
    and what every call does to the world and hands back. *)
Class Platform (W : Type) : Type := mk_platform {
  configTICK_RATE_HZ : Z;
  perform : forall A : Type, call A -> W -> A * W
}.

Arguments perform {W _ A} c w.

(** [pdMS_TO_TICKS(ms)], computed in the 32-bit [TickType_t]. *)
Definition pdMS_TO_TICKS {W : Type} `{Platform W} (ms : Z) : Z :=
  wrap32 (wrap32 (ms * configTICK_RATE_HZ) / 1000).

(** How a piece of code ends: it returns a value, or the device restarts
    under it ([esp_restart] does not return). *)
Inductive outcome (A : Type) : Type :=
| Done (a : A)
| Reboot.

Arguments Done {A} a.
Arguments Reboot {A}.

(** Code runs from a world to an outcome, the world it leaves and the
    events it emitted, oldest first. *)
Definition M (W A : Type) : Type := W -> outcome A * W * list event.

Definition ret {W A : Type} (a : A) : M W A := fun w => (Done a, w, []).

Definition bind {W A B : Type} (m : M W A) (k : A -> M W B) : M W B :=
  fun w =>
    match m w with
    | (Done a, w1, evs1) =>
        match k a w1 with
        | (o, w2, evs2) => (o, w2, evs1 ++ evs2)
        end
    | (Reboot, w1, evs1) => (Reboot, w1, evs1)
    end.

Definition do_call {W : Type} `{Platform W} {A : Type} (c : call A) : M W A :=
  fun w => let (r, w') := perform c w in (Done r, w', [Ev c r]).

(** [esp_restart()]: the call is made and nothing after it runs. *)
Definition restart {W : Type} `{Platform W} {A : Type} : M W A :=
  fun w => let (r, w') := perform esp_restart w in (Reboot, w', [Ev esp_restart r]).

Definition events_of {W A : Type} (r : outcome A * W * list event) : list event :=
  snd r.

Definition outcome_of {W A : Type} (r : outcome A * W * list event) : outcome A :=
  fst (fst r).

Definition world_of {W A : Type} (r : outcome A * W * list event) : W :=
  snd (fst r).

End Platform.

Declare Scope fw_scope.
Delimit Scope fw_scope with fw.

Notation "x <- m ;; k" := (Platform.bind m (fun x => k))
  (at level 61, m at next level, right associativity) : fw_scope.
Notation "m ;; k" := (Platform.bind m (fun _ => k))
  (at level 61, right associativity) : fw_scope.

(** ** Supervisor: the main loop of [app_main_task], main.c *)

Module Supervisor.
Import CStr Json Platform.
Local Open Scope string_scope.
Local Open Scope Z_scope.
Local Open Scope fw_scope.

(** The locals of [app_main_task] that live across iterations, main.c
    lines 192-198; all are 32 bits wide. *)
Record loop_state : Type := mk_loop {
  loop_counter : Z;
  csi_data_count : Z;
  mqtt_publish_count : Z;
  mqtt_publish_errors : Z;
  last_stats_time : Z;
  last_ota_check : Z;
  last_system_metrics : Z
}.

Definition bump_loop_counter (ls : loop_state) : loop_state :=
  {| loop_counter := wrap32 (loop_counter ls + 1);
     csi_data_count := csi_data_count ls;
     mqtt_publish_count := mqtt_publish_count ls;
     mqtt_publish_errors := mqtt_publish_errors ls;
     last_stats_time := last_stats_time ls;
     last_ota_check := last_ota_check ls;
     last_system_metrics := last_system_metrics ls |}.

Definition bump_csi_data_count (ls : loop_state) : loop_state :=
  {| loop_counter := loop_counter ls;
     csi_data_count := wrap32 (csi_data_count ls + 1);
     mqtt_publish_count := mqtt_publish_count ls;
     mqtt_publish_errors := mqtt_publish_errors ls;
     last_stats_time := last_stats_time ls;
     last_ota_check := last_ota_check ls;
     last_system_metrics := last_system_metrics ls |}.

Definition bump_mqtt_publish_count (ls : loop_state) : loop_state :=
  {| loop_counter := loop_counter ls;
     csi_data_count := csi_data_count ls;
     mqtt_publish_count := wrap32 (mqtt_publish_count ls + 1);
     mqtt_publish_errors := mqtt_publish_errors ls;
     last_stats_time := last_stats_time ls;
     last_ota_check := last_ota_check ls;
     last_system_metrics := last_system_metrics ls |}.

Definition bump_mqtt_publish_errors (ls : loop_state) : loop_state :=
  {| loop_counter := loop_counter ls;
     csi_data_count := csi_data_count ls;
     mqtt_publish_count := mqtt_publish_count ls;
     mqtt_publish_errors := wrap32 (mqtt_publish_errors ls + 1);
     last_stats_time := last_stats_time ls;
     last_ota_check := last_ota_check ls;
     last_system_metrics := last_system_metrics ls |}.

Definition set_last_stats_time (ls : loop_state) (t : Z) : loop_state :=
  {| loop_counter := loop_counter ls;
     csi_data_count := csi_data_count ls;
     mqtt_publish_count := mqtt_publish_count ls;
     mqtt_publish_errors := mqtt_publish_errors ls;
     last_stats_time := t;
     last_ota_check := last_ota_check ls;
     last_system_metrics := last_system_metrics ls |}.

Definition set_last_ota_check (ls : loop_state) (t : Z) : loop_state :=
  {| loop_counter := loop_counter ls;
     csi_data_count := csi_data_count ls;
     mqtt_publish_count := mqtt_publish_count ls;
     mqtt_publish_errors := mqtt_publish_errors ls;
     last_stats_time := last_stats_time ls;
     last_ota_check := t;
     last_system_metrics := last_system_metrics ls |}.

Definition set_last_system_metrics (ls : loop_state) (t : Z) : loop_state :=
  {| loop_counter := loop_counter ls;
     csi_data_count := csi_data_count ls;
     mqtt_publish_count := mqtt_publish_count ls;
     mqtt_publish_errors := mqtt_publish_errors ls;
     last_stats_time := last_stats_time ls;
     last_ota_check := last_ota_check ls;
     last_system_metrics := t |}.

(** [tv.tv_sec * 1000000ULL + tv.tv_usec], main.c line 214. *)
Definition corrected_timestamp (tv : timeval) : Z :=
  wrap64 (tv_sec tv * 1000000 + tv_usec tv).

(** [(now - last) >= pdMS_TO_TICKS(ms)] on the 32-bit tick counter. *)
Definition elapsed {W : Type} `{Platform W} (now last ms : Z) : bool :=
  pdMS_TO_TICKS ms <=? wrap32 (now - last).

Section Loop.

Context {W : Type} `{Platform W}.

Definition log (level : log_level) (format : string) : M W unit :=
  do_call (esp_log level format).

(** main.c lines 210-216. *)
Definition correct_timestamp (csi_data : csi_data_t) : M W csi_data_t :=
  synchronized <- do_call ntp_sync_is_synchronized ;;
  if (synchronized : bool) then
    r <- do_call ntp_sync_get_time ;;
    if is_ok (fst r) then
      ret (set_timestamp csi_data (corrected_timestamp (snd r)))
    else ret csi_data
  else ret csi_data.

(** main.c lines 223-232. *)
Definition publish_if_connected (ls : loop_state) (csi_data : csi_data_t)
  : M W loop_state :=
  connected <- do_call mqtt_client_is_connected ;;
  if (connected : bool) then
    err <- do_call (mqtt_client_publish_csi_data csi_data) ;;
    if is_ok err then ret (bump_mqtt_publish_count ls)
    else
      log LOG_W "Failed to publish CSI data to MQTT: %s" ;;
      ret (bump_mqtt_publish_errors ls)
  else ret ls.

(** main.c lines 204-237. *)
Definition process_csi (ls : loop_state) : M W loop_state :=
  running <- do_call csi_collector_is_running ;;
  if (running : bool) then
    r <- do_call (csi_collector_get_data (pdMS_TO_TICKS 100)) ;;
    if is_ok (fst r) then
      csi_data <- correct_timestamp (snd r) ;;
      log LOG_D "CSI data received: %d bytes, RSSI: %d dBm, MAC: %02X:%02X:%02X:%02X:%02X:%02X" ;;
      ls' <- publish_if_connected (bump_csi_data_count ls) csi_data ;;
      do_call (csi_collector_free_data csi_data) ;;
      ret ls'
    else ret ls
  else ret ls.

(** main.c lines 250-260. *)
Definition report_ntp : M W unit :=
  synchronized <- do_call ntp_sync_is_synchronized ;;
  if (synchronized : bool) then
    r <- do_call ntp_client_get_sync_quality ;;
    if is_ok (fst r) then log LOG_I "NTP quality: %s (offset: %PRId32ms, age: %PRIu64s)"
    else ret tt
  else log LOG_W "NTP not synchronized".

(** main.c lines 262-274. *)
Definition report_mqtt (config : app_config_t) : M W unit :=
  if mqtt_enabled (mqtt config) then
    connected <- do_call mqtt_client_is_connected ;;
    if (connected : bool) then
      r <- do_call mqtt_client_get_stats ;;
      if is_ok (fst r) then
        log LOG_I "MQTT: connected, sent: %PRIu32, received: %PRIu32, errors: %PRIu32"
      else ret tt
    else log LOG_W "MQTT: disconnected"
  else ret tt.

(** main.c lines 239-275. *)
Definition report_status (config : app_config_t) (ls : loop_state)
    (current_time : Z) : M W loop_state :=
  if elapsed current_time (last_stats_time ls) 30000 then
    log LOG_I "=== System Status ===" ;;
    log LOG_I "Loop cycles: %PRIu32, CSI data processed: %PRIu32" ;;
    log LOG_I "MQTT publishes: %PRIu32 (errors: %PRIu32)" ;;
    _ <- do_call esp_get_free_heap_size ;;
    log LOG_I "Free heap: %PRIu32 bytes" ;;
    _ <- do_call esp_get_minimum_free_heap_size ;;
    log LOG_I "Min free heap: %PRIu32 bytes" ;;
    report_ntp ;;
    report_mqtt config ;;
    ret (set_last_stats_time ls current_time)
  else ret ls.

(** main.c lines 277-291; the three readings passed to
    [mqtt_publish_system_metrics] are taken left to right. *)
Definition publish_metrics (config : app_config_t) (ls : loop_state)
    (current_time : Z) : M W loop_state :=
  if mqtt_enabled (mqtt config) then
    connected <- do_call mqtt_client_is_connected ;;
    if (connected : bool) && elapsed current_time (last_system_metrics ls) 300000 then
      free_heap <- do_call esp_get_free_heap_size ;;
      min_free_heap <- do_call esp_get_minimum_free_heap_size ;;
      task_count <- do_call uxTaskGetNumberOfTasks ;;
      _ <- do_call (mqtt_publish_system_metrics (c_str (device_name config))
                      (Dbl_lit "0.0f") free_heap min_free_heap task_count) ;;
      log LOG_I "Published system metrics to MQTT" ;;
      ret (set_last_system_metrics ls current_time)
    else ret ls
  else ret ls.

(** main.c lines 293-303. *)
Definition check_ota (config : app_config_t) (ls : loop_state)
    (current_time : Z) : M W loop_state :=
  if ota_enabled (ota config) && auto_update (ota config) &&
     elapsed current_time (last_ota_check ls) 300000 then
    log LOG_I "Checking for OTA updates..." ;;
    ota_err <- do_call ota_updater_check_for_updates ;;
    (if is_ok ota_err then ret tt
     else log LOG_W "OTA update check failed: %s") ;;
    ret (set_last_ota_check ls current_time)
  else ret ls.

(** main.c lines 305-313. *)
Definition health_guard (config : app_config_t) : M W unit :=
  free_heap <- do_call esp_get_free_heap_size ;;
  if free_heap <? 10000 then
    log LOG_E "Critical low memory condition detected!" ;;
    _ <- do_call (mqtt_publish_alert (c_str (device_name config))
                    "ERROR" "SYSTEM" "Critical low memory") ;;
    do_call (vTaskDelay (pdMS_TO_TICKS 5000)) ;;
    restart
  else ret tt.

(** The end of an iteration, main.c lines 305-315: the health guard, then
    the 100 ms delay. *)
Definition guard_and_delay (config : app_config_t) (ls : loop_state)
  : M W loop_state :=
  health_guard config ;;
  do_call (vTaskDelay (pdMS_TO_TICKS 100)) ;;
  ret ls.

(** One iteration of [while (1)], main.c lines 202-315. *)
Definition tick (config : app_config_t) (ls : loop_state) : M W loop_state :=
  ls1 <- process_csi (bump_loop_counter ls) ;;
  current_time <- do_call xTaskGetTickCount ;;
  ls2 <- report_status config ls1 current_time ;;
  ls3 <- publish_metrics config ls2 current_time ;;
  ls4 <- check_ota config ls3 current_time ;;
  guard_and_delay config ls4.

(** The locals before the first iteration, main.c lines 192-198. *)
Definition loop_start : M W loop_state :=
  t1 <- do_call xTaskGetTickCount ;;
  t2 <- do_call xTaskGetTickCount ;;
  t3 <- do_call xTaskGetTickCount ;;
  ret {| loop_counter := 0; csi_data_count := 0; mqtt_publish_count := 0;
         mqtt_publish_errors := 0; last_stats_time := t1;
         last_ota_check := t2; last_system_metrics := t3 |}.

(** [while (1)] run for at most [iterations] iterations: it ends early
    only by a restart. *)
Fixpoint main_loop (iterations : nat) (config : app_config_t)
    (ls : loop_state) : M W loop_state :=
  match iterations with
  | O => ret ls
  | S n => ls' <- tick config ls ;; main_loop n config ls'
  end.

End Loop.

(** *** The configurations main.c hands to the subsystems at start-up *)

(** [sizeof] of the character arrays of the four local configuration
    structs of [app_main_task]; the structs are declared in headers that
    are not among the sources. *)
Record field_sizes : Type := mk_sizes {
  sizeof_web_username : nat;
  sizeof_web_password : nat;
  sizeof_ntp_server1 : nat;
  sizeof_ntp_server2 : nat;
  sizeof_ntp_server3 : nat;
  sizeof_mqtt_broker_url : nat;
  sizeof_mqtt_username : nat;
  sizeof_mqtt_password : nat;
  sizeof_mqtt_client_id : nat;
  sizeof_mqtt_topic_prefix : nat;
  sizeof_ota_server_url : nat
}.

Record web_server_config_t : Type := mk_web_config {
  wc_enabled : bool;
  wc_port : Z;
  wc_auth_enabled : bool;
  wc_max_sessions : Z;
  wc_session_timeout : Z;
  wc_username : list ascii;
  wc_password : list ascii
}.

Record ntp_config_t : Type := mk_ntp_config {
  nc_enabled : bool;
  nc_sync_interval : Z;
  nc_timezone : string;
  nc_server1 : list ascii;
  nc_server2 : list ascii;
  nc_server3 : list ascii
}.

Record mqtt_config_t : Type := mk_mqtt_config {
  mc_enabled : bool;
  mc_port : Z;
  mc_ssl_enabled : bool;
  mc_keepalive : Z;
  mc_qos : Z;
  mc_retain : bool;
  mc_broker_url : list ascii;
  mc_username : list ascii;
  mc_password : list ascii;
  mc_client_id : list ascii;
  mc_topic_prefix : list ascii
}.

Record ota_config_t : Type := mk_ota_config {
  oc_enabled : bool;
  oc_auto_check : bool;
  oc_check_interval : Z;
  oc_server_port : Z;
  oc_use_secure_connection : bool;
  oc_server_url : list ascii
}.

(** The character arrays of [app_config_t] that main.c copies at
    start-up. *)
Inductive config_string : Type :=
| Web_username
| Web_password
| Ntp_server1
| Ntp_server2
| Ntp_server3
| Mqtt_broker_url
| Mqtt_username
| Mqtt_password
| Mqtt_client_id
| Mqtt_topic_prefix
| Ota_update_url.

(** [strncpy] reads its source as a C string: when a character array
    holds no NUL the read runs on into the bytes that follow the array in
    memory.  The layout of [app_config_t] is declared in app_config.h,
    which is not among the sources, so the bytes that follow each array
    are a parameter. *)
Definition memory_after : Type := config_string -> string.

(** The bytes a [const char *] to the array [src] points at: the array,
    then what follows it in memory. *)
Definition read_from (src : list ascii) (after : string) : string :=
  String.append (string_of_list_ascii src) after.

(** A member the designated initialiser leaves out is zeroed; the copy
    then is [strncpy(dst, src, sizeof(dst) - 1)] from the array [src],
    which is followed in memory by [after]. *)
Definition copy_field (size : nat) (src : list ascii) (after : string)
  : list ascii :=
  bounded_copy (zeroed size) (read_from src after).

(** main.c lines 56-64. *)
Definition make_web_config (sz : field_sizes) (after : memory_after)
    (config : app_config_t)
  : web_server_config_t :=
  {| wc_enabled := web_enabled (web_server config);
     wc_port := web_port (web_server config);
     wc_auth_enabled := auth_enabled (web_server config);
     wc_max_sessions := 10;
     wc_session_timeout := 30;
     wc_username := copy_field (sizeof_web_username sz)
                      (web_username (web_server config))
                      (after Web_username);
     wc_password := copy_field (sizeof_web_password sz)
                      (web_password (web_server config))
                      (after Web_password) |}.

(** main.c lines 93-100; the width of [sync_interval] is declared in
    ntp_sync.h, so the product is kept as it is. *)
Definition make_ntp_config (sz : field_sizes) (after : memory_after)
    (config : app_config_t)
  : ntp_config_t :=
  {| nc_enabled := ntp_enabled (ntp config);
     nc_sync_interval := sync_interval (ntp config) * 60;
     nc_timezone := "UTC";
     nc_server1 := copy_field (sizeof_ntp_server1 sz) (server1 (ntp config))
                      (after Ntp_server1);
     nc_server2 := copy_field (sizeof_ntp_server2 sz) (server2 (ntp config))
                      (after Ntp_server2);
     nc_server3 := copy_field (sizeof_ntp_server3 sz) (server3 (ntp config))
                      (after Ntp_server3) |}.

(** main.c lines 133-145. *)
Definition make_mqtt_config (sz : field_sizes) (after : memory_after)
    (config : app_config_t)
  : mqtt_config_t :=
  {| mc_enabled := mqtt_enabled (mqtt config);
     mc_port := port (mqtt config);
     mc_ssl_enabled := ssl_enabled (mqtt config);
     mc_keepalive := keepalive (mqtt config);
     mc_qos := 1;
     mc_retain := false;
     mc_broker_url := copy_field (sizeof_mqtt_broker_url sz)
                        (broker_url (mqtt config))
                      (after Mqtt_broker_url);
     mc_username := copy_field (sizeof_mqtt_username sz)
                      (mqtt_username (mqtt config))
                      (after Mqtt_username);
     mc_password := copy_field (sizeof_mqtt_password sz)
                      (mqtt_password (mqtt config))
                      (after Mqtt_password);
     mc_client_id := copy_field (sizeof_mqtt_client_id sz)
                       (client_id (mqtt config))
                      (after Mqtt_client_id);
     mc_topic_prefix := copy_field (sizeof_mqtt_topic_prefix sz)
                          (topic_prefix (mqtt config))
                      (after Mqtt_topic_prefix) |}.

(** main.c lines 176-183. *)
Definition make_ota_config (sz : field_sizes) (after : memory_after)
    (config : app_config_t)
  : ota_config_t :=
  {| oc_enabled := ota_enabled (ota config);
     oc_auto_check := auto_update (ota config);
     oc_check_interval := check_interval (ota config) * 60;
     oc_server_port := 443;
     oc_use_secure_connection := true;
     oc_server_url := copy_field (sizeof_ota_server_url sz)
                        (update_url (ota config))
                      (after Ota_update_url) |}.

End Supervisor.

(** ** Remote configuration and commands, remote_config.c *)

Module RemoteConfig.
Import CStr Json Platform.
Local Open Scope string_scope.
Local Open Scope Z_scope.
Local Open Scope fw_scope.

(** [strlen(s)]. *)
Definition strlen (s : string) : Z := Z.of_nat (String.length (c_string s)).

(** remote_config.c lines 36-55: the fields a CSI section overwrites. *)
Definition apply_csi_config (config : cJSON) (c : csi_collector_config_t)
  : csi_collector_config_t :=
  let c1 :=
    match number_item (cJSON_GetObjectItem (Some config) "sample_rate") with
    | Some (i, _) =>
        {| sample_rate := i; buffer_size := buffer_size c;
           filter_enabled := filter_enabled c;
           filter_threshold := filter_threshold c |}
    | None => c
    end in
  let c2 :=
    match number_item (cJSON_GetObjectItem (Some config) "buffer_size") with
    | Some (i, _) =>
        {| sample_rate := sample_rate c1; buffer_size := i;
           filter_enabled := filter_enabled c1;
           filter_threshold := filter_threshold c1 |}
    | None => c1
    end in
  let c3 :=
    match bool_item (cJSON_GetObjectItem (Some config) "filter_enabled") with
    | Some b =>
        {| sample_rate := sample_rate c2; buffer_size := buffer_size c2;
           filter_enabled := b;
           filter_threshold := filter_threshold c2 |}
    | None => c2
    end in
  match number_item (cJSON_GetObjectItem (Some config) "filter_threshold") with
  | Some (_, d) =>
      {| sample_rate := sample_rate c3; buffer_size := buffer_size c3;
         filter_enabled := filter_enabled c3;
         filter_threshold := d |}
  | None => c3
  end.

(** remote_config.c lines 74-88: the fields an MQTT section overwrites. *)
Definition apply_mqtt_config (config : cJSON) (app_cfg : app_config_t)
  : app_config_t :=
  let m := mqtt app_cfg in
  let m1 :=
    match string_item (cJSON_GetObjectItem (Some config) "broker_url") with
    | Some s => set_broker_url m (bounded_copy (broker_url m) s)
    | None => m
    end in
  let m2 :=
    match number_item (cJSON_GetObjectItem (Some config) "port") with
    | Some (i, _) => set_port m1 i
    | None => m1
    end in
  let m3 :=
    match string_item (cJSON_GetObjectItem (Some config) "topic_prefix") with
    | Some s => set_topic_prefix m2 (bounded_copy (topic_prefix m2) s)
    | None => m2
    end in
  set_mqtt app_cfg m3.

(** remote_config.c lines 116-142: the fields a node section overwrites,
    and [restart_required]. *)
Definition apply_node_settings (config : cJSON) (app_cfg : app_config_t)
  : app_config_t * bool :=
  let cfg1 :=
    match string_item (cJSON_GetObjectItem (Some config) "node_name") with
    | Some s => set_device_name app_cfg (bounded_copy (device_name app_cfg) s)
    | None => app_cfg
    end in
  match cJSON_GetObjectItem (Some config) "wifi" with
  | Some wifi_item =>
      let ssid_item := cJSON_GetObjectItem (Some wifi_item) "ssid" in
      let password_item := cJSON_GetObjectItem (Some wifi_item) "password" in
      let '(cfg2, restart1) :=
        match string_item ssid_item with
        | Some s =>
            (set_wifi cfg1
               (set_ssid (wifi cfg1) (bounded_copy (ssid (wifi cfg1)) s)),
             true)
        | None => (cfg1, false)
        end in
      match string_item password_item with
      | Some s =>
          (set_wifi cfg2
             (set_password (wifi cfg2)
                (bounded_copy (password (wifi cfg2)) s)),
           true)
      | None => (cfg2, restart1)
      end
  | None => (cfg1, false)
  end.

Section Handlers.

Context {W : Type} `{Platform W}.

Definition log (level : log_level) (format : string) : M W unit :=
  do_call (esp_log level format).

(** remote_config.c lines 26-59. *)
Definition handle_csi_config (config : cJSON) : M W esp_err_t :=
  r <- do_call csi_collector_get_config ;;
  if is_ok (fst r) then
    do_call (csi_collector_update_config (apply_csi_config config (snd r)))
  else ret (fst r).

(** remote_config.c lines 64-101. *)
Definition handle_mqtt_config (config : cJSON) : M W esp_err_t :=
  r <- do_call app_config_load ;;
  if is_ok (fst r) then
    let app_cfg := apply_mqtt_config config (snd r) in
    err <- do_call (app_config_save app_cfg) ;;
    if is_ok err then
      _ <- do_call mqtt_client_stop ;;
      do_call (vTaskDelay (pdMS_TO_TICKS 1000)) ;;
      _ <- do_call (mqtt_client_init (mqtt app_cfg)) ;;
      _ <- do_call mqtt_client_start ;;
      ret err
    else ret err
  else
    log LOG_E "Failed to load config: %s" ;;
    ret (fst r).

(** remote_config.c lines 106-154. *)
Definition handle_node_settings (config : cJSON) : M W esp_err_t :=
  r <- do_call app_config_load ;;
  if is_ok (fst r) then
    let '(app_cfg, restart_required) := apply_node_settings config (snd r) in
    err <- do_call (app_config_save app_cfg) ;;
    if is_ok err && restart_required then
      log LOG_W "WiFi settings changed, restart required in 5 seconds" ;;
      do_call (vTaskDelay (pdMS_TO_TICKS 5000)) ;;
      restart
    else ret err
  else
    log LOG_E "Failed to load config: %s" ;;
    ret (fst r).

(** One of the three section blocks of [remote_config_update_handler]:
    when the section is present its handler runs and its result replaces
    [err]; a failure is logged. *)
Definition run_section (config : cJSON) (name : string)
    (handler : cJSON -> M W esp_err_t) (failure : string) (err : esp_err_t)
  : M W esp_err_t :=
  match cJSON_GetObjectItem (Some config) name with
  | Some section =>
      err' <- handler section ;;
      (if is_ok err' then ret tt else log LOG_E failure) ;;
      ret err'
  | None => ret err
  end.

(** remote_config.c lines 194-211: the acknowledgment. *)
Definition send_ack (err : esp_err_t) : M W unit :=
  r <- do_call app_config_load ;;
  if is_ok (fst r) then
    let ack_topic :=
      snprintf_cut 128
        ("devices/" ++ c_str (device_name (snd r)) ++ "/config/ack") in
    now <- do_call esp_timer_get_time ;;
    let ack :=
      Out_Object
        [("status", Out_String (if is_ok err then "success" else "failed"));
         ("timestamp",
          Out_Number (Dbl_div (Dbl_of_int now) (Dbl_lit "1000000.0")))] in
    ack_str <- do_call (cJSON_PrintUnformatted ack) ;;
    match ack_str with
    | Some s =>
        _ <- do_call (mqtt_client_publish ack_topic s (strlen s) 1 false) ;;
        ret tt
    | None => ret tt
    end
  else ret tt.

(** The three section blocks, remote_config.c lines 165-192, in two
    steps: the CSI and MQTT sections, then the node section. *)
Definition sections_before_node (config : cJSON) : M W esp_err_t :=
  err1 <- run_section config "csi" handle_csi_config
            "Failed to update CSI config: %s" ESP_OK ;;
  run_section config "mqtt" handle_mqtt_config
    "Failed to update MQTT config: %s" err1.

Definition node_section (config : cJSON) (err : esp_err_t) : M W esp_err_t :=
  run_section config "node" handle_node_settings
    "Failed to update node settings: %s" err.

(** remote_config.c lines 159-214. *)
Definition remote_config_update_handler (config : option cJSON)
  : M W esp_err_t :=
  match config with
  | None => ret ESP_ERR_INVALID_ARG
  | Some cfg =>
      err2 <- sections_before_node cfg ;;
      err <- node_section cfg err2 ;;
      send_ack err ;;
      ret err
  end.

(** remote_config.c lines 269-309; the uptime is the integer quotient
    [esp_timer_get_time() / 1000000]. *)
Definition publish_detailed_status : M W unit :=
  r <- do_call app_config_load ;;
  if is_ok (fst r) then
    let cfg := snd r in
    now <- do_call esp_timer_get_time ;;
    free_heap <- do_call esp_get_free_heap_size ;;
    running <- do_call csi_collector_is_running ;;
    st <- do_call csi_collector_get_stats ;;
    let csi_status :=
      Out_Object
        (("running", Out_Bool running) ::
         (if is_ok (fst st) then
            [("packets_received",
              Out_Number (Dbl_of_int (packets_received (snd st))));
             ("packets_processed",
              Out_Number (Dbl_of_int (packets_processed (snd st))));
             ("packets_dropped",
              Out_Number (Dbl_of_int (packets_dropped (snd st))))]
          else [])) in
    let status :=
      Out_Object
        [("device_name", Out_String (c_str (device_name cfg)));
         ("version", Out_String (c_str (firmware_version cfg)));
         ("uptime", Out_Number (Dbl_of_int (Z.quot now 1000000)));
         ("free_heap", Out_Number (Dbl_of_int free_heap));
         ("csi", csi_status)] in
    let topic :=
      snprintf_cut 128
        ("devices/" ++ c_str (device_name cfg) ++ "/status/detailed") in
    status_str <- do_call (cJSON_PrintUnformatted status) ;;
    match status_str with
    | Some s =>
        _ <- do_call (mqtt_client_publish topic s (strlen s) 1 false) ;;
        ret tt
    | None => ret tt
    end
  else log LOG_E "Failed to load configuration for status".

(** The [if]/[else if] chain of [remote_command_handler],
    remote_config.c lines 233-263. *)
Definition run_command (command : string) : M W esp_err_t :=
  if strcmp_eq command "restart" then
    log LOG_W "Restart requested, restarting in 2 seconds" ;;
    do_call (vTaskDelay (pdMS_TO_TICKS 2000)) ;;
    restart
  else if strcmp_eq command "start_csi" then
    do_call csi_collector_start
  else if strcmp_eq command "stop_csi" then
    do_call csi_collector_stop
  else if strcmp_eq command "calibrate" then
    log LOG_I "Starting calibration mode" ;;
    ret ESP_OK
  else if strcmp_eq command "factory_reset" then
    log LOG_W "Factory reset requested" ;;
    _ <- do_call nvs_flash_erase ;;
    restart
  else if strcmp_eq command "get_status" then
    publish_detailed_status ;;
    ret ESP_OK
  else
    log LOG_W "Unknown command: %s" ;;
    ret ESP_ERR_NOT_SUPPORTED.

(** remote_config.c lines 219-264. *)
Definition remote_command_handler (params : option cJSON) : M W esp_err_t :=
  match params with
  | None => ret ESP_ERR_INVALID_ARG
  | Some _ =>
      match string_item (cJSON_GetObjectItem params "command") with
      | None => ret ESP_ERR_INVALID_ARG
      | Some command =>
          log LOG_I "Executing remote command: %s" ;;
          run_command command
      end
  end.

End Handlers.

(** The command strings [remote_command_handler] knows. *)
Definition known_commands : list string :=
  ["restart"; "start_csi"; "stop_csi"; "calibrate"; "factory_reset";
   "get_status"].

Definition is_known_command (command : string) : bool :=
  existsb (strcmp_eq command) known_commands.

(** A node section asks for new WiFi credentials: its ["wifi"] member
    has a string under ["ssid"] or under ["password"]. *)
Definition wifi_change_requested (node : cJSON) : bool :=
  match cJSON_GetObjectItem (Some node) "wifi" with
  | Some wifi_item =>
      match string_item (cJSON_GetObjectItem (Some wifi_item) "ssid"),
            string_item (cJSON_GetObjectItem (Some wifi_item) "password") with
      | None, None => false
      | _, _ => true
      end
  | None => false
  end.

End RemoteConfig.

(** ** Reading a trace *)

Module Trace.
Import CStr Json Platform.

(** The pops on the collector queue: the timeout given and what came
    back. *)
Definition pop_of (e : event) : option (Z * (esp_err_t * csi_data_t)) :=
  match e with
  | Ev c r =>
      match c in call T return T -> option (Z * (esp_err_t * csi_data_t)) with
      | csi_collector_get_data t => fun r => Some (t, r)
      | _ => fun _ => None
      end r
  end.

(** The samples drained: the pops that came back with [ESP_OK]. *)
Definition drained_of (e : event) : option csi_data_t :=
  match pop_of e with
  | Some (_, (err, d)) => if is_ok err then Some d else None
  | None => None
  end.

(** The samples released back to the collector. *)
Definition released_of (e : event) : option csi_data_t :=
  match e with
  | Ev c _ =>
      match c with
      | csi_collector_free_data d => Some d
      | _ => None
      end
  end.

(** The samples sent to the channel, with the result of the send. *)
Definition published_of (e : event) : option (csi_data_t * esp_err_t) :=
  match e with
  | Ev c r =>
      match c in call T return T -> option (csi_data_t * esp_err_t) with
      | mqtt_client_publish_csi_data d => fun r => Some (d, r)
      | _ => fun _ => None
      end r
  end.

(** The answers of [mqtt_client_is_connected]. *)
Definition connected_of (e : event) : option bool :=
  match e with
  | Ev c r =>
      match c in call T return T -> option bool with
      | mqtt_client_is_connected => fun r => Some r
      | _ => fun _ => None
      end r
  end.

(** The answers of [ntp_sync_is_synchronized]. *)
Definition synchronized_of (e : event) : option bool :=
  match e with
  | Ev c r =>
      match c in call T return T -> option bool with
      | ntp_sync_is_synchronized => fun r => Some r
      | _ => fun _ => None
      end r
  end.

(** What [ntp_sync_get_time] handed back. *)
Definition clock_read_of (e : event) : option (esp_err_t * timeval) :=
  match e with
  | Ev c r =>
      match c in call T return T -> option (esp_err_t * timeval) with
      | ntp_sync_get_time => fun r => Some r
      | _ => fun _ => None
      end r
  end.

(** The delays, in ticks. *)
Definition delay_of (e : event) : option Z :=
  match e with
  | Ev c _ =>
      match c with
      | vTaskDelay ticks => Some ticks
      | _ => None
      end
  end.

(** The readings of [esp_get_free_heap_size]. *)
Definition heap_of (e : event) : option Z :=
  match e with
  | Ev c r =>
      match c in call T return T -> option Z with
      | esp_get_free_heap_size => fun r => Some r
      | _ => fun _ => None
      end r
  end.

Record alert : Type := mk_alert {
  alert_device : string;
  alert_level : string;
  alert_component : string;
  alert_message : string
}.

Definition alert_of (e : event) : option alert :=
  match e with
  | Ev c _ =>
      match c with
      | mqtt_publish_alert d l k m => Some (mk_alert d l k m)
      | _ => None
      end
  end.

Definition restart_of (e : event) : option unit :=
  match e with
  | Ev c _ =>
      match c with
      | esp_restart => Some tt
      | _ => None
      end
  end.

(** The topics published on with [mqtt_client_publish]. *)
Definition publication_of (e : event) : option string :=
  match e with
  | Ev c _ =>
      match c with
      | mqtt_client_publish topic _ _ _ _ => Some topic
      | _ => None
      end
  end.

(** The values a reader finds in a trace, in order. *)
Fixpoint collect {A : Type} (f : event -> option A) (evs : list event)
  : list A :=
  match evs with
  | [] => []
  | e :: rest =>
      match f e with
      | Some a => a :: collect f rest
      | None => collect f rest
      end
  end.

Definition pops : list event -> list (Z * (esp_err_t * csi_data_t)) :=
  collect pop_of.
Definition drained : list event -> list csi_data_t := collect drained_of.
Definition released : list event -> list csi_data_t := collect released_of.
Definition published : list event -> list (csi_data_t * esp_err_t) :=
  collect published_of.
Definition connected_answers : list event -> list bool := collect connected_of.
Definition synchronized_answers : list event -> list bool :=
  collect synchronized_of.
Definition clock_reads : list event -> list (esp_err_t * timeval) :=
  collect clock_read_of.
Definition delays : list event -> list Z := collect delay_of.
Definition heap_readings : list event -> list Z := collect heap_of.
Definition alerts : list event -> list alert := collect alert_of.
Definition restarts : list event -> list unit := collect restart_of.
Definition publications : list event -> list string := collect publication_of.

(** The reading the health guard acts on is the last one of its tick. *)
Definition guard_reading (evs : list event) : option Z :=
  last (map Some (heap_readings evs)) None.

(** The calls of the periodic reports of the main loop, main.c lines
    239-303: logging, the tick counter, heap and task readings, clock and
    channel status, the metrics publication and the update check. *)
Definition housekeeping_event (e : event) : bool :=
  match e with
  | Ev c _ =>
      match c with
      | esp_log _ _
      | xTaskGetTickCount
      | uxTaskGetNumberOfTasks
      | esp_get_free_heap_size
      | esp_get_minimum_free_heap_size
      | ntp_sync_is_synchronized
      | ntp_client_get_sync_quality
      | mqtt_client_is_connected
      | mqtt_client_get_stats
      | mqtt_publish_system_metrics _ _ _ _ _
      | ota_updater_check_for_updates => true
      | _ => false
      end
  end.

(** The events outside a set. *)
Definition other_than (S : event -> bool) (e : event) : option event :=
  if S e then None else Some e.

(** A piece of code never emits an event the reader [f] picks up. *)
Definition quiet {W A B : Type} (f : event -> option B) (m : M W A) : Prop :=
  forall w, collect f (events_of (m w)) = [].

(** A piece of code always returns. *)
Definition returns {W A : Type} (m : M W A) : Prop :=
  forall w, exists a, outcome_of (m w) = Done a.

End Trace.

(** ** What the main loop does with one sample, as events *)

Module CsiFlow.
Import CStr Json Platform Supervisor Trace.

Local Open Scope string_scope.

(** The clock part of the sample's path, main.c lines 210-216: what is
    asked of the clock, and the sample that goes on. *)
Inductive clock_events (d : csi_data_t) : list event -> csi_data_t -> Prop :=
| clock_unsynchronized :
    clock_events d [Ev ntp_sync_is_synchronized false] d
| clock_read_failed (q : esp_err_t * timeval) :
    is_ok (fst q) = false ->
    clock_events d [Ev ntp_sync_is_synchronized true; Ev ntp_sync_get_time q] d
| clock_corrected (q : esp_err_t * timeval) :
    is_ok (fst q) = true ->
    clock_events d [Ev ntp_sync_is_synchronized true; Ev ntp_sync_get_time q]
      (set_timestamp d (corrected_timestamp (snd q))).

(** The channel part, main.c lines 223-232. *)
Inductive channel_events (d : csi_data_t) (ls : loop_state)
  : list event -> loop_state -> Prop :=
| channel_dropped :
    channel_events d ls [Ev mqtt_client_is_connected false] ls
| channel_sent (err : esp_err_t) :
    is_ok err = true ->
    channel_events d ls
      [Ev mqtt_client_is_connected true; Ev (mqtt_client_publish_csi_data d) err]
      (bump_mqtt_publish_count ls)
| channel_failed (err : esp_err_t) :
    is_ok err = false ->
    channel_events d ls
      [Ev mqtt_client_is_connected true; Ev (mqtt_client_publish_csi_data d) err;
       Ev (esp_log LOG_W "Failed to publish CSI data to MQTT: %s") tt]
      (bump_mqtt_publish_errors ls).

(** The whole CSI block, main.c lines 204-237, for a pop with timeout
    [timeout]. *)
Inductive csi_events (timeout : Z) (ls : loop_state)
  : list event -> loop_state -> Prop :=
| csi_not_running :
    csi_events timeout ls [Ev csi_collector_is_running false] ls
| csi_nothing (r : esp_err_t * csi_data_t) :
    is_ok (fst r) = false ->
    csi_events timeout ls
      [Ev csi_collector_is_running true; Ev (csi_collector_get_data timeout) r]
      ls
| csi_sample (r : esp_err_t * csi_data_t) (clock channel : list event)
    (d' : csi_data_t) (ls' : loop_state) :
    is_ok (fst r) = true ->
    clock_events (snd r) clock d' ->
    channel_events d' (bump_csi_data_count ls) channel ls' ->
    csi_events timeout ls
      ([Ev csi_collector_is_running true; Ev (csi_collector_get_data timeout) r]
       ++ clock
       ++ [Ev (esp_log LOG_D "CSI data received: %d bytes, RSSI: %d dBm, MAC: %02X:%02X:%02X:%02X:%02X:%02X") tt]
       ++ channel
       ++ [Ev (csi_collector_free_data d') tt])
      ls'.

(** The two ways an iteration ends, main.c lines 305-315: on a heap
    reading [h] of at least 10,000 bytes, and below. *)
Definition normal_ending {W : Type} `{Platform W} (h : Z) : list event :=
  [Ev esp_get_free_heap_size h; Ev (vTaskDelay (pdMS_TO_TICKS 100)) tt].

Definition fatal_ending {W : Type} `{Platform W} (config : app_config_t)
    (h : Z) (alert_result : esp_err_t) : list event :=
  [Ev esp_get_free_heap_size h;
   Ev (esp_log LOG_E "Critical low memory condition detected!") tt;
   Ev (mqtt_publish_alert (c_str (device_name config))
         "ERROR" "SYSTEM" "Critical low memory") alert_result;
   Ev (vTaskDelay (pdMS_TO_TICKS 5000)) tt;
   Ev esp_restart tt].

End CsiFlow.

(** ** A scripted platform, for running the code on concrete inputs *)

Module Bench.
Import CStr Json Platform Supervisor.

Local Open Scope string_scope.

(** The world of the scripted platform: the answers the collaborators
    give, the free heap and the tick counter.  Every [vTaskDelay] moves
    the tick counter on and costs [heap_loss] bytes of heap. *)
Record script : Type := mk_script {
  collector_running : bool;
  queue_head : esp_err_t * csi_data_t;
  clock_synchronized : bool;
  clock_time : esp_err_t * timeval;
  channel_connected : bool;
  publish_result : esp_err_t;
  alert_result : esp_err_t;
  free_heap : Z;
  heap_loss : Z;
  now_ticks : Z;
  stored_config : esp_err_t * app_config_t;
  save_result : esp_err_t;
  collector_result : esp_err_t
}.

Definition after_delay (ticks : Z) (s : script) : script :=
  {| collector_running := collector_running s;
     queue_head := queue_head s;
     clock_synchronized := clock_synchronized s;
     clock_time := clock_time s;
     channel_connected := channel_connected s;
     publish_result := publish_result s;
     alert_result := alert_result s;
     free_heap := free_heap s - heap_loss s;
     heap_loss := heap_loss s;
     now_ticks := wrap32 (now_ticks s + ticks);
     stored_config := stored_config s;
     save_result := save_result s;
     collector_result := collector_result s |}.

Definition scripted_perform (A : Type) (c : call A) (s : script) : A * script :=
  match c in call T return T * script with
  | esp_log _ _ => (tt, s)
  | vTaskDelay ticks => (tt, after_delay ticks s)
  | xTaskGetTickCount => (now_ticks s, s)
  | uxTaskGetNumberOfTasks => (7, s)
  | esp_restart => (tt, s)
  | esp_get_free_heap_size => (free_heap s, s)
  | esp_get_minimum_free_heap_size => (free_heap s, s)
  | esp_timer_get_time => (now_ticks s * 10000, s)
  | nvs_flash_erase => (ESP_OK, s)
  | csi_collector_is_running => (collector_running s, s)
  | csi_collector_get_data _ => (queue_head s, s)
  | csi_collector_free_data _ => (tt, s)
  | csi_collector_start => (collector_result s, s)
  | csi_collector_stop => (collector_result s, s)
  | csi_collector_get_config =>
      ((ESP_OK, mk_csi_config 100 64 false (Dbl_lit "0.5")), s)
  | csi_collector_update_config _ => (collector_result s, s)
  | csi_collector_get_stats => ((ESP_OK, mk_csi_stats 10 9 1), s)
  | ntp_sync_is_synchronized => (clock_synchronized s, s)
  | ntp_sync_get_time => (clock_time s, s)
  | ntp_client_get_sync_quality => ((ESP_OK, mk_quality 2 3 60), s)
  | mqtt_client_is_connected => (channel_connected s, s)
  | mqtt_client_publish_csi_data _ => (publish_result s, s)
  | mqtt_client_get_stats => ((ESP_OK, mk_mqtt_stats 5 2 0), s)
  | mqtt_client_publish _ _ _ _ _ => (ESP_OK, s)
  | mqtt_client_stop => (ESP_OK, s)
  | mqtt_client_init _ => (ESP_OK, s)
  | mqtt_client_start => (ESP_OK, s)
  | mqtt_publish_system_metrics _ _ _ _ _ => (ESP_OK, s)
  | mqtt_publish_alert _ _ _ _ => (alert_result s, s)
  | ota_updater_check_for_updates => (ESP_OK, s)
  | app_config_load => (stored_config s, s)
  | app_config_save _ => (save_result s, s)
  | cJSON_PrintUnformatted _ => (Some "{}", s)
  end.

#[export] Instance scripted : Platform script :=
  {| configTICK_RATE_HZ := 100; perform := scripted_perform |}.

(** A character array of [size] bytes holding the string [s]. *)
Definition array_of (size : nat) (s : string) : list ascii :=
  bounded_copy (zeroed size) s.

Definition bench_config : app_config_t :=
  {| device_name := array_of 8 "node-1";
     firmware_version := array_of 8 "1.0.0";
     wifi := {| ssid := array_of 8 "lab"; password := array_of 8 "secret" |};
     mqtt := {| mqtt_enabled := true;
                broker_url := array_of 16 "mqtt://broker";
                port := 1883;
                mqtt_username := array_of 8 "user";
                mqtt_password := array_of 8 "pass";
                client_id := array_of 8 "esp32";
                topic_prefix := array_of 8 "csi";
                ssl_enabled := false;
                keepalive := 60 |};
     web_server := {| web_enabled := true;
                      web_port := 80;
                      auth_enabled := true;
                      web_username := array_of 16 "administrator";
                      web_password := array_of 16 "correct-horse" |};
     ntp := {| ntp_enabled := true;
               sync_interval := 60;
               server1 := array_of 16 "pool.ntp.org";
               server2 := array_of 16 "time.nist.gov";
               server3 := array_of 16 "time.google.com" |};
     ota := {| ota_enabled := true;
               auto_update := true;
               check_interval := 60;
               update_url := array_of 32 "https://example.com/fw.bin" |} |}.

Definition bench_sample : csi_data_t :=
  {| timestamp := 42; mac := [0; 17; 34; 51; 68; 85]; rssi := -45;
     len := 4; data := [1; 2; 3; 4] |}.

Definition bench_world : script :=
  {| collector_running := true;
     queue_head := (ESP_OK, bench_sample);
     clock_synchronized := true;
     clock_time := (ESP_OK, mk_timeval 1700000000 250000);
     channel_connected := true;
     publish_result := ESP_OK;
     alert_result := ESP_OK;
     free_heap := 50000;
     heap_loss := 0;
     now_ticks := 1000;
     stored_config := (ESP_OK, bench_config);
     save_result := ESP_OK;
     collector_result := ESP_OK |}.

(** The bench world with a clock that reports synchronized and then fails
    to hand out the time. *)
Definition clock_failing_world : script :=
  {| collector_running := true;
     queue_head := (ESP_OK, bench_sample);
     clock_synchronized := true;
     clock_time := (-1, mk_timeval 1700000000 250000);
     channel_connected := true;
     publish_result := ESP_OK;
     alert_result := ESP_OK;
     free_heap := 50000;
     heap_loss := 0;
     now_ticks := 1000;
     stored_config := (ESP_OK, bench_config);
     save_result := ESP_OK;
     collector_result := ESP_OK |}.

(** The bench world with 10,300 bytes of free heap, losing 200 bytes at
    every delay, and an alert that cannot be sent. *)
Definition leaking_world : script :=
  {| collector_running := true;
     queue_head := (ESP_OK, bench_sample);
     clock_synchronized := true;
     clock_time := (ESP_OK, mk_timeval 1700000000 250000);
     channel_connected := false;
     publish_result := ESP_OK;
     alert_result := -1;
     free_heap := 10300;
     heap_loss := 200;
     now_ticks := 1000;
     stored_config := (ESP_OK, bench_config);
     save_result := ESP_OK;
     collector_result := ESP_OK |}.

(** The bench world with a collector that refuses to start or stop
    ([ESP_ERR_INVALID_STATE]). *)
Definition busy_collector_world : script :=
  {| collector_running := true;
     queue_head := (ESP_OK, bench_sample);
     clock_synchronized := true;
     clock_time := (ESP_OK, mk_timeval 1700000000 250000);
     channel_connected := true;
     publish_result := ESP_OK;
     alert_result := ESP_OK;
     free_heap := 50000;
     heap_loss := 0;
     now_ticks := 1000;
     stored_config := (ESP_OK, bench_config);
     save_result := ESP_OK;
     collector_result := 259 |}.

(** Three documents a server may send: a command, an update of the node
    name, and an update of the WiFi SSID. *)
Definition start_csi_command : cJSON :=
  cJSON_Object [("command", cJSON_String "start_csi")].

Definition name_update : cJSON :=
  cJSON_Object
    [("node", cJSON_Object [("node_name", cJSON_String "a-very-long-node-name")])].

Definition wifi_update : cJSON :=
  cJSON_Object
    [("node",
      cJSON_Object
        [("wifi", cJSON_Object [("ssid", cJSON_String "new-laboratory")])])].

Definition bench_loop_state : loop_state :=
  {| loop_counter := 0; csi_data_count := 0; mqtt_publish_count := 0;
     mqtt_publish_errors := 0; last_stats_time := 1000;
     last_ota_check := 1000; last_system_metrics := 1000 |}.

End Bench.

(** ** More readers of a trace, and invariants of the firmware's state *)

Module Observations.
Import CStr Json Platform Supervisor Trace.

(** The metrics publications: the device name and the three readings. *)
Definition metrics_of (e : event) : option (string * Z * Z * Z) :=
  match e with
  | Ev c _ =>
      match c with
      | mqtt_publish_system_metrics device _ free_heap min_free_heap tasks =>
          Some (device, free_heap, min_free_heap, tasks)
      | _ => None
      end
  end.

(** The update checks, with their result. *)
Definition update_check_of (e : event) : option esp_err_t :=
  match e with
  | Ev c r =>
      match c in call T return T -> option esp_err_t with
      | ota_updater_check_for_updates => fun r => Some r
      | _ => fun _ => None
      end r
  end.

(** The erasures of the non-volatile storage, with their result. *)
Definition erase_of (e : event) : option esp_err_t :=
  match e with
  | Ev c r =>
      match c in call T return T -> option esp_err_t with
      | nvs_flash_erase => fun r => Some r
      | _ => fun _ => None
      end r
  end.

(** The arguments of a [mqtt_client_publish]. *)
Record publication : Type := mk_publication {
  pub_topic : string;
  pub_payload : string;
  pub_length : Z;
  pub_qos : Z;
  pub_retain : bool
}.

Definition publish_args_of (e : event) : option publication :=
  match e with
  | Ev c _ =>
      match c with
      | mqtt_client_publish topic payload length qos retain =>
          Some (mk_publication topic payload length qos retain)
      | _ => None
      end
  end.

(** The documents handed to [cJSON_PrintUnformatted]. *)
Definition printed_of (e : event) : option json_out :=
  match e with
  | Ev c _ =>
      match c with
      | cJSON_PrintUnformatted doc => Some doc
      | _ => None
      end
  end.

(** The configurations handed to [app_config_save]. *)
Definition saved_of (e : event) : option app_config_t :=
  match e with
  | Ev c _ =>
      match c with
      | app_config_save cfg => Some cfg
      | _ => None
      end
  end.

(** The collector configurations handed to [csi_collector_update_config]. *)
Definition collector_update_of (e : event) : option csi_collector_config_t :=
  match e with
  | Ev c _ =>
      match c with
      | csi_collector_update_config cfg => Some cfg
      | _ => None
      end
  end.

Definition metrics_publications : list event -> list (string * Z * Z * Z) :=
  collect metrics_of.
Definition update_checks : list event -> list esp_err_t := collect update_check_of.
Definition erasures : list event -> list esp_err_t := collect erase_of.
Definition publish_calls : list event -> list publication := collect publish_args_of.
Definition printed : list event -> list json_out := collect printed_of.
Definition saved : list event -> list app_config_t := collect saved_of.
Definition collector_updates : list event -> list csi_collector_config_t :=
  collect collector_update_of.

(** The sends that succeeded and the sends that failed. *)
Definition sends_ok (evs : list event) : list (csi_data_t * esp_err_t) :=
  filter (fun p => is_ok (snd p)) (published evs).
Definition sends_failed (evs : list event) : list (csi_data_t * esp_err_t) :=
  filter (fun p => negb (is_ok (snd p))) (published evs).

(** A piece of code always returns, with a value that satisfies [P]. *)
Definition yields {W A : Type} (P : A -> Prop) (m : M W A) : Prop :=
  forall w, exists a, outcome_of (m w) = Done a /\ P a.

(** The four counters of the main loop are those of [ls]. *)
Definition same_counters (ls ls' : loop_state) : Prop :=
  loop_counter ls' = loop_counter ls /\
  csi_data_count ls' = csi_data_count ls /\
  mqtt_publish_count ls' = mqtt_publish_count ls /\
  mqtt_publish_errors ls' = mqtt_publish_errors ls.

(** The four counters hold 32-bit values. *)
Definition counters_in_range (ls : loop_state) : Prop :=
  0 <= loop_counter ls < 2 ^ 32 /\
  0 <= csi_data_count ls < 2 ^ 32 /\
  0 <= mqtt_publish_count ls < 2 ^ 32 /\
  0 <= mqtt_publish_errors ls < 2 ^ 32.

(** A character array whose last byte is NUL: whatever is copied into
    the bytes before it, the array holds a terminated string. *)
Definition terminated (buf : list ascii) : Prop :=
  nth_error buf (length buf - 1) = Some NUL.

(** The five string fields remote updates write are terminated. *)
Definition strings_terminated (cfg : app_config_t) : Prop :=
  terminated (device_name cfg) /\
  terminated (ssid (wifi cfg)) /\
  terminated (password (wifi cfg)) /\
  terminated (broker_url (mqtt cfg)) /\
  terminated (topic_prefix (mqtt cfg)).

(** Two configurations whose five string fields have the same sizes. *)
Definition same_sizes (cfg cfg' : app_config_t) : Prop :=
  length (device_name cfg') = length (device_name cfg) /\
  length (ssid (wifi cfg')) = length (ssid (wifi cfg)) /\
  length (password (wifi cfg')) = length (password (wifi cfg)) /\
  length (broker_url (mqtt cfg')) = length (broker_url (mqtt cfg)) /\
  length (topic_prefix (mqtt cfg')) = length (topic_prefix (mqtt cfg)).

(** The steps that restart the MQTT client, and the waits between
    them. *)
Inductive client_step : Type :=
| Client_stop
| Client_wait (ticks : Z)
| Client_init (settings : mqtt_section)
| Client_start.

Definition client_step_of (e : event) : option client_step :=
  match e with
  | Ev c _ =>
      match c with
      | mqtt_client_stop => Some Client_stop
      | vTaskDelay ticks => Some (Client_wait ticks)
      | mqtt_client_init settings => Some (Client_init settings)
      | mqtt_client_start => Some Client_start
      | _ => None
      end
  end.

Definition client_steps : list event -> list client_step := collect client_step_of.

(** The strings [cJSON_PrintUnformatted] handed back ([None] for NULL). *)
Definition print_result_of (e : event) : option (option string) :=
  match e with
  | Ev c r =>
      match c in call T return T -> option (option string) with
      | cJSON_PrintUnformatted _ => fun r => Some r
      | _ => fun _ => None
      end r
  end.

Definition print_results : list event -> list (option string) :=
  collect print_result_of.

(** The configuration loads, with what the store handed back. *)
Definition load_of (e : event) : option (esp_err_t * app_config_t) :=
  match e with
  | Ev c r =>
      match c in call T return T -> option (esp_err_t * app_config_t) with
      | app_config_load => fun r => Some r
      | _ => fun _ => None
      end r
  end.

Definition loads : list event -> list (esp_err_t * app_config_t) :=
  collect load_of.

(** The member [name] of a document the firmware built. *)
Definition out_member (name : string) (doc : json_out) : option json_out :=
  match doc with
  | Out_Object members =>
      option_map snd (find (fun m => String.eqb (fst m) name) members)
  | _ => None
  end.

(** The array [dst] of [size] bytes holds a terminated string, and it
    holds the C string [source] whole when that has at most [size - 1]
    characters. *)
Definition passed_on (size : nat) (source : string) (dst : list ascii) : Prop :=
  length dst = size /\
  terminated dst /\
  ((String.length (c_string source) <= size - 1)%nat ->
   c_str dst = c_string source).

(** The state a run ends in, or [ls] when it restarted the device. *)
Definition final_state {W : Type} (ls : loop_state)
    (r : outcome loop_state * W * list event) : loop_state :=
  match outcome_of r with
  | Done ls' => ls'
  | Reboot => ls
  end.

End Observations.

(** ** Start-up: the wait for the first clock synchronization *)

Module Startup.
Import CStr Json Platform.
Local Open Scope string_scope.
Local Open Scope Z_scope.
Local Open Scope fw_scope.

Section Wait.

Context {W : Type} `{Platform W}.

(** main.c lines 111-113, the loop
    [for (i = 0; i < 30 && !ntp_sync_is_synchronized(); i++)
       vTaskDelay(pdMS_TO_TICKS(1000));]
    with [remaining] of its 30 rounds left: when none is left the clock
    is not asked. *)
Fixpoint wait_for_sync (remaining : nat) : M W unit :=
  match remaining with
  | O => ret tt
  | S rest =>
      synchronized <- do_call ntp_sync_is_synchronized ;;
      if synchronized then ret tt
      else
        do_call (vTaskDelay (pdMS_TO_TICKS 1000)) ;;
        wait_for_sync rest
  end.

Definition initial_sync_wait : M W unit := wait_for_sync 30.

End Wait.

End Startup.

(* ================================================================== *)
(** * Properties *)

(** ** WireCodec *)

Section WireCodecFacts.
Import WireCodec.

Lemma Z_of_byte_of_Z (z : Z) : Z_of_byte (byte_of_Z z) = wrap8 z.
Proof.
  unfold Z_of_byte, byte_of_Z, wrap8.
  assert (Hr : 0 <= z mod 2 ^ 8 < 256) by (apply Z.mod_pos_bound; lia).
  destruct (Byte.of_N (Z.to_N (z mod 2 ^ 8))) as [b|] eqn:E.
  - apply Byte.to_of_N in E. rewrite E. lia.
  - apply Byte.of_N_None_iff in E. lia.
Qed.

Lemma le_bytes_length (n : nat) (z : Z) : length (le_bytes n z) = n.
Proof.
  revert z. induction n as [|n IH]; intros z; simpl; [reflexivity|].
  now rewrite IH.
Qed.

Lemma le_value_le_bytes (n : nat) (z : Z) :
  le_value (le_bytes n z) = z mod 256 ^ Z.of_nat n.
Proof.
  revert z. induction n as [|n IH]; intros z.
  - simpl. now rewrite Z.mod_1_r.
  - cbn [le_bytes le_value]. rewrite Z_of_byte_of_Z, IH. unfold wrap8.
    rewrite Nat2Z.inj_succ, Z.pow_succ_r by lia.
    change (2 ^ 8) with 256.
    rewrite Z.rem_mul_r by lia. reflexivity.
Qed.

Lemma header_bytes_length (h : websocket_msg_header_t) :
  zlength (header_bytes h) = HEADER_SIZE.
Proof.
  unfold zlength, header_bytes. rewrite !length_app, !le_bytes_length.
  reflexivity.
Qed.

End WireCodecFacts.


Section WireCodecClaims.
Import WireCodec.

Lemma msg_type_of_value_value (t : websocket_msg_type_t) :
  msg_type_of_value (wrap8 (msg_type_value t)) = Some t.
Proof. destruct t; reflexivity. Qed.

Lemma zlength_nonneg {A : Type} (l : list A) : 0 <= zlength l.
Proof. unfold zlength. lia. Qed.

Lemma zlength_app {A : Type} (l1 l2 : list A) :
  zlength (l1 ++ l2) = zlength l1 + zlength l2.
Proof. unfold zlength. rewrite length_app. lia. Qed.

Lemma firstn_zlength {A : Type} (l : list A) :
  firstn (Z.to_nat (zlength l)) l = l.
Proof. unfold zlength. rewrite Nat2Z.id. apply firstn_all. Qed.

(** Decoding a header image followed by a payload whose length the header
    declares gives the header fields back, reduced to their widths. *)
Lemma decode_header_bytes (h : websocket_msg_header_t) (t : websocket_msg_type_t)
    (payload : list byte) :
  msg_type_of_value (wrap8 (msg_type h)) = Some t ->
  payload_len h = zlength payload ->
  zlength payload <= 65535 ->
  decode (header_bytes h ++ payload) =
  Ok ({| msg_type := wrap8 (msg_type h);
         device_id_len := wrap8 (device_id_len h);
         payload_len := payload_len h;
         sequence_num := wrap32 (sequence_num h) |}, payload).
Proof.
  intros Htag Hlen Hmax.
  unfold header_bytes. cbn [le_bytes app]. unfold decode.
  cbv zeta. cbn [msg_type payload_len].
  rewrite Z_of_byte_of_Z, Htag.
  pose proof (le_value_le_bytes 2 (payload_len h)) as H2.
  pose proof (le_value_le_bytes 4 (sequence_num h)) as H4.
  cbn [le_bytes] in H2, H4. rewrite H2, H4. clear H2 H4.
  change (256 ^ Z.of_nat 2) with 65536.
  change (256 ^ Z.of_nat 4) with (2 ^ 32).
  pose proof (zlength_nonneg payload).
  rewrite (Z.mod_small (payload_len h)) by lia.
  rewrite Hlen, Z.ltb_irrefl, firstn_zlength, Z_of_byte_of_Z.
  reflexivity.
Qed.

(** The modelled codec: for every tag of the seven-variant set, device
    identifier of at most 255 bytes and payload of at most 65,535 bytes
    that also fits the configured buffer size, the encoding is the 8-byte
    header tag(1), device_id_len(1), payload_len(2), sequence(4) followed
    by the payload bytes, and decoding it returns the original tag, the
    length of the device identifier, the sequence number and the original
    payload. *)
Lemma roundtrip_tag_length_payload :
  forall (buffer_size sequence : Z) (tag : websocket_msg_type_t)
         (device_id payload : list byte),
    zlength device_id <= 255 ->
    zlength payload <= 65535 ->
    zlength payload <= buffer_size ->
    exists frame h,
      encode buffer_size sequence tag device_id payload = Ok frame /\
      frame = [byte_of_Z (msg_type_value tag); byte_of_Z (zlength device_id)]
              ++ le_bytes 2 (zlength payload) ++ le_bytes 4 (wrap32 sequence)
              ++ payload /\
      zlength frame = HEADER_SIZE + zlength payload /\
      decode frame = Ok (h, payload) /\
      decoded_tag h = Some tag /\
      device_id_len h = zlength device_id /\
      payload_len h = zlength payload /\
      sequence_num h = wrap32 sequence.
Proof.
  intros buffer_size sequence tag device_id payload Hid Hpl Hbuf.
  pose proof (zlength_nonneg device_id) as Hid0.
  unfold encode.
  replace (65535 <? zlength payload) with false by (symmetry; apply Z.ltb_ge; lia).
  replace (buffer_size <? zlength payload) with false by (symmetry; apply Z.ltb_ge; lia).
  cbn [orb].
  set (hdr := {| msg_type := msg_type_value tag;
                 device_id_len := wrap8 (zlength device_id);
                 payload_len := zlength payload;
                 sequence_num := wrap32 sequence |}).
  eexists. eexists. split; [reflexivity|].
  split.
  { unfold header_bytes, hdr. cbn [msg_type device_id_len payload_len sequence_num le_bytes app].
    unfold wrap8 at 1. rewrite (Z.mod_small (zlength device_id)) by (change (2 ^ 8) with 256; lia).
    reflexivity. }
  split.
  { rewrite zlength_app, header_bytes_length. reflexivity. }
  split.
  { apply (decode_header_bytes hdr tag payload).
    - apply msg_type_of_value_value.
    - reflexivity.
    - assumption. }
  cbn [msg_type device_id_len payload_len sequence_num hdr].
  split; [apply msg_type_of_value_value|].
  split.
  { unfold wrap8. rewrite Z.mod_mod by (change (2 ^ 8) with 256; lia).
    apply Z.mod_small. change (2 ^ 8) with 256. lia. }
  split; [reflexivity|].
  unfold wrap32. apply Z.mod_mod. lia.
Qed.

(** The round trip on a three-byte payload. *)
Lemma roundtrip_example :
  exists frame h,
    encode 1024 7 WS_MSG_HEARTBEAT [x6e; x31] [x01; x02; x03] = Ok frame /\
    frame = [byte_of_Z (msg_type_value WS_MSG_HEARTBEAT); byte_of_Z (zlength [x6e; x31])]
            ++ le_bytes 2 (zlength [x01; x02; x03]) ++ le_bytes 4 (wrap32 7)
            ++ [x01; x02; x03] /\
    zlength frame = HEADER_SIZE + zlength [x01; x02; x03] /\
    decode frame = Ok (h, [x01; x02; x03]) /\
    decoded_tag h = Some WS_MSG_HEARTBEAT /\
    device_id_len h = zlength [x6e; x31] /\
    payload_len h = zlength [x01; x02; x03] /\
    sequence_num h = wrap32 7.
Proof.
  apply (roundtrip_tag_length_payload 1024 7 WS_MSG_HEARTBEAT [x6e; x31]
           [x01; x02; x03]); vm_compute; discriminate.
Defined.

(** The modelled frame is the header followed by the payload, and the
    header holds only the length of the device identifier: two messages
    that differ only in their device identifier have the same encoding.
    Whether the device's own codec also carries the identifier's bytes
    cannot be read off the sources, which hold the header struct only. *)
Lemma header_holds_only_the_id_length :
  ~ exists recover : list byte ->
                     option (websocket_msg_type_t * list byte * list byte),
      forall (tag : websocket_msg_type_t) (device_id payload frame : list byte),
        zlength device_id <= 255 ->
        zlength payload <= 65535 ->
        encode 65535 0 tag device_id payload = Ok frame ->
        recover frame = Some (tag, device_id, payload).
Proof.
  intros [recover Hrec].
  assert (Ha := Hrec WS_MSG_PING [x61] [] _
                  ltac:(vm_compute; discriminate) ltac:(vm_compute; discriminate)
                  eq_refl).
  assert (Hb := Hrec WS_MSG_PING [x62] [] _
                  ltac:(vm_compute; discriminate) ltac:(vm_compute; discriminate)
                  eq_refl).
  vm_compute in Ha, Hb. rewrite Ha in Hb. discriminate Hb.
Qed.

(** C2.  A payload longer than 65,535 bytes is rejected with
    [PayloadTooLarge]; and a message that was encoded has a payload that
    fits the 16-bit field, carries that payload whole after its 8-byte
    header, and declares its exact length. *)
Theorem C2_oversized_payload_rejected_never_truncated :
  forall (buffer_size sequence : Z) (tag : websocket_msg_type_t)
         (device_id payload : list byte),
    (65535 < zlength payload ->
     encode buffer_size sequence tag device_id payload = Err PayloadTooLarge) /\
    (forall frame,
       encode buffer_size sequence tag device_id payload = Ok frame ->
       zlength payload <= 65535 /\
       skipn 8 frame = payload /\
       exists h, decode frame = Ok (h, payload) /\
                 payload_len h = zlength payload).
Proof.
  intros buffer_size sequence tag device_id payload. split.
  - intros Hbig. unfold encode.
    replace (65535 <? zlength payload) with true by (symmetry; apply Z.ltb_lt; lia).
    reflexivity.
  - intros frame Henc. unfold encode in Henc.
    destruct (65535 <? zlength payload) eqn:Hmax; [discriminate|].
    destruct (buffer_size <? zlength payload) eqn:Hbuf; [discriminate|].
    cbn [orb] in Henc. injection Henc as <-.
    apply Z.ltb_ge in Hmax.
    split; [assumption|]. split.
    + unfold header_bytes. cbn [le_bytes app skipn]. reflexivity.
    + eexists. split.
      * apply (decode_header_bytes
                 (mk_header (msg_type_value tag) (wrap8 (zlength device_id))
                            (zlength payload) (wrap32 sequence)) tag payload).
        -- apply msg_type_of_value_value.
        -- reflexivity.
        -- assumption.
      * reflexivity.
Qed.

(** C2 on a payload of 65,536 bytes. *)
Lemma C2_oversized_payload_witness :
  encode 1000000 0 WS_MSG_CSI_DATA [x61] (repeat x00 (Z.to_nat 65536))
  = Err PayloadTooLarge.
Proof.
  apply (C2_oversized_payload_rejected_never_truncated 1000000 0 WS_MSG_CSI_DATA
           [x61] (repeat x00 (Z.to_nat 65536))).
  unfold zlength. rewrite repeat_length. lia.
Defined.

End WireCodecClaims.

Section StreamChannelClaims.
Import WireCodec StreamChannel.

Variable encode_sample : websocket_csi_packet_t -> list byte.
Variable empty_batch_result : result telemetry_error unit.

(** Sending one message on a connected channel whose buffer takes the
    payload puts exactly one frame on the wire, which decodes to the tag
    and the payload. *)
Lemma send_connected (tag : websocket_msg_type_t) (payload : list byte)
    (ch : channel) :
  ch_state ch = Connected ->
  zlength payload <= 65535 ->
  zlength payload <= ch_buffer_size ch ->
  exists frame h,
    send tag payload ch =
      (Ok tt,
       {| ch_state := ch_state ch;
          ch_buffer_size := ch_buffer_size ch;
          ch_device_id := ch_device_id ch;
          ch_next_sequence := wrap32 (ch_next_sequence ch + 1);
          ch_wire := ch_wire ch ++ [frame];
          ch_messages_sent := wrap32 (ch_messages_sent ch + 1) |}) /\
    decode frame = Ok (h, payload) /\
    decoded_tag h = Some tag /\
    sequence_num h = wrap32 (ch_next_sequence ch).
Proof.
  intros Hst Hmax Hbuf. unfold send, is_connected. rewrite Hst.
  unfold encode.
  replace (65535 <? zlength payload) with false by (symmetry; apply Z.ltb_ge; lia).
  replace (ch_buffer_size ch <? zlength payload) with false
    by (symmetry; apply Z.ltb_ge; lia).
  cbn [orb].
  eexists. eexists. split; [reflexivity|].
  split.
  { apply (decode_header_bytes
             (mk_header (msg_type_value tag) (wrap8 (zlength (ch_device_id ch)))
                        (zlength payload) (wrap32 (ch_next_sequence ch)))
             tag payload).
    - apply msg_type_of_value_value.
    - reflexivity.
    - assumption. }
  split.
  - apply msg_type_of_value_value.
  - cbn [sequence_num]. unfold wrap32. apply Z.mod_mod. lia.
Qed.

Lemma send_not_connected (tag : websocket_msg_type_t) (payload : list byte)
    (ch : channel) :
  ch_state ch <> Connected ->
  send tag payload ch = (Err NotConnected, ch).
Proof.
  intros Hst. unfold send, is_connected.
  destruct (ch_state ch); try reflexivity. now elim Hst.
Qed.

(** What [send] does, by the state of the channel and the size of the
    payload. *)
Lemma send_too_large (tag : websocket_msg_type_t) (payload : list byte)
    (ch : channel) :
  ch_state ch = Connected ->
  65535 < zlength payload \/ ch_buffer_size ch < zlength payload ->
  send tag payload ch = (Err PayloadTooLarge, ch).
Proof.
  intros Hst Hbig. unfold send, is_connected, encode. rewrite Hst.
  destruct Hbig as [Hbig|Hbig].
  - replace (65535 <? zlength payload) with true by (symmetry; apply Z.ltb_lt; lia).
    reflexivity.
  - replace (ch_buffer_size ch <? zlength payload) with true
      by (symmetry; apply Z.ltb_lt; lia).
    now rewrite orb_true_r.
Qed.

Lemma send_at_most_one_frame (tag : websocket_msg_type_t) (payload : list byte)
    (ch : channel) :
  ch_wire (snd (send tag payload ch)) = ch_wire ch \/
  exists frame, ch_wire (snd (send tag payload ch)) = ch_wire ch ++ [frame].
Proof.
  unfold send. destruct (is_connected ch); [|now left].
  destruct (encode (ch_buffer_size ch) (ch_next_sequence ch) tag
              (ch_device_id ch) payload) as [frame|e].
  - right. now exists frame.
  - now left.
Qed.


End StreamChannelClaims.

Section StreamChannelRuns.
Import WireCodec StreamChannel.



End StreamChannelRuns.

Section HttpChannelClaims.
Import HttpChannel.

Variable Net : Type.
Variable perform : endpoint -> list byte -> Z -> Net -> attempt_outcome * Net.
Variable backoff_ms : nat -> Z.

Lemma attempts_app (tr1 tr2 : list http_event) :
  attempts (tr1 ++ tr2) = (attempts tr1 + attempts tr2)%nat.
Proof. unfold attempts. now rewrite filter_app, length_app. Qed.

(** A loop that ends in failure has used every attempt it was allowed,
    and none of them was answered. *)
Lemma attempt_loop_failure (cfg : http_telemetry_config_t) (e : endpoint)
    (payload : list byte) :
  forall (remaining done : nat) (net net' : Net) (tr tr' : list http_event),
    attempt_loop Net perform backoff_ms remaining done cfg e payload net tr
    = (false, net', tr') ->
    attempts tr' = (attempts tr + remaining)%nat /\
    (forall e' t o, In (EvAttempt e' t o) tr' ->
                    In (EvAttempt e' t o) tr \/
                    (e' = e /\ t = timeout_ms cfg /\ o <> AttemptOk)).
Proof.
  induction remaining as [|remaining IH]; intros done net net' tr tr' Hrun.
  - cbn in Hrun. injection Hrun as _ <-. split; [lia | auto].
  - cbn [attempt_loop] in Hrun.
    destruct (perform e payload (timeout_ms cfg) net) as [o net1].
    assert (Hone : forall o0, o0 <> AttemptOk ->
              attempts (tr ++ [EvAttempt e (timeout_ms cfg) o0]) = (attempts tr + 1)%nat).
    { intros o0 _. rewrite attempts_app. reflexivity. }
    destruct o; [discriminate| |].
    + destruct remaining as [|remaining'].
      * injection Hrun as _ <-. split.
        -- rewrite attempts_app. reflexivity.
        -- intros e' t o Hin. apply in_app_or in Hin as [Hin|[Hin|[ ]]]; [auto|].
           injection Hin as <- <- <-. right. repeat split; discriminate.
      * apply IH in Hrun as [Hcount Hall]. split.
        -- rewrite Hcount, !attempts_app. cbn. lia.
        -- intros e' t o Hin. apply Hall in Hin as [Hin|Hin]; [|auto].
           apply in_app_or in Hin as [Hin|[Hin|[ ]]]; [|discriminate].
           apply in_app_or in Hin as [Hin|[Hin|[ ]]]; [auto|].
           injection Hin as <- <- <-. right. repeat split; discriminate.
    + destruct remaining as [|remaining'].
      * injection Hrun as _ <-. split.
        -- rewrite attempts_app. reflexivity.
        -- intros e' t o Hin. apply in_app_or in Hin as [Hin|[Hin|[ ]]]; [auto|].
           injection Hin as <- <- <-. right. repeat split; discriminate.
      * apply IH in Hrun as [Hcount Hall]. split.
        -- rewrite Hcount, !attempts_app. cbn. lia.
        -- intros e' t o Hin. apply Hall in Hin as [Hin|Hin]; [|auto].
           apply in_app_or in Hin as [Hin|[Hin|[ ]]]; [|discriminate].
           apply in_app_or in Hin as [Hin|[Hin|[ ]]]; [auto|].
           injection Hin as <- <- <-. right. repeat split; discriminate.
Qed.

(** A loop whose attempts all time out ends in failure. *)
Lemma attempt_loop_timeouts (cfg : http_telemetry_config_t) (e : endpoint)
    (payload : list byte) :
  (forall t net, fst (perform e payload t net) = AttemptTimeout) ->
  forall (remaining done : nat) (net : Net) (tr : list http_event),
    fst (fst (attempt_loop Net perform backoff_ms remaining done cfg e payload net tr))
    = false /\
    (forall e' t o,
       In (EvAttempt e' t o)
          (snd (attempt_loop Net perform backoff_ms remaining done cfg e payload net tr)) ->
       In (EvAttempt e' t o) tr \/ o = AttemptTimeout).
Proof.
  intros Hto.
  induction remaining as [|remaining IH]; intros done net tr.
  - cbn. auto.
  - cbn [attempt_loop].
    specialize (Hto (timeout_ms cfg) net).
    destruct (perform e payload (timeout_ms cfg) net) as [o net1].
    cbn in Hto. subst o.
    destruct remaining as [|remaining'].
    + cbn. split; [reflexivity|].
      intros e' t o Hin. apply in_app_or in Hin as [Hin|[Hin|[ ]]]; [auto|].
      injection Hin as _ _ <-. auto.
    + destruct (IH (S done) net1
                  ((tr ++ [EvAttempt e (timeout_ms cfg) AttemptTimeout])
                     ++ [EvBackoff (backoff_ms done)])) as [Hres Hall].
      split; [exact Hres|].
      intros e' t o Hin. apply Hall in Hin as [Hin|Hin]; [|auto].
      apply in_app_or in Hin as [Hin|[Hin|[ ]]]; [|discriminate].
      apply in_app_or in Hin as [Hin|[Hin|[ ]]]; [auto|].
      injection Hin as _ _ <-. auto.
Qed.

(** C4.  A send with a configured [retry_count] of R against an endpoint
    where every attempt times out makes exactly R attempts, each with the
    configured [timeout_ms] and each timing out, returns
    [TransmissionFailed], and raises [requests_failed] by one for the
    whole call, leaving [requests_sent] and [bytes_sent] as they were; and
    against any endpoint, a send that returns [TransmissionFailed] has
    made all R attempts, none of which was answered. *)
Theorem C4_send_exhausts_retries_then_fails_once :
  forall (cfg : http_telemetry_config_t) (e : endpoint) (payload : list byte)
         (st : http_stats) (net : Net),
    let run := send Net perform backoff_ms cfg e payload (retry_count cfg) st net in
    let res := fst (fst (fst run)) in
    let st' := snd (fst (fst run)) in
    let tr := snd run in
    (res = Err TransmissionFailed ->
     attempts tr = Z.to_nat (retry_count cfg) /\
     (forall e' t o, In (EvAttempt e' t o) tr ->
                     e' = e /\ t = timeout_ms cfg /\ o <> AttemptOk)) /\
    ((forall t n, fst (perform e payload t n) = AttemptTimeout) ->
     attempts tr = Z.to_nat (retry_count cfg) /\
     (forall e' t o, In (EvAttempt e' t o) tr ->
                     e' = e /\ t = timeout_ms cfg /\ o = AttemptTimeout) /\
     res = Err TransmissionFailed /\
     requests_failed st' = wrap32 (requests_failed st + 1) /\
     requests_sent st' = requests_sent st /\
     bytes_sent st' = bytes_sent st).
Proof.
  intros cfg e payload st net. cbv zeta. unfold send.
  destruct (attempt_loop Net perform backoff_ms (Z.to_nat (retry_count cfg)) 0
              cfg e payload net []) as [[ok net'] tr] eqn:Hrun.
  assert (Hfail : ok = false ->
            attempts tr = Z.to_nat (retry_count cfg) /\
            (forall e' t o, In (EvAttempt e' t o) tr ->
                            e' = e /\ t = timeout_ms cfg /\ o <> AttemptOk)).
  { intros ->. apply attempt_loop_failure in Hrun as [Hcount Hall]. split.
    - rewrite Hcount. reflexivity.
    - intros e' t o Hin. apply Hall in Hin as [[ ]|Hin]. exact Hin. }
  split.
  - destruct ok; cbn [fst snd]; [discriminate|]. intros _. now apply Hfail.
  - intros Hto.
    destruct (attempt_loop_timeouts cfg e payload Hto
                (Z.to_nat (retry_count cfg)) 0%nat net []) as [Hres Hall].
    rewrite Hrun in Hres, Hall. cbn [fst snd] in Hres, Hall. subst ok.
    cbn [fst snd requests_failed requests_sent bytes_sent].
    destruct (Hfail eq_refl) as [Hcount Hshape].
    split; [exact Hcount|]. split; [|auto].
    intros e' t o Hin. destruct (Hshape _ _ _ Hin) as (-> & -> & _).
    apply Hall in Hin as [[ ]| ->]. auto.
Qed.

End HttpChannelClaims.

Section HttpChannelRuns.
Import HttpChannel.

(** C4 with [retry_count = 3] and [timeout_ms = 100] against a server
    that never answers. *)
Lemma C4_send_three_timeouts_witness :
  let run := send unit (fun _ _ _ n => (AttemptTimeout, n)) (fun i => 50 * Z.of_nat (S i))
               (mk_http_config 100 3 false) HTTP_ENDPOINT_HEARTBEAT [x7b; x7d]
               3 (mk_http_stats 10 2 2048) tt in
  attempts (snd run) = 3%nat /\
  (forall e' t o, In (EvAttempt e' t o) (snd run) ->
                  e' = HTTP_ENDPOINT_HEARTBEAT /\ t = 100 /\ o = AttemptTimeout) /\
  fst (fst (fst run)) = Err TransmissionFailed /\
  requests_failed (snd (fst (fst run))) = 3 /\
  requests_sent (snd (fst (fst run))) = 10 /\
  bytes_sent (snd (fst (fst run))) = 2048.
Proof.
  apply (C4_send_exhausts_retries_then_fails_once unit
           (fun _ _ _ n => (AttemptTimeout, n)) (fun i => 50 * Z.of_nat (S i))
           (mk_http_config 100 3 false) HTTP_ENDPOINT_HEARTBEAT [x7b; x7d]
           (mk_http_stats 10 2 2048) tt).
  reflexivity.
Defined.

End HttpChannelRuns.

(** ** Running code on a platform *)

Section Runs.
Import Platform Trace.

Context {W : Type} `{Platform W}.

Lemma collect_app {A : Type} (f : event -> option A) (evs1 evs2 : list event) :
  collect f (evs1 ++ evs2) = collect f evs1 ++ collect f evs2.
Proof.
  induction evs1 as [|e evs1 IH]; cbn; [reflexivity|].
  destruct (f e); cbn; now rewrite IH.
Qed.

(** What [bind] does when its first part returns, and when it restarts. *)
Lemma bind_done {A B : Type} (m : M W A) (k : A -> M W B) (w w1 : W) (a : A)
    (evs1 : list event) :
  m w = (Done a, w1, evs1) ->
  bind m k w = (outcome_of (k a w1), world_of (k a w1), evs1 ++ events_of (k a w1)).
Proof.
  intros Hm. unfold bind, outcome_of, world_of, events_of. rewrite Hm.
  destruct (k a w1) as [[o w2] evs2]. reflexivity.
Qed.

Lemma bind_reboot {A B : Type} (m : M W A) (k : A -> M W B) (w w1 : W)
    (evs1 : list event) :
  m w = (Reboot, w1, evs1) ->
  bind m k w = (Reboot, w1, evs1).
Proof. intros Hm. unfold bind. now rewrite Hm. Qed.

Lemma do_call_run {A : Type} (c : call A) (w : W) :
  do_call c w = (Done (fst (perform c w)), snd (perform c w), [Ev c (fst (perform c w))]).
Proof. unfold do_call. now destruct (perform c w). Qed.

Lemma run_eta {A : Type} (r : outcome A * W * list event) :
  r = (outcome_of r, world_of r, events_of r).
Proof. now destruct r as [[o w] evs]. Qed.

(** *** Code that always returns *)

Lemma returns_ret {A : Type} (a : A) : returns (ret (W := W) a).
Proof. intros w. now exists a. Qed.

Lemma returns_call {A : Type} (c : call A) : returns (do_call c).
Proof. intros w. rewrite do_call_run. now eexists. Qed.

Lemma returns_bind {A B : Type} (m : M W A) (k : A -> M W B) :
  returns m -> (forall a, returns (k a)) -> returns (bind m k).
Proof.
  intros Hm Hk w. destruct (Hm w) as [a Ha].
  destruct (m w) as [[o w1] evs1] eqn:Hmw. cbn in Ha. subst o.
  rewrite (bind_done _ _ _ _ _ _ Hmw). apply Hk.
Qed.

(** *** Code that a reader of the trace does not notice *)

Lemma quiet_ret {A B : Type} (f : event -> option B) (a : A) :
  quiet f (ret (W := W) a).
Proof. intros w. reflexivity. Qed.

Lemma quiet_call {A B : Type} (f : event -> option B) (c : call A) :
  (forall r, f (Ev c r) = None) -> quiet f (do_call c).
Proof. intros Hf w. rewrite do_call_run. cbn. now rewrite Hf. Qed.

Lemma quiet_restart {A B : Type} (f : event -> option B) :
  (forall r, f (Ev esp_restart r) = None) -> quiet f (restart (A := A)).
Proof.
  intros Hf w. unfold restart. destruct (perform esp_restart w). cbn.
  now rewrite Hf.
Qed.

Lemma quiet_bind {A B C : Type} (f : event -> option C) (m : M W A)
    (k : A -> M W B) :
  quiet f m -> (forall a, quiet f (k a)) -> quiet f (bind m k).
Proof.
  intros Hm Hk w. specialize (Hm w). unfold bind.
  destruct (m w) as [[[a|] w1] evs1]; cbn in Hm |- *.
  - specialize (Hk a w1). destruct (k a w1) as [[o w2] evs2]. cbn in Hk |- *.
    now rewrite collect_app, Hm, Hk.
  - exact Hm.
Qed.

(** A part that returns, followed by the rest: the events of the part
    come first. *)
Lemma bind_split {A B : Type} (m : M W A) (k : A -> M W B) (w : W) :
  returns m ->
  exists a w1,
    m w = (Done a, w1, events_of (m w)) /\
    bind m k w =
      (outcome_of (k a w1), world_of (k a w1), events_of (m w) ++ events_of (k a w1)).
Proof.
  intros Hm. destruct (Hm w) as [a Ha].
  exists a, (world_of (m w)).
  assert (Hrun : m w = (Done a, world_of (m w), events_of (m w))).
  { rewrite (run_eta (m w)) at 1. now rewrite Ha. }
  split; [exact Hrun|]. now apply bind_done.
Qed.

End Runs.

Ltac returns_step :=
  match goal with
  | |- Trace.returns (Platform.bind _ _) => apply returns_bind; [|intros]
  | |- Trace.returns (Platform.ret _) => apply returns_ret
  | |- Trace.returns (Platform.do_call _) => apply returns_call
  | |- Trace.returns (if ?b then _ else _) => destruct b
  | |- Trace.returns (match ?x with _ => _ end) => destruct x
  end.

Ltac quiet_step :=
  match goal with
  | |- Trace.quiet _ (Platform.bind _ _) => apply quiet_bind; [|intros]
  | |- Trace.quiet _ (Platform.ret _) => apply quiet_ret
  | |- Trace.quiet _ (Platform.do_call _) => apply quiet_call; intros; reflexivity
  | |- Trace.quiet _ Platform.restart => apply quiet_restart; intros; reflexivity
  | |- Trace.quiet _ (if ?b then _ else _) => destruct b
  | |- Trace.quiet _ (match ?x with _ => _ end) => destruct x
  end.

(** ** Supervisor *)

Section SupervisorFacts.
Import CStr Json Platform Trace Supervisor CsiFlow.
Local Open Scope string_scope.
Local Open Scope list_scope.
Local Open Scope Z_scope.

Context {W : Type} `{Platform W}.

Lemma correct_timestamp_flow (d : csi_data_t) (w : W) :
  exists d' w' evs,
    correct_timestamp d w = (Done d', w', evs) /\ clock_events d evs d'.
Proof.
  unfold correct_timestamp, bind, do_call, ret.
  destruct (perform ntp_sync_is_synchronized w) as [[|] w1].
  - destruct (perform ntp_sync_get_time w1) as [q w2]. cbn [fst snd].
    destruct (is_ok (fst q)) eqn:Hq; do 3 eexists; (split; [reflexivity|]).
    + now apply clock_corrected.
    + now apply clock_read_failed.
  - do 3 eexists. split; [reflexivity|]. apply clock_unsynchronized.
Qed.

Lemma publish_if_connected_flow (ls : loop_state) (d : csi_data_t) (w : W) :
  exists ls' w' evs,
    publish_if_connected ls d w = (Done ls', w', evs) /\
    channel_events d ls evs ls'.
Proof.
  unfold publish_if_connected, Supervisor.log, bind, do_call, ret.
  destruct (perform mqtt_client_is_connected w) as [[|] w1].
  - destruct (perform (mqtt_client_publish_csi_data d) w1) as [err w2].
    destruct (is_ok err) eqn:Herr.
    + do 3 eexists. split; [reflexivity|]. now apply channel_sent.
    + destruct (perform (esp_log LOG_W "Failed to publish CSI data to MQTT: %s") w2)
        as [[] w3].
      do 3 eexists. split; [reflexivity|]. now apply channel_failed.
  - do 3 eexists. split; [reflexivity|]. apply channel_dropped.
Qed.

(** The CSI block always returns, and its events have one of the three
    shapes of [csi_events]. *)
Lemma process_csi_flow (ls : loop_state) (w : W) :
  exists ls' w' evs,
    process_csi ls w = (Done ls', w', evs) /\
    csi_events (pdMS_TO_TICKS 100) ls evs ls'.
Proof.
  unfold process_csi.
  rewrite (bind_done _ _ w _ _ _ (do_call_run csi_collector_is_running w)).
  destruct (perform csi_collector_is_running w) as [[|] w1]; cbn [fst snd].
  - rewrite (bind_done _ _ w1 _ _ _ (do_call_run _ w1)).
    destruct (perform (csi_collector_get_data (pdMS_TO_TICKS 100)) w1) as [r w2];
      cbn [fst snd].
    destruct (is_ok (fst r)) eqn:Hr.
    + destruct (correct_timestamp_flow (snd r) w2) as (d' & w3 & clock & Hclock & Hc).
      rewrite (bind_done _ _ w2 _ _ _ Hclock).
      unfold Supervisor.log.
      rewrite (bind_done _ _ w3 _ _ _ (do_call_run _ w3)).
      destruct (perform (esp_log LOG_D _) w3) as [[] w4]; cbn [fst snd].
      destruct (publish_if_connected_flow (bump_csi_data_count ls) d' w4)
        as (ls' & w5 & chan & Hchan & Hp).
      rewrite (bind_done _ _ w4 _ _ _ Hchan).
      rewrite (bind_done _ _ w5 _ _ _ (do_call_run _ w5)).
      destruct (perform (csi_collector_free_data d') w5) as [[] w6]; cbn [fst snd].
      do 3 eexists. split; [reflexivity|].
      cbn [outcome_of world_of events_of ret fst snd app].
      exact (csi_sample _ _ r clock chan d' ls' Hr Hc Hp).
    + do 3 eexists. split; [reflexivity|]. cbn. now apply csi_nothing.
  - do 3 eexists. split; [reflexivity|]. cbn. apply csi_not_running.
Qed.

End SupervisorFacts.

Section TickFacts.
Import CStr Json Platform Trace Supervisor CsiFlow.
Local Open Scope string_scope.
Local Open Scope list_scope.
Local Open Scope Z_scope.

Context {W : Type} `{Platform W}.

(** A reader that ignores every event of a set does not notice code that
    only emits events of that set. *)
Lemma quiet_within {A B : Type} (S : event -> bool) (f : event -> option B)
    (m : M W A) :
  (forall e, S e = true -> f e = None) ->
  quiet (other_than S) m -> quiet f m.
Proof.
  intros Hf Hm w. specialize (Hm w). revert Hm.
  induction (events_of (m w)) as [|e evs IH]; cbn; [reflexivity|].
  unfold other_than at 1. destruct (S e) eqn:HS; [|discriminate].
  intros Hrest. rewrite (Hf e HS). now apply IH.
Qed.

Lemma collect_within {B : Type} (S : event -> bool) (f : event -> option B)
    (evs : list event) :
  (forall e, S e = true -> f e = None) ->
  collect (other_than S) evs = [] -> collect f evs = [].
Proof.
  intros Hf. induction evs as [|e evs IH]; cbn; [reflexivity|].
  unfold other_than at 1. destruct (S e) eqn:HS; [|discriminate].
  intros Hrest. rewrite (Hf e HS). now apply IH.
Qed.

Lemma report_status_returns config ls t : returns (report_status (W := W) config ls t).
Proof.
  unfold report_status, report_ntp, report_mqtt, Supervisor.log.
  repeat returns_step.
Qed.

Lemma publish_metrics_returns config ls t : returns (publish_metrics (W := W) config ls t).
Proof.
  unfold publish_metrics, Supervisor.log. repeat returns_step.
Qed.

Lemma check_ota_returns config ls t : returns (check_ota (W := W) config ls t).
Proof.
  unfold check_ota, Supervisor.log. repeat returns_step.
Qed.

Lemma report_status_housekeeping config ls t :
  quiet (other_than housekeeping_event) (report_status (W := W) config ls t).
Proof.
  unfold report_status, report_ntp, report_mqtt, Supervisor.log.
  repeat quiet_step.
Qed.

Lemma publish_metrics_housekeeping config ls t :
  quiet (other_than housekeeping_event) (publish_metrics (W := W) config ls t).
Proof.
  unfold publish_metrics, Supervisor.log. repeat quiet_step.
Qed.

Lemma check_ota_housekeeping config ls t :
  quiet (other_than housekeeping_event) (check_ota (W := W) config ls t).
Proof.
  unfold check_ota, Supervisor.log. repeat quiet_step.
Qed.

Lemma process_csi_returns ls : returns (process_csi (W := W) ls).
Proof.
  intros w. destruct (process_csi_flow ls w) as (ls' & w' & evs & Hrun & _).
  rewrite Hrun. now exists ls'.
Qed.


(** The iteration up to the health guard: the CSI block, then events of
    the periodic reports only; all of it returns. *)
Lemma tick_run (config : app_config_t) (ls : loop_state) (w : W) :
  exists ls1 w1 csi hk ls4 w4,
    process_csi (bump_loop_counter ls) w = (Done ls1, w1, csi) /\
    csi_events (pdMS_TO_TICKS 100) (bump_loop_counter ls) csi ls1 /\
    collect (other_than housekeeping_event) hk = [] /\
    tick config ls w =
      (outcome_of (guard_and_delay config ls4 w4),
       world_of (guard_and_delay config ls4 w4),
       csi ++ hk ++ events_of (guard_and_delay config ls4 w4)).
Proof.
  destruct (process_csi_flow (bump_loop_counter ls) w)
    as (ls1 & w1 & csi & Hcsi & Hshape).
  unfold tick. rewrite (bind_done _ _ _ _ _ _ Hcsi).
  rewrite (bind_done _ _ w1 _ _ _ (do_call_run xTaskGetTickCount w1)).
  destruct (perform xTaskGetTickCount w1) as [t w2]; cbn [fst snd].
  destruct (bind_split (report_status config ls1 t)
              (fun ls2 => bind (publish_metrics config ls2 t)
                 (fun ls3 => bind (check_ota config ls3 t)
                    (fun ls4 => guard_and_delay config ls4))) w2
              (report_status_returns config ls1 t)) as (ls2 & w3 & Hr & Hb).
  rewrite Hb. clear Hb.
  destruct (bind_split (publish_metrics config ls2 t)
              (fun ls3 => bind (check_ota config ls3 t)
                 (fun ls4 => guard_and_delay config ls4)) w3
              (publish_metrics_returns config ls2 t)) as (ls3 & w4 & Hm & Hb).
  rewrite Hb. clear Hb.
  destruct (bind_split (check_ota config ls3 t)
              (fun ls4 => guard_and_delay config ls4) w4
              (check_ota_returns config ls3 t)) as (ls4 & w5 & Ho & Hb).
  rewrite Hb. clear Hb.
  cbn [outcome_of world_of events_of fst snd].
  exists ls1, w1, csi,
    (Ev xTaskGetTickCount t
       :: events_of (report_status config ls1 t w2)
       ++ events_of (publish_metrics config ls2 t w3)
       ++ events_of (check_ota config ls3 t w4)),
    ls4, w5.
  split; [exact Hcsi|]. split; [exact Hshape|]. split.
  - cbn [collect other_than housekeeping_event].
    rewrite !collect_app.
    rewrite (report_status_housekeeping config ls1 t w2).
    rewrite (publish_metrics_housekeeping config ls2 t w3).
    rewrite (check_ota_housekeeping config ls3 t w4).
    reflexivity.
  - unfold events_of. cbn [app]. rewrite <- !app_assoc. reflexivity.
Qed.

(** The end of the iteration, by the heap reading of the guard. *)
Lemma guard_and_delay_run (config : app_config_t) (ls : loop_state) (w : W) :
  exists h,
    (10000 <= h /\
     exists w', guard_and_delay config ls w = (Done ls, w', normal_ending h)) \/
    (h < 10000 /\
     exists a w', guard_and_delay config ls w = (Reboot, w', fatal_ending config h a)).
Proof.
  unfold guard_and_delay, health_guard, Supervisor.log, restart, bind, do_call, ret.
  destruct (perform esp_get_free_heap_size w) as [h w1]. exists h.
  destruct (h <? 10000) eqn:Hh.
  - right. apply Z.ltb_lt in Hh. split; [exact Hh|].
    destruct (perform (esp_log LOG_E _) w1) as [[] w2].
    destruct (perform (mqtt_publish_alert _ _ _ _) w2) as [a w3].
    destruct (perform (vTaskDelay (pdMS_TO_TICKS 5000)) w3) as [[] w4].
    destruct (perform esp_restart w4) as [[] w5].
    exists a, w5. reflexivity.
  - left. apply Z.ltb_ge in Hh. split; [exact Hh|].
    destruct (perform (vTaskDelay (pdMS_TO_TICKS 100)) w1) as [[] w2].
    exists w2. reflexivity.
Qed.

End TickFacts.

Section LoopFacts.
Import CStr Json Platform Trace Supervisor CsiFlow.
Local Open Scope string_scope.
Local Open Scope list_scope.
Local Open Scope Z_scope.

Context {W : Type} `{Platform W}.

Lemma bind_ret_l {A B : Type} (a : A) (k : A -> M W B) (w : W) :
  bind (ret a) k w = k a w.
Proof. unfold bind, ret. now destruct (k a w) as [[o w'] evs]. Qed.

Lemma bind_ret_r {A : Type} (m : M W A) (w : W) :
  bind m ret w = m w.
Proof.
  unfold bind, ret. destruct (m w) as [[[a|] w'] evs]; [|reflexivity].
  now rewrite app_nil_r.
Qed.

Lemma bind_assoc {A B C : Type} (m : M W A) (k : A -> M W B) (k' : B -> M W C)
    (w : W) :
  bind (bind m k) k' w = bind m (fun a => bind (k a) k') w.
Proof.
  unfold bind. destruct (m w) as [[[a|] w1] evs1]; [|reflexivity].
  destruct (k a w1) as [[[b|] w2] evs2]; [|reflexivity].
  destruct (k' b w2) as [[o w3] evs3]. now rewrite app_assoc.
Qed.

Lemma bind_ext {A B : Type} (m : M W A) (k k' : A -> M W B) (w : W) :
  (forall a w1, k a w1 = k' a w1) -> bind m k w = bind m k' w.
Proof.
  intros Hk. unfold bind. destruct (m w) as [[[a|] w1] evs1]; [|reflexivity].
  now rewrite Hk.
Qed.

(** One more iteration is one more [tick] after the iterations so far. *)
Lemma main_loop_succ (config : app_config_t) :
  forall (n : nat) (ls : loop_state) (w : W),
    main_loop (S n) config ls w = bind (main_loop n config ls) (tick config) w.
Proof.
  induction n as [|n IH]; intros ls w.
  - cbn [main_loop]. now rewrite bind_ret_l, bind_ret_r.
  - change (main_loop (S (S n)) config ls w)
      with (bind (tick config ls) (fun ls' => main_loop (S n) config ls') w).
    rewrite (bind_ext _ _ (fun ls' => bind (main_loop n config ls') (tick config)) w)
      by (intros; apply IH).
    now rewrite <- bind_assoc.
Qed.

(** Once the device restarts, allowing more iterations changes nothing. *)
Lemma main_loop_after_reboot (config : app_config_t) (ls : loop_state) (w : W) :
  forall n m : nat,
    outcome_of (main_loop n config ls w) = Reboot ->
    (n <= m)%nat ->
    main_loop m config ls w = main_loop n config ls w.
Proof.
  intros n m Hn Hle. induction Hle as [|m Hle IH]; [reflexivity|].
  rewrite main_loop_succ.
  destruct (main_loop m config ls w) as [[o w'] evs] eqn:Hm.
  rewrite <- IH in Hn. cbn in Hn. subst o.
  rewrite (bind_reboot _ _ _ _ _ Hm). exact IH.
Qed.

Lemma alerts_housekeeping (evs : list event) :
  collect (other_than housekeeping_event) evs = [] -> alerts evs = [].
Proof.
  apply collect_within. intros [A c r] Hc. destruct c; try discriminate Hc; reflexivity.
Qed.

Lemma restarts_housekeeping (evs : list event) :
  collect (other_than housekeeping_event) evs = [] -> restarts evs = [].
Proof.
  apply collect_within. intros [A c r] Hc. destruct c; try discriminate Hc; reflexivity.
Qed.

Lemma delays_housekeeping (evs : list event) :
  collect (other_than housekeeping_event) evs = [] -> delays evs = [].
Proof.
  apply collect_within. intros [A c r] Hc. destruct c; try discriminate Hc; reflexivity.
Qed.

(** The CSI block sends no alert, asks for no delay and no restart. *)
Lemma csi_events_calm (timeout : Z) (ls ls' : loop_state) (evs : list event) :
  csi_events timeout ls evs ls' ->
  alerts evs = [] /\ restarts evs = [] /\ delays evs = [] /\ heap_readings evs = [].
Proof.
  intros Hcsi. destruct Hcsi as [|r Hr|r clock chan d' ls' Hr Hclock Hchan];
    [repeat split; reflexivity..|].
  unfold alerts, restarts, delays, heap_readings. rewrite !collect_app.
  destruct Hclock, Hchan; repeat split; reflexivity.
Qed.

Lemma guard_reading_app (pre : list event) (h : Z) (post : list event) :
  heap_readings post = [] ->
  guard_reading (pre ++ Ev esp_get_free_heap_size h :: post) = Some h.
Proof.
  intros Hpost. unfold guard_reading, heap_readings in *.
  rewrite collect_app. cbn [collect heap_of]. rewrite Hpost, map_app. cbn [map].
  apply last_last.
Qed.

(** One iteration: everything before the guard's heap reading is free of
    alerts, delays and restarts, and the iteration ends in one of the two
    ways, by that reading. *)
Lemma tick_ending (config : app_config_t) (ls : loop_state) (w : W) :
  exists pre h,
    alerts pre = [] /\ restarts pre = [] /\ delays pre = [] /\
    ((10000 <= h /\
      exists ls' w', tick config ls w = (Done ls', w', pre ++ normal_ending h)) \/
     (h < 10000 /\
      exists a w', tick config ls w = (Reboot, w', pre ++ fatal_ending config h a))).
Proof.
  destruct (tick_run config ls w)
    as (ls1 & w1 & csi & hk & ls4 & w4 & _ & Hshape & Hhk & Htick).
  destruct (csi_events_calm _ _ _ _ Hshape) as (Ha & Hr & Hd & _).
  pose proof (alerts_housekeeping hk Hhk) as Hha.
  pose proof (restarts_housekeeping hk Hhk) as Hhr.
  pose proof (delays_housekeeping hk Hhk) as Hhd.
  exists (csi ++ hk).
  destruct (guard_and_delay_run config ls4 w4) as [h [[Hh [w' Hg]]|[Hh (a & w' & Hg)]]];
    exists h; rewrite Hg in Htick; cbn [outcome_of world_of events_of fst snd] in Htick;
    rewrite app_assoc in Htick.
  - unfold alerts, restarts, delays in *.
    rewrite !collect_app, Ha, Hr, Hd, Hha, Hhr, Hhd.
    repeat split. left. split; [exact Hh|]. now exists ls4, w'.
  - unfold alerts, restarts, delays in *.
    rewrite !collect_app, Ha, Hr, Hd, Hha, Hhr, Hhd.
    repeat split. right. split; [exact Hh|]. now exists a, w'.
Qed.

End LoopFacts.

Section SupervisorClaims.
Import CStr Json Platform Trace Supervisor CsiFlow.
Local Open Scope string_scope.
Local Open Scope list_scope.
Local Open Scope Z_scope.

Context {W : Type} `{Platform W}.

(** A run of any number of iterations either has not restarted, and then
    holds no alert and no restart, or it ended in the fatal ending of one
    iteration, with no alert and no restart before it, and stays as it is
    however many more iterations are allowed. *)
Lemma main_loop_run (config : app_config_t) (ls : loop_state) (w : W) :
  forall n : nat,
    (exists ls' w' evs,
       main_loop n config ls w = (Done ls', w', evs) /\
       alerts evs = [] /\ restarts evs = []) \/
    (exists pre h a w',
       main_loop n config ls w = (Reboot, w', pre ++ fatal_ending config h a) /\
       h < 10000 /\ alerts pre = [] /\ restarts pre = [] /\
       forall m, (n <= m)%nat -> main_loop m config ls w = main_loop n config ls w).
Proof.
  induction n as [|n IH].
  - left. exists ls, w, []. repeat split.
  - destruct IH as [(ls' & w' & evs & Hrun & Ha & Hr)|(pre & h & a & w' & Hrun & Hh & Ha & Hr & Hstay)].
    + rewrite main_loop_succ, (bind_done _ _ _ _ _ _ Hrun).
      destruct (tick_ending config ls' w')
        as (pre & h & Hpa & Hpr & _ & [[Hh (ls2 & w2 & Ht)]|[Hh (a & w2 & Ht)]]);
        rewrite Ht; cbn [outcome_of world_of events_of fst snd].
      * left. exists ls2, w2, (evs ++ pre ++ normal_ending h).
        split; [reflexivity|]. unfold alerts, restarts in *.
        rewrite !collect_app, Ha, Hr, Hpa, Hpr. split; reflexivity.
      * right. exists (evs ++ pre), h, a, w2. rewrite <- app_assoc.
        split; [reflexivity|]. split; [exact Hh|].
        unfold alerts, restarts in *. rewrite !collect_app, Ha, Hr, Hpa, Hpr.
        repeat split.
        intros m Hm.
        assert (Hout : outcome_of (main_loop (S n) config ls w) = Reboot).
        { rewrite main_loop_succ, (bind_done _ _ _ _ _ _ Hrun), Ht. reflexivity. }
        rewrite (main_loop_after_reboot config ls w (S n) m Hout Hm).
        rewrite main_loop_succ, (bind_done _ _ _ _ _ _ Hrun), Ht.
        reflexivity.
    + assert (Hout : outcome_of (main_loop n config ls w) = Reboot)
        by (rewrite Hrun; reflexivity).
      right. exists pre, h, a, w'.
      rewrite (main_loop_after_reboot config ls w n (S n) Hout) by lia.
      split; [exact Hrun|]. repeat split; try assumption.
      intros m Hm.
      rewrite (main_loop_after_reboot config ls w n m Hout) by lia. reflexivity.
Qed.

(** C5, as amended.  In the iteration whose health guard reads less than
    10,000 bytes of free heap, the supervisor makes exactly one attempt to
    send an alert (level [ERROR], component [SYSTEM], message
    [Critical low memory]) whose result it ignores, then waits 5 seconds,
    then requests a restart, and the iteration does not return; an
    iteration whose guard reads 10,000 bytes or more sends no alert and
    requests no restart.  A run of the loop therefore holds at most one
    alert and one restart, the restart being its last event, and allowing
    the loop more iterations after it adds nothing; and the first iteration
    with a low reading does restart the device. *)
Theorem C5_low_heap_alert_wait_restart :
  forall (config : app_config_t) (ls : loop_state) (w : W),
    (exists pre h,
       alerts pre = [] /\ restarts pre = [] /\ delays pre = [] /\
       guard_reading (events_of (tick config ls w)) = Some h /\
       ((10000 <= h /\
         exists ls' w', tick config ls w = (Done ls', w', pre ++ normal_ending h)) \/
        (h < 10000 /\
         exists a w', tick config ls w = (Reboot, w', pre ++ fatal_ending config h a)))) /\
    (forall n : nat,
       (exists ls' w' evs,
          main_loop n config ls w = (Done ls', w', evs) /\
          alerts evs = [] /\ restarts evs = []) \/
       (exists pre h a w',
          main_loop n config ls w = (Reboot, w', pre ++ fatal_ending config h a) /\
          h < 10000 /\
          alerts (pre ++ fatal_ending config h a)
          = [mk_alert (c_str (device_name config)) "ERROR" "SYSTEM"
               "Critical low memory"] /\
          restarts (pre ++ fatal_ending config h a) = [tt] /\
          forall m, (n <= m)%nat ->
                    main_loop m config ls w = main_loop n config ls w)) /\
    (forall (n : nat) (ls' : loop_state) (w' : W) (evs : list event) (h : Z),
       main_loop n config ls w = (Done ls', w', evs) ->
       guard_reading (events_of (tick config ls' w')) = Some h ->
       h < 10000 ->
       outcome_of (main_loop (S n) config ls w) = Reboot).
Proof.
  intros config ls w.
  assert (Htick : forall ls0 w0,
            exists pre h,
              alerts pre = [] /\ restarts pre = [] /\ delays pre = [] /\
              guard_reading (events_of (tick config ls0 w0)) = Some h /\
              ((10000 <= h /\
                exists ls' w', tick config ls0 w0 = (Done ls', w', pre ++ normal_ending h)) \/
               (h < 10000 /\
                exists a w', tick config ls0 w0 = (Reboot, w', pre ++ fatal_ending config h a)))).
  { intros ls0 w0.
    destruct (tick_ending config ls0 w0) as (pre & h & Ha & Hr & Hd & Hend).
    exists pre, h. repeat (split; [assumption|]). split; [|exact Hend].
    destruct Hend as [[_ (ls' & w' & Ht)]|[_ (a & w' & Ht)]]; rewrite Ht;
      cbn [events_of snd]; now apply guard_reading_app. }
  split; [apply Htick|]. split.
  - intros n.
    destruct (main_loop_run config ls w n)
      as [Hdone|(pre & h & a & w' & Hrun & Hh & Ha & Hr & Hstay)]; [now left|].
    right. exists pre, h, a, w'. split; [exact Hrun|]. split; [exact Hh|].
    unfold alerts, restarts in *. rewrite !collect_app, Ha, Hr.
    repeat split. exact Hstay.
  - intros n ls' w' evs h Hrun Hread Hlow.
    rewrite main_loop_succ, (bind_done _ _ _ _ _ _ Hrun).
    destruct (Htick ls' w') as (pre & h' & _ & _ & _ & Hread' & Hend).
    rewrite Hread in Hread'. injection Hread' as <-.
    destruct Hend as [[Hh _]|[_ (a & w2 & Ht)]]; [lia|].
    rewrite Ht. reflexivity.
Qed.

(** What the readers find in the events of the CSI block. *)
Lemma csi_events_readers (timeout : Z) (ls ls' : loop_state) (evs : list event) :
  csi_events timeout ls evs ls' ->
  (pops evs = [] \/ exists r, pops evs = [(timeout, r)]) /\
  ((drained evs = [] /\ published evs = [] /\ released evs = [] /\ ls' = ls) \/
   (exists d d' pre,
      drained evs = [d] /\ released evs = [d'] /\
      evs = pre ++ [Ev (csi_collector_free_data d') tt] /\
      ((synchronized_answers evs = [false] /\ clock_reads evs = [] /\ d' = d) \/
       (exists q, synchronized_answers evs = [true] /\ clock_reads evs = [q] /\
                  is_ok (fst q) = false /\ d' = d) \/
       (exists q, synchronized_answers evs = [true] /\ clock_reads evs = [q] /\
                  is_ok (fst q) = true /\
                  d' = set_timestamp d (corrected_timestamp (snd q)))) /\
      ((connected_answers evs = [false] /\ published evs = [] /\
        ls' = bump_csi_data_count ls) \/
       (exists err, connected_answers evs = [true] /\
                    published evs = [(d', err)] /\
                    ls' = if is_ok err
                          then bump_mqtt_publish_count (bump_csi_data_count ls)
                          else bump_mqtt_publish_errors (bump_csi_data_count ls))))).
Proof.
  intros Hcsi. destruct Hcsi as [|r Hr|r clock chan d' ls' Hr Hclock Hchan].
  - split; [now left|]. left. repeat split.
  - split; [right; now exists r|]. left.
    destruct r as [err d]. cbn [fst] in Hr.
    unfold drained. cbn. rewrite Hr. repeat split.
  - split.
    { right. exists r. destruct Hclock, Hchan; reflexivity. }
    right. exists (snd r), d'. eexists. split; [|split; [|split; [|split]]].
    + destruct r as [err d]. cbn [fst snd] in *.
      unfold drained. rewrite !collect_app. cbn [collect drained_of pop_of].
      rewrite Hr. destruct Hclock, Hchan; reflexivity.
    + destruct Hclock, Hchan; reflexivity.
    + rewrite !app_assoc. reflexivity.
    + destruct Hclock as [|q Hq|q Hq].
      * left. destruct Hchan; repeat split.
      * right. left. exists q. destruct Hchan; repeat split; assumption.
      * right. right. exists q. destruct Hchan; repeat split; assumption.
    + destruct Hchan as [|err Herr|err Herr].
      * left. destruct Hclock; repeat split.
      * right. exists err. rewrite Herr. destruct Hclock; repeat split.
      * right. exists err. rewrite Herr. destruct Hclock; repeat split.
Qed.

(** What the sample readers find in an iteration is what they find in
    its CSI block. *)
Lemma tick_sample_events (config : app_config_t) (ls : loop_state) (w : W) :
  let evs := events_of (tick config ls w) in
  let csi := events_of (process_csi (bump_loop_counter ls) w) in
  pops evs = pops csi /\ drained evs = drained csi /\
  published evs = published csi /\ released evs = released csi.
Proof.
  cbv zeta.
  destruct (tick_run config ls w)
    as (ls1 & w1 & csi & hk & ls4 & w4 & Hcsi & _ & Hhk & Htick).
  rewrite Htick, Hcsi. cbn [events_of snd].
  assert (Hpop : pops hk = []).
  { revert Hhk. apply collect_within. intros [A c r] Hc.
    destruct c; try discriminate Hc; reflexivity. }
  assert (Hdr : drained hk = []).
  { revert Hhk. apply collect_within. intros [A c r] Hc.
    destruct c; try discriminate Hc; reflexivity. }
  assert (Hpub : published hk = []).
  { revert Hhk. apply collect_within. intros [A c r] Hc.
    destruct c; try discriminate Hc; reflexivity. }
  assert (Hrel : released hk = []).
  { revert Hhk. apply collect_within. intros [A c r] Hc.
    destruct c; try discriminate Hc; reflexivity. }
  unfold pops, drained, published, released in *.
  rewrite !collect_app, Hpop, Hdr, Hpub, Hrel.
  destruct (guard_and_delay_run config ls4 w4) as [h [[_ [w' Hg]]|[_ (a & w' & Hg)]]];
    rewrite Hg; cbn [snd]; cbn; rewrite !app_nil_r; repeat split.
Qed.

(** C6, as amended.  In every iteration the collector queue is popped at
    most once, and always with a wait of [pdMS_TO_TICKS(100)]; and when a
    sample was drained, its timestamp is overwritten with the corrected
    value if and only if the clock reported synchronized and its reading
    then succeeded: with an unsynchronized clock, and with a synchronized
    clock whose reading failed, the sample keeps the timestamp the
    collector produced. *)
Theorem C6_one_pop_bounded_wait_clock_rule :
  forall (config : app_config_t) (ls : loop_state) (w : W),
    let evs := events_of (tick config ls w) in
    let csi := events_of (process_csi (bump_loop_counter ls) w) in
    (pops evs = [] \/ exists r, pops evs = [(pdMS_TO_TICKS 100, r)]) /\
    drained evs = drained csi /\
    released evs = released csi /\
    (drained csi = [] \/
     exists d,
       drained csi = [d] /\
       ((synchronized_answers csi = [false] /\ clock_reads csi = [] /\
         released csi = [d]) \/
        (exists q, synchronized_answers csi = [true] /\ clock_reads csi = [q] /\
                   is_ok (fst q) = false /\ released csi = [d]) \/
        (exists q, synchronized_answers csi = [true] /\ clock_reads csi = [q] /\
                   is_ok (fst q) = true /\
                   released csi
                   = [set_timestamp d (corrected_timestamp (snd q))]))).
Proof.
  intros config ls w. cbv zeta.
  destruct (tick_sample_events config ls w) as (Hpops & Hdr & _ & Hrel).
  rewrite Hpops, Hdr, Hrel.
  destruct (process_csi_flow (bump_loop_counter ls) w)
    as (ls' & w' & csi & Hrun & Hshape).
  rewrite Hrun. cbn [events_of snd].
  destruct (csi_events_readers _ _ _ _ Hshape) as [Hp Hcases].
  split; [exact Hp|]. split; [reflexivity|]. split; [reflexivity|].
  destruct Hcases as [(Hd & _)|(d & d' & pre & Hd & Hr & _ & Hclock & _)];
    [now left|].
  right. exists d. split; [exact Hd|]. rewrite Hr.
  destruct Hclock as [(Hs & Hc & ->)|[(q & Hs & Hc & Hq & ->)|(q & Hs & Hc & Hq & ->)]].
  - left. auto.
  - right. left. exists q. auto.
  - right. right. exists q. auto.
Qed.

(** C7.  In every iteration, for the sample drained (if one was): it is
    handed to the channel only when the channel answered that it is
    connected, and then exactly once, whatever the result (a failed send
    raises the error counter and is not attempted again); when the channel
    answered that it is not connected nothing is sent; and in each of
    these cases the sample is released exactly once, as the last step of
    the block.  When nothing was drained, nothing is sent and nothing is
    released. *)
Theorem C7_sample_sent_at_most_once_released_once :
  forall (config : app_config_t) (ls : loop_state) (w : W),
    let evs := events_of (tick config ls w) in
    let csi := events_of (process_csi (bump_loop_counter ls) w) in
    drained evs = drained csi /\
    published evs = published csi /\
    released evs = released csi /\
    exists ls' w',
      process_csi (bump_loop_counter ls) w = (Done ls', w', csi) /\
      ((drained csi = [] /\ published csi = [] /\ released csi = [] /\
        ls' = bump_loop_counter ls) \/
       (exists d d' pre,
          drained csi = [d] /\
          released csi = [d'] /\
          csi = pre ++ [Ev (csi_collector_free_data d') tt] /\
          ((connected_answers csi = [false] /\ published csi = [] /\
            ls' = bump_csi_data_count (bump_loop_counter ls)) \/
           (exists err,
              connected_answers csi = [true] /\
              published csi = [(d', err)] /\
              ls' = if is_ok err
                    then bump_mqtt_publish_count
                           (bump_csi_data_count (bump_loop_counter ls))
                    else bump_mqtt_publish_errors
                           (bump_csi_data_count (bump_loop_counter ls)))))).
Proof.
  intros config ls w. cbv zeta.
  destruct (tick_sample_events config ls w) as (_ & Hdr & Hpub & Hrel).
  rewrite Hdr, Hpub, Hrel. repeat (split; [reflexivity|]).
  destruct (process_csi_flow (bump_loop_counter ls) w)
    as (ls' & w' & csi & Hrun & Hshape).
  rewrite Hrun. cbn [events_of snd]. exists ls', w'. split; [reflexivity|].
  destruct (csi_events_readers _ _ _ _ Hshape)
    as [_ [Hnone|(d & d' & pre & Hd & Hr & Hlast & _ & Hchan)]]; [now left|].
  right. exists d, d', pre. auto.
Qed.

End SupervisorClaims.

Section SupervisorRuns.
Import CStr Json Platform Trace Supervisor CsiFlow Bench.
Local Open Scope string_scope.
Local Open Scope list_scope.
Local Open Scope Z_scope.

(** C5 on the leaking world: two iterations pass, the guard of the third
    reads 9,900 bytes, and the third iteration restarts the device. *)
Lemma C5_third_iteration_restarts_witness :
  outcome_of (main_loop 3 bench_config bench_loop_state leaking_world) = Reboot.
Proof.
  refine (proj2 (proj2 (C5_low_heap_alert_wait_restart bench_config
                          bench_loop_state leaking_world))
            2%nat _ _ _ 9900 _ _ _).
  - vm_compute. reflexivity.
  - vm_compute. reflexivity.
  - lia.
Defined.

(** C5 as stated fails on the level of the alert: on the leaking world
    the one alert of the run has level [ERROR], not [critical]. *)
Lemma C5_alert_level_is_error :
  alerts (events_of (main_loop 3 bench_config bench_loop_state leaking_world))
  = [mk_alert "node-1" "ERROR" "SYSTEM" "Critical low memory"] /\
  ~ Forall (fun a => alert_level a = "critical")
      (alerts (events_of (main_loop 3 bench_config bench_loop_state leaking_world))).
Proof.
  assert (Hrun : alerts (events_of (main_loop 3 bench_config bench_loop_state
                                      leaking_world))
                 = [mk_alert "node-1" "ERROR" "SYSTEM" "Critical low memory"])
    by (vm_compute; reflexivity).
  split; [exact Hrun|]. rewrite Hrun. intros Hall.
  inversion Hall as [|a rest Hlevel _]. discriminate Hlevel.
Qed.

(** C6 as stated fails: on a world whose clock reports synchronized and
    then fails to hand out the time, the drained sample keeps the
    timestamp the collector produced. *)
Lemma C6_synchronized_but_not_overwritten :
  let evs := events_of (tick bench_config bench_loop_state clock_failing_world) in
  synchronized_answers evs = [true] /\
  drained evs = [bench_sample] /\
  released evs = [bench_sample] /\
  map timestamp (released evs) = [42] /\
  map timestamp (released evs)
  <> [corrected_timestamp (snd (clock_time clock_failing_world))].
Proof. vm_compute. repeat split. discriminate. Qed.

End SupervisorRuns.

(** ** Bounded copies *)

Section CopyFacts.
Import CStr.
Local Open Scope list_scope.

Lemma firstn_repeat_le {A : Type} (x : A) (k n : nat) :
  (k <= n)%nat -> firstn k (repeat x n) = repeat x k.
Proof.
  revert n. induction k as [|k IH]; intros n Hk; [reflexivity|].
  destruct n as [|n]; [lia|]. cbn. f_equal. apply IH. lia.
Qed.

Lemma firstn_padded (s : list ascii) (k : nat) :
  firstn k (s ++ repeat NUL k) = firstn k s ++ repeat NUL (k - length s).
Proof.
  rewrite firstn_app. f_equal. apply firstn_repeat_le. lia.
Qed.

Lemma strncpy_length (dst : list ascii) (src : string) (n : nat) :
  (n <= length dst)%nat -> length (strncpy dst src n) = length dst.
Proof.
  intros Hn. unfold strncpy.
  rewrite length_app, length_firstn, length_skipn, length_app, repeat_length. lia.
Qed.

Lemma strncpy_head (dst : list ascii) (src : string) (n : nat) :
  firstn n (strncpy dst src n)
  = firstn n (list_ascii_of_string (c_string src) ++ repeat NUL n).
Proof.
  unfold strncpy.
  set (body := firstn n (list_ascii_of_string (c_string src) ++ repeat NUL n)).
  assert (Hlen : length body = n).
  { unfold body. rewrite length_firstn, length_app, repeat_length. lia. }
  rewrite firstn_app, Hlen, Nat.sub_diag. cbn [firstn].
  rewrite app_nil_r. rewrite <- Hlen at 1. apply firstn_all.
Qed.

Lemma strncpy_tail (dst : list ascii) (src : string) (n : nat) :
  skipn n (strncpy dst src n) = skipn n dst.
Proof.
  unfold strncpy.
  set (body := firstn n (list_ascii_of_string (c_string src) ++ repeat NUL n)).
  assert (Hlen : length body = n).
  { unfold body. rewrite length_firstn, length_app, repeat_length. lia. }
  rewrite skipn_app, Hlen, Nat.sub_diag. cbn [skipn].
  rewrite <- Hlen at 1. now rewrite skipn_all.
Qed.

Lemma length_list_ascii_of_string (s : string) :
  length (list_ascii_of_string s) = String.length s.
Proof. induction s as [|c s IH]; cbn; [reflexivity|]. now rewrite IH. Qed.

Lemma Forall_firstn_of {A : Type} (P : A -> Prop) (n : nat) (l : list A) :
  Forall P l -> Forall P (firstn n l).
Proof.
  intros Hl. rewrite <- (firstn_skipn n l) in Hl.
  apply Forall_app in Hl. tauto.
Qed.

(** A C string holds no NUL. *)
Lemma c_string_no_nul (s : string) :
  Forall (fun c => Ascii.eqb c NUL = false) (list_ascii_of_string (c_string s)).
Proof.
  induction s as [|c s IH]; cbn; [constructor|].
  destruct (Ascii.eqb c NUL) eqn:Hc; cbn; [constructor|].
  constructor; assumption.
Qed.

(** Reading an array stops at its first NUL. *)
Lemma c_str_cut (l rest : list ascii) :
  Forall (fun c => Ascii.eqb c NUL = false) l ->
  c_str (l ++ NUL :: rest) = string_of_list_ascii l.
Proof.
  unfold c_str. induction 1 as [|c l Hc Hl IH]; cbn.
  - reflexivity.
  - rewrite Hc. f_equal. exact IH.
Qed.

(** After [strncpy(dst, src, sizeof(dst) - 1)] into an array whose last
    byte is NUL, the array holds the first [sizeof(dst) - 1] characters of
    the source string. *)
Lemma bounded_copy_stored (dst : list ascii) (src : string) :
  nth_error dst (length dst - 1) = Some NUL ->
  c_str (bounded_copy dst src) = prefix (length dst - 1) (c_string src).
Proof.
  intros Hlast. unfold bounded_copy, strncpy, prefix.
  set (k := (length dst - 1)%nat) in *.
  set (s := list_ascii_of_string (c_string src)).
  rewrite firstn_padded.
  assert (Htail : skipn k dst = [NUL]).
  { assert (Hk : (k < length dst)%nat) by (apply nth_error_Some; congruence).
    rewrite <- (firstn_skipn k dst) in Hlast.
    rewrite nth_error_app2 in Hlast by (rewrite length_firstn; lia).
    rewrite length_firstn, Nat.min_l, Nat.sub_diag in Hlast by lia.
    assert (Hlen : length (skipn k dst) = 1%nat) by (rewrite length_skipn; lia).
    destruct (skipn k dst) as [|c [|c' rest]]; try discriminate Hlen.
    cbn in Hlast. congruence. }
  rewrite Htail, <- app_assoc.
  replace (repeat NUL (k - length s) ++ [NUL]) with (NUL :: repeat NUL (k - length s))
    by (rewrite <- repeat_cons; reflexivity).
  apply c_str_cut. apply Forall_firstn_of. apply c_string_no_nul.
Qed.

Lemma zeroed_last (size : nat) :
  (0 < size)%nat -> nth_error (zeroed size) (length (zeroed size) - 1) = Some NUL.
Proof.
  intros Hsize. unfold zeroed. rewrite repeat_length.
  apply nth_error_repeat. lia.
Qed.

End CopyFacts.

(** ** Remote configuration *)

(** Evaluates the comparisons of two known C strings in the goal. *)
Ltac decide_strcmp :=
  repeat match goal with
         | |- context [String.eqb (CStr.c_string ?a) (CStr.c_string ?b)] =>
             let v := eval vm_compute in (String.eqb (CStr.c_string a) (CStr.c_string b)) in
             change (String.eqb (CStr.c_string a) (CStr.c_string b)) with v
         end;
  cbv iota.

Section RemoteConfigFacts.
Import CStr Json Platform Trace Supervisor RemoteConfig.
Local Open Scope string_scope.
Local Open Scope list_scope.
Local Open Scope Z_scope.

Context {W : Type} `{Platform W}.

Lemma copy_field_stored (size : nat) (src : list ascii) (after : string) :
  (0 < size)%nat ->
  c_str (copy_field size src after)
  = prefix (size - 1) (c_string (read_from src after)).
Proof.
  intros Hsize. unfold copy_field.
  rewrite (bounded_copy_stored (zeroed size) _ (zeroed_last size Hsize)).
  unfold zeroed. rewrite repeat_length. reflexivity.
Qed.

(** An array that holds a NUL is read as its own string, whatever
    follows it in memory. *)
Lemma read_from_terminated (src : list ascii) (after : string) :
  In NUL src -> c_string (read_from src after) = c_str src.
Proof.
  unfold read_from, c_str. induction src as [|c src IH]; intros Hnul.
  - destruct Hnul.
  - cbn [string_of_list_ascii String.append c_string].
    destruct (Ascii.eqb c NUL) eqn:Hc; [reflexivity|].
    f_equal. apply IH. destruct Hnul as [Heq|Hin]; [|exact Hin].
    subst c. rewrite Ascii.eqb_refl in Hc. discriminate Hc.
Qed.

(** What [handle_node_settings] does, by what the store answers. *)
Lemma handle_node_settings_run (node : cJSON) (w : W) :
  let loaded := perform app_config_load w in
  let applied := apply_node_settings node (snd (fst loaded)) in
  let saved := perform (app_config_save (fst applied)) (snd loaded) in
  if is_ok (fst (fst loaded)) then
    if is_ok (fst saved) && snd applied then
      exists w',
        handle_node_settings node w =
          (Reboot, w',
           [Ev app_config_load (fst loaded);
            Ev (app_config_save (fst applied)) (fst saved);
            Ev (esp_log LOG_W "WiFi settings changed, restart required in 5 seconds") tt;
            Ev (vTaskDelay (pdMS_TO_TICKS 5000)) tt;
            Ev esp_restart tt])
    else
      handle_node_settings node w =
        (Done (fst saved), snd saved,
         [Ev app_config_load (fst loaded);
          Ev (app_config_save (fst applied)) (fst saved)])
  else
    exists w',
      handle_node_settings node w =
        (Done (fst (fst loaded)), w',
         [Ev app_config_load (fst loaded);
          Ev (esp_log LOG_E "Failed to load config: %s") tt]).
Proof.
  cbv zeta. unfold handle_node_settings, RemoteConfig.log, restart, bind, do_call, ret.
  destruct (perform app_config_load w) as [[err cfg] w1]. cbn [fst snd].
  destruct (is_ok err).
  - destruct (apply_node_settings node cfg) as [app_cfg restart_required].
    cbn [fst snd].
    destruct (perform (app_config_save app_cfg) w1) as [err' w2]. cbn [fst snd].
    destruct (is_ok err' && restart_required).
    + destruct (perform (esp_log LOG_W _) w2) as [[] w3].
      destruct (perform (vTaskDelay (pdMS_TO_TICKS 5000)) w3) as [[] w4].
      destruct (perform esp_restart w4) as [[] w5].
      exists w5. reflexivity.
    + reflexivity.
  - destruct (perform (esp_log LOG_E _) w1) as [[] w2]. exists w2. reflexivity.
Qed.

(** A node section that asks for new WiFi credentials sets
    [restart_required]. *)
Lemma wifi_change_sets_restart_required (node : cJSON) (cfg : app_config_t) :
  wifi_change_requested node = true ->
  snd (apply_node_settings node cfg) = true.
Proof.
  unfold wifi_change_requested, apply_node_settings.
  destruct (cJSON_GetObjectItem (Some node) "wifi") as [wifi_item|]; [|discriminate].
  destruct (string_item (cJSON_GetObjectItem (Some wifi_item) "ssid"));
    destruct (string_item (cJSON_GetObjectItem (Some wifi_item) "password"));
    intros Hreq; try discriminate Hreq; reflexivity.
Qed.

Lemma handle_csi_config_returns (section : cJSON) : returns (handle_csi_config (W := W) section).
Proof. unfold handle_csi_config. repeat returns_step. Qed.

Lemma handle_mqtt_config_returns (section : cJSON) : returns (handle_mqtt_config (W := W) section).
Proof. unfold handle_mqtt_config, RemoteConfig.log. repeat returns_step. Qed.

Lemma handle_csi_config_no_publication (section : cJSON) :
  quiet publication_of (handle_csi_config (W := W) section).
Proof. unfold handle_csi_config. repeat quiet_step. Qed.

Lemma handle_mqtt_config_no_publication (section : cJSON) :
  quiet publication_of (handle_mqtt_config (W := W) section).
Proof. unfold handle_mqtt_config, RemoteConfig.log. repeat quiet_step. Qed.

Lemma sections_before_node_no_publication (config : cJSON) :
  quiet publication_of (sections_before_node (W := W) config).
Proof.
  unfold sections_before_node, run_section, RemoteConfig.log.
  apply quiet_bind; [|intros err1].
  - destruct (cJSON_GetObjectItem (Some config) "csi"); [|apply quiet_ret].
    apply quiet_bind; [apply handle_csi_config_no_publication|intros].
    repeat quiet_step.
  - destruct (cJSON_GetObjectItem (Some config) "mqtt"); [|apply quiet_ret].
    apply quiet_bind; [apply handle_mqtt_config_no_publication|intros].
    repeat quiet_step.
Qed.

Lemma publish_detailed_status_returns : returns (publish_detailed_status (W := W)).
Proof. unfold publish_detailed_status, RemoteConfig.log. repeat returns_step. Qed.

Lemma strcmp_eq_true (a b : string) :
  strcmp_eq a b = true -> c_string a = c_string b.
Proof. unfold strcmp_eq. apply String.eqb_eq. Qed.

(** C8.  A bounded copy of a string that does not fit its destination
    writes the first [sizeof(dst) - 1] characters of the string and leaves
    the rest of the destination as it was: the string is cut, and the
    copy has no way to report it.  The configurations main.c builds at
    start-up (web credentials, NTP server names, MQTT URL, credentials,
    client id and topic prefix, update URL) hold the cut strings: the
    first [sizeof(dst) - 1] characters of the C string that starts at the
    source array, which is the array's own string when the array holds a
    NUL and runs on into the bytes that follow it in memory when it does
    not.  [handle_node_settings] stores the cut node name and WiFi
    credentials and returns what the configuration store returned,
    whatever the lengths. *)
Theorem C8_overlong_strings_truncated_silently :
  (forall (dst : list ascii) (src : string),
     (length dst - 1 < String.length (c_string src))%nat ->
     length (bounded_copy dst src) = length dst /\
     firstn (length dst - 1) (bounded_copy dst src)
     = firstn (length dst - 1) (list_ascii_of_string (c_string src)) /\
     skipn (length dst - 1) (bounded_copy dst src) = skipn (length dst - 1) dst /\
     (nth_error dst (length dst - 1) = Some NUL ->
      c_str (bounded_copy dst src) = prefix (length dst - 1) (c_string src))) /\
  (forall (sz : field_sizes) (after : memory_after) (config : app_config_t),
     ((0 < sizeof_web_username sz)%nat ->
      c_str (wc_username (make_web_config sz after config))
      = prefix (sizeof_web_username sz - 1)
          (c_string (read_from (web_username (web_server config)) (after Web_username)))) /\
     ((0 < sizeof_web_password sz)%nat ->
      c_str (wc_password (make_web_config sz after config))
      = prefix (sizeof_web_password sz - 1)
          (c_string (read_from (web_password (web_server config)) (after Web_password)))) /\
     ((0 < sizeof_ntp_server1 sz)%nat ->
      c_str (nc_server1 (make_ntp_config sz after config))
      = prefix (sizeof_ntp_server1 sz - 1)
          (c_string (read_from (server1 (ntp config)) (after Ntp_server1)))) /\
     ((0 < sizeof_ntp_server2 sz)%nat ->
      c_str (nc_server2 (make_ntp_config sz after config))
      = prefix (sizeof_ntp_server2 sz - 1)
          (c_string (read_from (server2 (ntp config)) (after Ntp_server2)))) /\
     ((0 < sizeof_ntp_server3 sz)%nat ->
      c_str (nc_server3 (make_ntp_config sz after config))
      = prefix (sizeof_ntp_server3 sz - 1)
          (c_string (read_from (server3 (ntp config)) (after Ntp_server3)))) /\
     ((0 < sizeof_mqtt_broker_url sz)%nat ->
      c_str (mc_broker_url (make_mqtt_config sz after config))
      = prefix (sizeof_mqtt_broker_url sz - 1)
          (c_string (read_from (broker_url (mqtt config)) (after Mqtt_broker_url)))) /\
     ((0 < sizeof_mqtt_username sz)%nat ->
      c_str (mc_username (make_mqtt_config sz after config))
      = prefix (sizeof_mqtt_username sz - 1)
          (c_string (read_from (mqtt_username (mqtt config)) (after Mqtt_username)))) /\
     ((0 < sizeof_mqtt_password sz)%nat ->
      c_str (mc_password (make_mqtt_config sz after config))
      = prefix (sizeof_mqtt_password sz - 1)
          (c_string (read_from (mqtt_password (mqtt config)) (after Mqtt_password)))) /\
     ((0 < sizeof_mqtt_client_id sz)%nat ->
      c_str (mc_client_id (make_mqtt_config sz after config))
      = prefix (sizeof_mqtt_client_id sz - 1)
          (c_string (read_from (client_id (mqtt config)) (after Mqtt_client_id)))) /\
     ((0 < sizeof_mqtt_topic_prefix sz)%nat ->
      c_str (mc_topic_prefix (make_mqtt_config sz after config))
      = prefix (sizeof_mqtt_topic_prefix sz - 1)
          (c_string (read_from (topic_prefix (mqtt config)) (after Mqtt_topic_prefix)))) /\
     ((0 < sizeof_ota_server_url sz)%nat ->
      c_str (oc_server_url (make_ota_config sz after config))
      = prefix (sizeof_ota_server_url sz - 1)
          (c_string (read_from (update_url (ota config)) (after Ota_update_url))))) /\
  (forall (src : list ascii) (after : string),
     In NUL src -> c_string (read_from src after) = c_str src) /\
  (forall (node : cJSON) (app_cfg : app_config_t) (s : string),
     string_item (cJSON_GetObjectItem (Some node) "node_name") = Some s ->
     device_name (fst (apply_node_settings node app_cfg))
     = bounded_copy (device_name app_cfg) s) /\
  (forall (node wifi_item : cJSON) (app_cfg : app_config_t),
     cJSON_GetObjectItem (Some node) "wifi" = Some wifi_item ->
     (forall s,
        string_item (cJSON_GetObjectItem (Some wifi_item) "ssid") = Some s ->
        ssid (wifi (fst (apply_node_settings node app_cfg)))
        = bounded_copy (ssid (wifi app_cfg)) s) /\
     (forall s,
        string_item (cJSON_GetObjectItem (Some wifi_item) "password") = Some s ->
        password (wifi (fst (apply_node_settings node app_cfg)))
        = bounded_copy (password (wifi app_cfg)) s)) /\
  (forall (node : cJSON) (w : W),
     let loaded := perform app_config_load w in
     let applied := apply_node_settings node (snd (fst loaded)) in
     let saved := perform (app_config_save (fst applied)) (snd loaded) in
     is_ok (fst (fst loaded)) = true ->
     In (Ev (app_config_save (fst applied)) (fst saved))
        (events_of (handle_node_settings node w)) /\
     outcome_of (handle_node_settings node w)
     = if is_ok (fst saved) && snd applied then Reboot else Done (fst saved)).
Proof.
  split; [|split; [|split; [|split; [|split]]]].
  - intros dst src Hlong. unfold bounded_copy.
    split; [apply strncpy_length; lia|]. split; [|split].
    + rewrite strncpy_head, firstn_padded.
      rewrite length_list_ascii_of_string.
      replace (length dst - 1 - String.length (c_string src))%nat with 0%nat by lia.
      apply app_nil_r.
    + apply strncpy_tail.
    + apply bounded_copy_stored.
  - intros sz after config.
    repeat split; intros Hsize; cbn [make_web_config make_ntp_config
      make_mqtt_config make_ota_config wc_username wc_password nc_server1
      nc_server2 nc_server3 mc_broker_url mc_username mc_password mc_client_id
      mc_topic_prefix oc_server_url]; now apply copy_field_stored.
  - apply read_from_terminated.
  - intros node app_cfg s Hname. unfold apply_node_settings. rewrite Hname.
    destruct (cJSON_GetObjectItem (Some node) "wifi") as [wifi_item|];
      [|reflexivity].
    destruct (string_item (cJSON_GetObjectItem (Some wifi_item) "ssid"));
      destruct (string_item (cJSON_GetObjectItem (Some wifi_item) "password"));
      reflexivity.
  - intros node wifi_item app_cfg Hwifi. unfold apply_node_settings. rewrite Hwifi.
    split; intros s Hs; rewrite Hs.
    + destruct (string_item (cJSON_GetObjectItem (Some node) "node_name"));
        destruct (string_item (cJSON_GetObjectItem (Some wifi_item) "password"));
        reflexivity.
    + destruct (string_item (cJSON_GetObjectItem (Some node) "node_name"));
        destruct (string_item (cJSON_GetObjectItem (Some wifi_item) "ssid"));
        reflexivity.
  - intros node w. cbv zeta. intros Hload.
    pose proof (handle_node_settings_run node w) as Hrun. cbv zeta in Hrun.
    rewrite Hload in Hrun.
    destruct (is_ok (fst (perform (app_config_save
                (fst (apply_node_settings node (snd (fst (perform app_config_load w))))))
                (snd (perform app_config_load w)))) &&
              snd (apply_node_settings node (snd (fst (perform app_config_load w))))).
    + destruct Hrun as [w' Hrun]. rewrite Hrun. split; [|reflexivity].
      cbn [events_of snd]. right. left. reflexivity.
    + rewrite Hrun. split; [|reflexivity].
      cbn [events_of snd]. right. left. reflexivity.
Qed.

(** C9.  [remote_command_handler] returns [ESP_ERR_INVALID_ARG], without
    calling anything, when [params] is NULL or has no string under
    ["command"]; it returns [ESP_ERR_NOT_SUPPORTED] for a command string
    that is none of [restart], [start_csi], [stop_csi], [calibrate],
    [factory_reset], [get_status]; for [start_csi] and [stop_csi] it
    returns what [csi_collector_start] and [csi_collector_stop] returned;
    for [calibrate] and [get_status] it returns [ESP_OK]. *)
Theorem C9_command_handler_results :
  forall (params : option cJSON) (w : W),
    (params = None \/ string_item (cJSON_GetObjectItem params "command") = None ->
     remote_command_handler params w = (Done ESP_ERR_INVALID_ARG, w, [])) /\
    (forall command : string,
       string_item (cJSON_GetObjectItem params "command") = Some command ->
       (is_known_command command = false ->
        outcome_of (remote_command_handler params w) = Done ESP_ERR_NOT_SUPPORTED) /\
       (strcmp_eq command "start_csi" = true ->
        exists r,
          outcome_of (remote_command_handler params w) = Done r /\
          events_of (remote_command_handler params w)
          = [Ev (esp_log LOG_I "Executing remote command: %s") tt;
             Ev csi_collector_start r]) /\
       (strcmp_eq command "stop_csi" = true ->
        exists r,
          outcome_of (remote_command_handler params w) = Done r /\
          events_of (remote_command_handler params w)
          = [Ev (esp_log LOG_I "Executing remote command: %s") tt;
             Ev csi_collector_stop r]) /\
       (strcmp_eq command "calibrate" = true ->
        outcome_of (remote_command_handler params w) = Done ESP_OK) /\
       (strcmp_eq command "get_status" = true ->
        outcome_of (remote_command_handler params w) = Done ESP_OK)).
Proof.
  intros params w. split.
  - intros [->|Hnone]; [reflexivity|].
    unfold remote_command_handler. destruct params; [|reflexivity].
    now rewrite Hnone.
  - intros command Hcmd.
    assert (Hrun : remote_command_handler params w
                   = bind (RemoteConfig.log LOG_I "Executing remote command: %s")
                       (fun _ => run_command command) w).
    { unfold remote_command_handler. destruct params as [p|].
      - now rewrite Hcmd.
      - discriminate Hcmd. }
    rewrite Hrun. clear Hrun. unfold RemoteConfig.log.
    rewrite (bind_done _ _ w _ _ _ (do_call_run _ w)).
    destruct (perform (esp_log LOG_I "Executing remote command: %s") w) as [[] w1].
    cbn [fst snd outcome_of events_of].
    split; [|split; [|split; [|split]]].
    + unfold is_known_command, known_commands. cbn [existsb]. intros Hk.
      repeat (apply orb_false_elim in Hk; destruct Hk as [? Hk]).
      unfold run_command.
      repeat match goal with Hf : strcmp_eq command _ = false |- _ => rewrite Hf; clear Hf end.
      unfold RemoteConfig.log, bind, do_call, ret.
      destruct (perform (esp_log LOG_W _) w1) as [[] w2]. reflexivity.
    + intros Hc. apply strcmp_eq_true in Hc.
      unfold run_command, strcmp_eq. rewrite Hc. decide_strcmp.
      rewrite do_call_run. eexists. split; reflexivity.
    + intros Hc. apply strcmp_eq_true in Hc.
      unfold run_command, strcmp_eq. rewrite Hc. decide_strcmp.
      rewrite do_call_run. eexists. split; reflexivity.
    + intros Hc. apply strcmp_eq_true in Hc.
      unfold run_command, strcmp_eq. rewrite Hc. decide_strcmp.
      unfold RemoteConfig.log, bind, do_call, ret.
      destruct (perform (esp_log LOG_I _) w1) as [[] w2]. reflexivity.
    + intros Hc. apply strcmp_eq_true in Hc.
      unfold run_command, strcmp_eq. rewrite Hc. decide_strcmp.
      destruct (bind_split publish_detailed_status (fun _ => ret ESP_OK) w1
                  publish_detailed_status_returns) as (u & w2 & _ & Hb).
      rewrite Hb. reflexivity.
Qed.

(** C10.  When the node section of an update asks for a new WiFi SSID or
    password, and the configuration load and save of
    [handle_node_settings] succeed, the update handler waits 5 seconds and
    restarts the device inside [handle_node_settings]: the handler does
    not return, and no message is published, the acknowledgment
    included. *)
Theorem C10_wifi_change_restarts_before_ack :
  forall (config node : cJSON) (w w1 w2 w3 : W) (err0 : esp_err_t)
         (evs1 : list event) (app_cfg : app_config_t),
    cJSON_GetObjectItem (Some config) "node" = Some node ->
    wifi_change_requested node = true ->
    sections_before_node config w = (Done err0, w1, evs1) ->
    perform app_config_load w1 = ((ESP_OK, app_cfg), w2) ->
    perform (app_config_save (fst (apply_node_settings node app_cfg))) w2
    = (ESP_OK, w3) ->
    (exists w',
       remote_config_update_handler (Some config) w =
         (Reboot, w',
          evs1 ++
          [Ev app_config_load (ESP_OK, app_cfg);
           Ev (app_config_save (fst (apply_node_settings node app_cfg))) ESP_OK;
           Ev (esp_log LOG_W "WiFi settings changed, restart required in 5 seconds") tt;
           Ev (vTaskDelay (pdMS_TO_TICKS 5000)) tt;
           Ev esp_restart tt])) /\
    publications (events_of (remote_config_update_handler (Some config) w)) = [].
Proof.
  intros config node w w1 w2 w3 err0 evs1 app_cfg Hnode Hwifi Hpre Hload Hsave.
  pose proof (handle_node_settings_run node w1) as Hrun. cbv zeta in Hrun.
  rewrite Hload in Hrun. cbn [fst snd] in Hrun. rewrite Hsave in Hrun.
  cbn [fst snd] in Hrun.
  rewrite (wifi_change_sets_restart_required node app_cfg Hwifi) in Hrun.
  change (is_ok ESP_OK) with true in Hrun. cbn [andb] in Hrun.
  destruct Hrun as [w' Hrun].
  assert (Hhandler :
    remote_config_update_handler (Some config) w =
      (Reboot, w',
       evs1 ++
       [Ev app_config_load (ESP_OK, app_cfg);
        Ev (app_config_save (fst (apply_node_settings node app_cfg))) ESP_OK;
        Ev (esp_log LOG_W "WiFi settings changed, restart required in 5 seconds") tt;
        Ev (vTaskDelay (pdMS_TO_TICKS 5000)) tt;
        Ev esp_restart tt])).
  { unfold remote_config_update_handler.
    rewrite (bind_done _ _ _ _ _ _ Hpre).
    unfold node_section, run_section. rewrite Hnode.
    rewrite (bind_reboot _ _ w1 w' _
               (bind_reboot _ _ w1 w' _ Hrun)).
    reflexivity. }
  split; [now exists w'|].
  rewrite Hhandler. cbn [events_of snd]. unfold publications.
  rewrite collect_app.
  pose proof (sections_before_node_no_publication config w) as Hquiet.
  rewrite Hpre in Hquiet. cbn [events_of snd] in Hquiet. rewrite Hquiet.
  reflexivity.
Qed.

End RemoteConfigFacts.

Section RemoteConfigRuns.
Import CStr Json Platform Trace Supervisor RemoteConfig Bench.
Local Open Scope string_scope.
Local Open Scope list_scope.
Local Open Scope Z_scope.

(** C8 on an 8-byte node name field and a name of 21 characters: the
    field ends up holding the first 7. *)
Lemma C8_node_name_cut_witness :
  length (bounded_copy (device_name bench_config) "a-very-long-node-name") = 8%nat /\
  firstn 7 (bounded_copy (device_name bench_config) "a-very-long-node-name")
  = list_ascii_of_string "a-very-" /\
  skipn 7 (bounded_copy (device_name bench_config) "a-very-long-node-name") = [NUL] /\
  (nth_error (device_name bench_config) 7 = Some NUL ->
   c_str (bounded_copy (device_name bench_config) "a-very-long-node-name")
   = "a-very-").
Proof.
  apply (proj1 (C8_overlong_strings_truncated_silently (W := script))
           (device_name bench_config) "a-very-long-node-name").
  vm_compute. lia.
Defined.

(** The update of the node name is stored cut, and acknowledged as a
    success. *)
Lemma name_update_acknowledged :
  outcome_of (remote_config_update_handler (Some name_update) bench_world)
  = Done ESP_OK /\
  publications (events_of (remote_config_update_handler (Some name_update) bench_world))
  = ["devices/node-1/config/ack"] /\
  In (Ev (app_config_save
            (set_device_name bench_config (list_ascii_of_string "a-very-" ++ [NUL])))
         ESP_OK)
     (events_of (remote_config_update_handler (Some name_update) bench_world)).
Proof.
  split; [reflexivity|]. split; [reflexivity|].
  vm_compute. right. left. reflexivity.
Qed.

(** C9 on the [start_csi] command with a collector that refuses to
    start: the handler returns the collector's error. *)
Lemma C9_start_csi_witness :
  exists r,
    outcome_of (remote_command_handler (Some start_csi_command) busy_collector_world)
    = Done r /\
    events_of (remote_command_handler (Some start_csi_command) busy_collector_world)
    = [Ev (esp_log LOG_I "Executing remote command: %s") tt;
       Ev csi_collector_start r].
Proof.
  refine (proj1 (proj2 (proj2 (C9_command_handler_results (W := script)
                               (Some start_csi_command) busy_collector_world)
                          "start_csi" _)) _); reflexivity.
Defined.

(** C10 on the update of the WiFi SSID. *)
Lemma C10_wifi_update_witness :
  (exists w',
     remote_config_update_handler (Some wifi_update) bench_world =
       (Reboot, w',
        [] ++
        [Ev app_config_load (ESP_OK, bench_config);
         Ev (app_config_save
               (fst (apply_node_settings
                       (cJSON_Object
                          [("wifi", cJSON_Object [("ssid", cJSON_String "new-laboratory")])])
                       bench_config))) ESP_OK;
         Ev (esp_log LOG_W "WiFi settings changed, restart required in 5 seconds") tt;
         Ev (vTaskDelay (pdMS_TO_TICKS 5000)) tt;
         Ev esp_restart tt])) /\
  publications (events_of (remote_config_update_handler (Some wifi_update) bench_world))
  = [].
Proof.
  apply (C10_wifi_change_restarts_before_ack (W := script) wifi_update
           (cJSON_Object
              [("wifi", cJSON_Object [("ssid", cJSON_String "new-laboratory")])])
           bench_world bench_world bench_world bench_world ESP_OK [] bench_config);
    reflexivity.
Defined.

End RemoteConfigRuns.

(** ** Concrete runs *)

Section Examples.
Import WireCodec StreamChannel CStr Json Platform Trace Supervisor RemoteConfig Bench.
Local Open Scope string_scope.
Local Open Scope list_scope.
Local Open Scope Z_scope.

Example decode_unknown_tag :
  decode [x09; x00; x00; x00; x00; x00; x00; x00] = Err FramingError.
Proof. reflexivity. Qed.

Example decode_short_buffer :
  decode [x06; x02; x05; x00; x01; x00; x00; x00; x61] = Err FramingError.
Proof. reflexivity. Qed.

Example encode_ping :
  encode 1024 258 WS_MSG_PING [x6e; x31] []
  = Ok [x06; x02; x00; x00; x02; x01; x00; x00].
Proof. reflexivity. Qed.

Example send_while_reconnecting :
  send WS_MSG_HEARTBEAT [x01]
    {| ch_state := Reconnecting; ch_buffer_size := 1024; ch_device_id := [x6e];
       ch_next_sequence := 5; ch_wire := []; ch_messages_sent := 4 |}
  = (Err NotConnected,
     {| ch_state := Reconnecting; ch_buffer_size := 1024; ch_device_id := [x6e];
        ch_next_sequence := 5; ch_wire := []; ch_messages_sent := 4 |}).
Proof. reflexivity. Qed.

Example bench_delay_ticks : pdMS_TO_TICKS (W := script) 100 = 10.
Proof. reflexivity. Qed.

(** One iteration on the bench world: the sample is drained, stamped with
    the clock's time, sent once and released once. *)
Example bench_tick_sample :
  let evs := events_of (tick bench_config bench_loop_state bench_world) in
  pops evs = [(10, (ESP_OK, bench_sample))] /\
  published evs = [(set_timestamp bench_sample 1700000000250000, ESP_OK)] /\
  released evs = [set_timestamp bench_sample 1700000000250000] /\
  delays evs = [10] /\
  alerts evs = [].
Proof. vm_compute. repeat split. Qed.

(** The leaking world, run for up to ten iterations: two iterations pass,
    the third one sends the alert, waits 500 ticks and restarts. *)
Example leaking_world_run :
  let evs := events_of (main_loop 10 bench_config bench_loop_state leaking_world) in
  heap_readings evs = [10300; 10100; 9900] /\
  delays evs = [10; 10; 500] /\
  alerts evs = [mk_alert "node-1" "ERROR" "SYSTEM" "Critical low memory"] /\
  restarts evs = [tt] /\
  released evs = [set_timestamp bench_sample 1700000000250000;
                  set_timestamp bench_sample 1700000000250000;
                  set_timestamp bench_sample 1700000000250000] /\
  published evs = [].
Proof. vm_compute. repeat split. Qed.

Example unknown_command_rejected :
  remote_command_handler
    (Some (cJSON_Object [("command", cJSON_String "reboot")])) bench_world
  = (Done ESP_ERR_NOT_SUPPORTED, bench_world,
     [Ev (esp_log LOG_I "Executing remote command: %s") tt;
      Ev (esp_log LOG_W "Unknown command: %s") tt]).
Proof. reflexivity. Qed.

Example command_not_a_string :
  remote_command_handler
    (Some (cJSON_Object [("command", cJSON_Number 1 (Dbl_lit "1"))])) bench_world
  = (Done ESP_ERR_INVALID_ARG, bench_world, []).
Proof. reflexivity. Qed.

End Examples.

(** ** Code that returns a value with a property *)

Section Yields.
Import Platform Trace Observations.

Context {W : Type} `{Platform W}.

Lemma yields_ret {A : Type} (P : A -> Prop) (a : A) :
  P a -> yields P (ret (W := W) a).
Proof. intros Ha w. now exists a. Qed.

Lemma yields_bind {A B : Type} (P : B -> Prop) (m : M W A) (k : A -> M W B) :
  returns m -> (forall a, yields P (k a)) -> yields P (bind m k).
Proof.
  intros Hm Hk w. destruct (Hm w) as [a Ha].
  destruct (m w) as [[o w1] evs1] eqn:Hmw. cbn in Ha. subst o.
  rewrite (bind_done _ _ _ _ _ _ Hmw). apply Hk.
Qed.

Lemma yields_run {A : Type} (P : A -> Prop) (m : M W A) (w : W) :
  yields P m ->
  exists a, m w = (Done a, world_of (m w), events_of (m w)) /\ P a.
Proof.
  intros Hm. destruct (Hm w) as (a & Ha & HP). exists a. split; [|exact HP].
  rewrite (run_eta (m w)) at 1. now rewrite Ha.
Qed.

End Yields.

(** ** The main loop, block by block *)

Ltac yields_step :=
  match goal with
  | |- Observations.yields _ (Platform.bind _ _) => apply yields_bind; [|intros]
  | |- Observations.yields _ (Platform.ret _) => apply yields_ret
  | |- Observations.yields _ (if ?b then _ else _) => destruct b
  | |- Observations.yields _ (match ?x with _ => _ end) => destruct x
  | |- Trace.returns _ => repeat returns_step
  end.

Section BlockFacts.
Import CStr Json Platform Trace Supervisor CsiFlow Observations.
Local Open Scope string_scope.
Local Open Scope list_scope.
Local Open Scope Z_scope.

Context {W : Type} `{Platform W}.

Lemma same_counters_refl (ls : loop_state) : same_counters ls ls.
Proof. repeat split. Qed.

Lemma report_status_counters config ls t :
  yields (same_counters ls) (report_status (W := W) config ls t).
Proof.
  unfold report_status, report_ntp, report_mqtt, Supervisor.log.
  repeat yields_step; repeat split.
Qed.

Lemma publish_metrics_counters config ls t :
  yields (same_counters ls) (publish_metrics (W := W) config ls t).
Proof.
  unfold publish_metrics, Supervisor.log. repeat yields_step; repeat split.
Qed.

Lemma check_ota_counters config ls t :
  yields (same_counters ls) (check_ota (W := W) config ls t).
Proof.
  unfold check_ota, Supervisor.log. repeat yields_step; repeat split.
Qed.

(** An iteration, block by block: each block returns, and the events of
    the iteration are those of the blocks, in order. *)
Lemma tick_blocks (config : app_config_t) (ls : loop_state) (w : W) :
  exists ls1 w1 csi t w2 ls2 w3 ls3 w4 ls4 w5,
    process_csi (bump_loop_counter ls) w = (Done ls1, w1, csi) /\
    csi_events (pdMS_TO_TICKS 100) (bump_loop_counter ls) csi ls1 /\
    perform xTaskGetTickCount w1 = (t, w2) /\
    report_status config ls1 t w2
    = (Done ls2, w3, events_of (report_status config ls1 t w2)) /\
    publish_metrics config ls2 t w3
    = (Done ls3, w4, events_of (publish_metrics config ls2 t w3)) /\
    check_ota config ls3 t w4
    = (Done ls4, w5, events_of (check_ota config ls3 t w4)) /\
    same_counters ls1 ls4 /\
    tick config ls w =
      (outcome_of (guard_and_delay config ls4 w5),
       world_of (guard_and_delay config ls4 w5),
       csi ++ Ev xTaskGetTickCount t
           :: events_of (report_status config ls1 t w2)
           ++ events_of (publish_metrics config ls2 t w3)
           ++ events_of (check_ota config ls3 t w4)
           ++ events_of (guard_and_delay config ls4 w5)).
Proof.
  destruct (process_csi_flow (bump_loop_counter ls) w)
    as (ls1 & w1 & csi & Hcsi & Hshape).
  unfold tick. rewrite (bind_done _ _ _ _ _ _ Hcsi).
  rewrite (bind_done _ _ w1 _ _ _ (do_call_run xTaskGetTickCount w1)).
  destruct (perform xTaskGetTickCount w1) as [t w2] eqn:Ht; cbn [fst snd].
  destruct (yields_run _ _ w2 (report_status_counters config ls1 t))
    as (ls2 & Hr & Hc2).
  rewrite (bind_done _ _ _ _ _ _ Hr).
  set (w3 := world_of (report_status config ls1 t w2)) in *.
  destruct (yields_run _ _ w3 (publish_metrics_counters config ls2 t))
    as (ls3 & Hm & Hc3).
  rewrite (bind_done _ _ _ _ _ _ Hm).
  set (w4 := world_of (publish_metrics config ls2 t w3)) in *.
  destruct (yields_run _ _ w4 (check_ota_counters config ls3 t))
    as (ls4 & Ho & Hc4).
  rewrite (bind_done _ _ _ _ _ _ Ho).
  set (w5 := world_of (check_ota config ls3 t w4)) in *.
  cbn [outcome_of world_of events_of fst snd].
  exists ls1, w1, csi, t, w2, ls2, w3, ls3, w4, ls4, w5.
  repeat (split; [assumption || reflexivity|]).
  split.
  - destruct Hc2 as (? & ? & ? & ?), Hc3 as (? & ? & ? & ?), Hc4 as (? & ? & ? & ?).
    repeat split; congruence.
  - reflexivity.
Qed.

(** [publish_metrics], case by case. *)
Lemma publish_metrics_run (config : app_config_t) (ls : loop_state) (t : Z) (w : W) :
  if mqtt_enabled (mqtt config) then
    if fst (perform mqtt_client_is_connected w)
       && elapsed t (last_system_metrics ls) 300000
    then
      exists free_heap min_free_heap tasks r w',
        publish_metrics config ls t w =
          (Done (set_last_system_metrics ls t), w',
           [Ev mqtt_client_is_connected true;
            Ev esp_get_free_heap_size free_heap;
            Ev esp_get_minimum_free_heap_size min_free_heap;
            Ev uxTaskGetNumberOfTasks tasks;
            Ev (mqtt_publish_system_metrics (c_str (device_name config))
                  (Dbl_lit "0.0f") free_heap min_free_heap tasks) r;
            Ev (esp_log LOG_I "Published system metrics to MQTT") tt])
    else
      publish_metrics config ls t w =
        (Done ls, snd (perform mqtt_client_is_connected w),
         [Ev mqtt_client_is_connected (fst (perform mqtt_client_is_connected w))])
  else publish_metrics config ls t w = (Done ls, w, []).
Proof.
  unfold publish_metrics, Supervisor.log, bind, do_call, ret.
  destruct (mqtt_enabled (mqtt config)); [|reflexivity].
  destruct (perform mqtt_client_is_connected w) as [connected w1]. cbn [fst snd].
  destruct connected; cbn [andb]; [|reflexivity].
  destruct (elapsed t (last_system_metrics ls) 300000); [|reflexivity].
  destruct (perform esp_get_free_heap_size w1) as [h w2].
  destruct (perform esp_get_minimum_free_heap_size w2) as [mh w3].
  destruct (perform uxTaskGetNumberOfTasks w3) as [tk w4].
  destruct (perform (mqtt_publish_system_metrics _ _ h mh tk) w4) as [r w5].
  destruct (perform (esp_log LOG_I _) w5) as [[] w6].
  exists h, mh, tk, r, w6. reflexivity.
Qed.

(** [check_ota], case by case. *)
Lemma check_ota_run (config : app_config_t) (ls : loop_state) (t : Z) (w : W) :
  if ota_enabled (ota config) && auto_update (ota config)
     && elapsed t (last_ota_check ls) 300000
  then
    exists r w' failure,
      check_ota config ls t w =
        (Done (set_last_ota_check ls t), w',
         Ev (esp_log LOG_I "Checking for OTA updates...") tt
           :: Ev ota_updater_check_for_updates r :: failure) /\
      failure = (if is_ok r then []
                 else [Ev (esp_log LOG_W "OTA update check failed: %s") tt])
  else check_ota config ls t w = (Done ls, w, []).
Proof.
  unfold check_ota, Supervisor.log, bind, do_call, ret.
  destruct (ota_enabled (ota config) && auto_update (ota config)
            && elapsed t (last_ota_check ls) 300000); [|reflexivity].
  destruct (perform (esp_log LOG_I _) w) as [[] w1].
  destruct (perform ota_updater_check_for_updates w1) as [r w2].
  destruct (is_ok r) eqn:Hr.
  - exists r, w2, []. rewrite Hr. split; reflexivity.
  - destruct (perform (esp_log LOG_W _) w2) as [[] w3].
    exists r, w3, [Ev (esp_log LOG_W "OTA update check failed: %s") tt].
    rewrite Hr. split; reflexivity.
Qed.

Lemma report_status_not_elapsed (config : app_config_t) (ls : loop_state)
    (t : Z) (w : W) :
  elapsed t (last_stats_time ls) 30000 = false ->
  report_status config ls t w = (Done ls, w, []).
Proof. intros He. unfold report_status. now rewrite He. Qed.

Lemma report_status_result (config : app_config_t) (ls : loop_state) (t : Z) :
  yields (fun ls0 => ls0 = if elapsed t (last_stats_time ls) 30000
                           then set_last_stats_time ls t else ls)
         (report_status (W := W) config ls t).
Proof.
  unfold report_status, report_ntp, report_mqtt, Supervisor.log.
  destruct (elapsed t (last_stats_time ls) 30000);
    repeat yields_step; reflexivity.
Qed.

(** A status report that emitted something recorded the time it ran at. *)
Lemma report_status_elapsed (config : app_config_t) (ls ls' : loop_state)
    (t : Z) (w w' : W) (evs : list event) :
  report_status config ls t w = (Done ls', w', evs) ->
  evs <> [] ->
  ls' = set_last_stats_time ls t.
Proof.
  intros Hrun Hevs.
  destruct (yields_run _ _ w (report_status_result config ls t)) as (a & Ha & HP).
  rewrite Hrun in Ha. injection Ha as <-.
  destruct (elapsed t (last_stats_time ls) 30000) eqn:He; [exact HP|].
  rewrite (report_status_not_elapsed config ls t w He) in Hrun.
  injection Hrun as _ _ <-. now elim Hevs.
Qed.

End BlockFacts.

(** ** The main loop over many iterations *)

Section LoopProperties.
Import CStr Json Platform Trace Supervisor CsiFlow Observations.
Local Open Scope string_scope.
Local Open Scope list_scope.
Local Open Scope Z_scope.

Context {W : Type} `{Platform W}.

(** X1.  The three periodic checks of the main loop compare
    [(current_time - last) >= pdMS_TO_TICKS(period)] on the 32-bit tick
    counter: when [d] ticks have passed since the last run, with
    [d < 2^32], the check fires exactly when [d] is at least the period,
    also when the tick counter wrapped in between. *)
Theorem X1_elapsed_across_counter_wrap :
  forall last d ms : Z,
    0 <= d < 2 ^ 32 ->
    elapsed (wrap32 (last + d)) last ms = (pdMS_TO_TICKS ms <=? d).
Proof.
  intros last d ms Hd. unfold elapsed. f_equal. unfold wrap32.
  rewrite Zminus_mod_idemp_l. replace (last + d - last) with d by lia.
  now apply Z.mod_small.
Qed.

Lemma bind_inv_done {A B : Type} (m : M W A) (k : A -> M W B) (w w2 : W)
    (b : B) (evs : list event) :
  bind m k w = (Done b, w2, evs) ->
  exists a w1 evs1 evs2,
    m w = (Done a, w1, evs1) /\ k a w1 = (Done b, w2, evs2) /\
    evs = evs1 ++ evs2.
Proof.
  unfold bind. destruct (m w) as [[[a|] w1] evs1]; [|discriminate].
  destruct (k a w1) as [[o w3] evs2] eqn:Hk. intros Hrun.
  injection Hrun as -> -> <-.
  now exists a, w1, evs1, evs2.
Qed.

Lemma tick_sample_lengths (config : app_config_t) (ls : loop_state) (w : W) :
  let evs := events_of (tick config ls w) in
  length (released evs) = length (drained evs) /\
  (length (published evs) <= length (drained evs))%nat /\
  (length (drained evs) <= 1)%nat.
Proof.
  cbv zeta. destruct (tick_sample_events config ls w) as (_ & -> & -> & ->).
  destruct (process_csi_flow (bump_loop_counter ls) w)
    as (ls' & w' & csi & Hrun & Hshape).
  rewrite Hrun. cbn [events_of snd].
  destruct (csi_events_readers _ _ _ _ Hshape)
    as [_ [(-> & -> & -> & _)|(d & d' & pre & -> & -> & _ & _ & Hchan)]].
  - cbn. lia.
  - destruct Hchan as [(_ & -> & _)|(err & _ & -> & _)]; cbn; lia.
Qed.

(** X2.  Over a run of the main loop of any length, whether it is still
    running or ended by a restart, every sample drained from the
    collector queue has been released exactly once, and at most one send
    was attempted per drained sample. *)
Theorem X2_loop_releases_every_drained_sample :
  forall (n : nat) (config : app_config_t) (ls : loop_state) (w : W),
    let evs := events_of (main_loop n config ls w) in
    length (released evs) = length (drained evs) /\
    (length (published evs) <= length (drained evs))%nat /\
    (length (drained evs) <= n)%nat.
Proof.
  intros n config ls w. cbv zeta. induction n as [|n IH].
  - cbn. lia.
  - rewrite main_loop_succ.
    destruct (main_loop n config ls w) as [[[ls'|] w'] evs] eqn:Hrun.
    + rewrite (bind_done _ _ _ _ _ _ Hrun). cbn [events_of snd] in *.
      destruct (tick_sample_lengths config ls' w') as (Hrel & Hpub & Hdr).
      unfold released, drained, published in *. rewrite !collect_app, !length_app.
      lia.
    + rewrite (bind_reboot _ _ _ _ _ Hrun). cbn [events_of snd] in *. lia.
Qed.

(** An iteration that returns: its last call is the pause of 100 ms,
    nothing before it is a [vTaskDelay], and the queue is asked at most
    once, with the timeout of 100 ms. *)
Lemma tick_returning_shape (config : app_config_t) (ls ls' : loop_state)
    (w w' : W) (evs : list event) :
  tick config ls w = (Done ls', w', evs) ->
  exists pre,
    evs = pre ++ [Ev (vTaskDelay (pdMS_TO_TICKS 100)) tt] /\
    delays pre = [] /\
    (pops pre = [] \/ exists r, pops pre = [(pdMS_TO_TICKS 100, r)]).
Proof.
  intros Hrun.
  destruct (tick_sample_events config ls w) as (Hpops & _).
  destruct (process_csi_flow (bump_loop_counter ls) w)
    as (ls1 & w1 & csi & Hcsi & Hshape).
  rewrite Hcsi, Hrun in Hpops. cbn [events_of snd] in Hpops.
  destruct (csi_events_readers _ _ _ _ Hshape) as [Hcsi_pops _].
  rewrite <- Hpops in Hcsi_pops.
  destruct (tick_ending config ls w)
    as (pre & h & _ & _ & Hd & [[_ (ls2 & w2 & Ht)]|[_ (a & w2 & Ht)]]);
    rewrite Ht in Hrun; [|discriminate].
  injection Hrun as _ _ <-.
  exists (pre ++ [Ev esp_get_free_heap_size h]).
  split; [unfold normal_ending; now rewrite <- app_assoc|].
  split.
  - unfold delays in *. now rewrite collect_app, Hd.
  - unfold pops in *. unfold normal_ending in Hcsi_pops.
    rewrite collect_app in *. cbn [collect pop_of app] in *.
    now rewrite app_nil_r in *.
Qed.

(** X3.  A run of [n] iterations that has not restarted the device
    splits into [n] iterations, each of which ends with
    [vTaskDelay(pdMS_TO_TICKS(100))], calls [vTaskDelay] nowhere else and
    asks the collector queue at most once, always with the timeout
    [pdMS_TO_TICKS(100)]: the run has delayed exactly [n] times and
    waited on the queue at most [n] times. *)
Theorem X3_loop_delays_once_per_iteration :
  forall (n : nat) (config : app_config_t) (ls ls' : loop_state) (w w' : W)
         (evs : list event),
    main_loop n config ls w = (Done ls', w', evs) ->
    delays evs = repeat (pdMS_TO_TICKS 100) n /\
    (exists iterations : list (list event),
       length iterations = n /\
       evs = concat (map (fun pre => pre ++ [Ev (vTaskDelay (pdMS_TO_TICKS 100)) tt])
                       iterations) /\
       Forall (fun pre => delays pre = [] /\ (length (pops pre) <= 1)%nat)
         iterations) /\
    Forall (fun p => fst p = pdMS_TO_TICKS 100) (pops evs) /\
    (length (pops evs) <= n)%nat.
Proof.
  induction n as [|n IH]; intros config ls ls' w w' evs Hrun.
  - cbn in Hrun. injection Hrun as _ _ <-.
    split; [reflexivity|]. split; [|split; [constructor|cbn; lia]].
    exists []. repeat split. constructor.
  - rewrite main_loop_succ in Hrun.
    apply bind_inv_done in Hrun as (ls1 & w1 & evs1 & evs2 & Hn & Ht & ->).
    destruct (IH _ _ _ _ _ _ Hn)
      as (Hdelays & (iterations & Hlen & Hevs & Hall) & Htimeouts & Hcount).
    destruct (tick_returning_shape _ _ _ _ _ _ Ht) as (pre & -> & Hd & Hpops).
    assert (Hlast : pops (pre ++ [Ev (vTaskDelay (pdMS_TO_TICKS 100)) tt])
                    = pops pre).
    { unfold pops. rewrite collect_app. cbn [collect pop_of]. apply app_nil_r. }
    split; [|split; [|split]].
    + unfold delays in *. rewrite !collect_app, Hdelays, Hd.
      cbn [collect delay_of app]. now rewrite <- repeat_cons.
    + exists (iterations ++ [pre]). split; [|split].
      * rewrite length_app, Hlen. cbn. lia.
      * rewrite map_app, concat_app, <- Hevs. cbn [map concat].
        now rewrite app_nil_r.
      * apply Forall_app. split; [exact Hall|].
        constructor; [|constructor]. split; [exact Hd|].
        destruct Hpops as [->|[r ->]]; cbn; lia.
    + unfold pops in *. rewrite collect_app. apply Forall_app.
      split; [exact Htimeouts|]. rewrite Hlast.
      destruct Hpops as [Hp|[r Hp]]; rewrite Hp; repeat constructor.
    + unfold pops in *. rewrite collect_app, length_app, Hlast.
      destruct Hpops as [Hp|[r Hp]]; rewrite Hp; cbn; lia.
Qed.

Lemma wrap32_range (z : Z) : 0 <= wrap32 z < 2 ^ 32.
Proof. unfold wrap32. apply Z.mod_pos_bound. lia. Qed.

Lemma wrap32_small (z : Z) : 0 <= z < 2 ^ 32 -> wrap32 z = z.
Proof. unfold wrap32. apply Z.mod_small. Qed.

Lemma wrap32_add_l (a b : Z) : wrap32 (wrap32 a + b) = wrap32 (a + b).
Proof. unfold wrap32. apply Zplus_mod_idemp_l. Qed.

(** The counters after one iteration that returned. *)
Lemma tick_counters (config : app_config_t) (ls ls' : loop_state) (w w' : W)
    (evs : list event) :
  counters_in_range ls ->
  tick config ls w = (Done ls', w', evs) ->
  counters_in_range ls' /\
  loop_counter ls' = wrap32 (loop_counter ls + 1) /\
  csi_data_count ls' = wrap32 (csi_data_count ls + zlength (drained evs)) /\
  mqtt_publish_count ls' = wrap32 (mqtt_publish_count ls + zlength (sends_ok evs)) /\
  mqtt_publish_errors ls'
  = wrap32 (mqtt_publish_errors ls + zlength (sends_failed evs)).
Proof.
  intros (Hlc & Hcc & Hpc & Hpe) Hrun.
  pose proof (tick_sample_events config ls w) as Hsample. cbv zeta in Hsample.
  destruct Hsample as (_ & Hdr & Hpub & _).
  destruct (tick_blocks config ls w)
    as (ls1 & w1 & csi & t & w2 & ls2 & w3 & ls3 & w4 & ls4 & w5
        & Hcsi & Hshape & _ & _ & _ & _ & Hsame & Htick).
  rewrite Hrun, Hcsi in Hdr, Hpub. cbn [events_of snd] in Hdr, Hpub.
  unfold sends_ok, sends_failed. rewrite Hdr, Hpub. clear Hdr Hpub.
  rewrite Hrun in Htick.
  destruct (guard_and_delay_run config ls4 w5) as [h [[_ [w6 Hg]]|[_ (a & w6 & Hg)]]];
    rewrite Hg in Htick; cbn [outcome_of fst] in Htick; [|discriminate].
  injection Htick as -> _ _.
  destruct Hsame as (Hs1 & Hs2 & Hs3 & Hs4).
  unfold counters_in_range. rewrite Hs1, Hs2, Hs3, Hs4. clear Hs1 Hs2 Hs3 Hs4.
  assert (Hfin : forall c k,
             0 <= c < 2 ^ 32 -> c = wrap32 (c + zlength (@nil k))).
  { intros c k Hc. cbn. rewrite Z.add_0_r. symmetry. now apply wrap32_small. }
  destruct (csi_events_readers _ _ _ _ Hshape)
    as [_ [(-> & -> & _ & ->)|(d & d' & pre & -> & _ & _ & _ & Hchan)]].
  - cbn [bump_loop_counter loop_counter csi_data_count mqtt_publish_count
         mqtt_publish_errors filter].
    repeat split; try reflexivity; try (now apply Hfin); try lia;
        match goal with
        | |- context [wrap32 ?x] => pose proof (wrap32_range x); lia
        end.
  - destruct Hchan as [(_ & -> & ->)|(err & _ & -> & ->)].
    + cbn [bump_loop_counter bump_csi_data_count loop_counter csi_data_count
           mqtt_publish_count mqtt_publish_errors filter].
      repeat split; try reflexivity; try (now apply Hfin); try lia;
        match goal with
        | |- context [wrap32 ?x] => pose proof (wrap32_range x); lia
        end.
    + cbn [filter snd]. destruct (is_ok err);
        cbn [negb bump_loop_counter bump_csi_data_count bump_mqtt_publish_count
             bump_mqtt_publish_errors loop_counter csi_data_count
             mqtt_publish_count mqtt_publish_errors];
        repeat split; try reflexivity; try (now apply Hfin); try lia;
        match goal with
        | |- context [wrap32 ?x] => pose proof (wrap32_range x); lia
        end.
Qed.

Lemma sends_ok_app (evs1 evs2 : list event) :
  sends_ok (evs1 ++ evs2) = sends_ok evs1 ++ sends_ok evs2.
Proof. unfold sends_ok, published. now rewrite collect_app, filter_app. Qed.

Lemma sends_failed_app (evs1 evs2 : list event) :
  sends_failed (evs1 ++ evs2) = sends_failed evs1 ++ sends_failed evs2.
Proof. unfold sends_failed, published. now rewrite collect_app, filter_app. Qed.

(** The counters after [n] iterations, by induction on [n]. *)
Lemma main_loop_counters :
  forall (n : nat) (config : app_config_t) (ls ls' : loop_state) (w w' : W)
         (evs : list event),
    counters_in_range ls ->
    main_loop n config ls w = (Done ls', w', evs) ->
    counters_in_range ls' /\
    loop_counter ls' = wrap32 (loop_counter ls + Z.of_nat n) /\
    csi_data_count ls' = wrap32 (csi_data_count ls + zlength (drained evs)) /\
    mqtt_publish_count ls'
    = wrap32 (mqtt_publish_count ls + zlength (sends_ok evs)) /\
    mqtt_publish_errors ls'
    = wrap32 (mqtt_publish_errors ls + zlength (sends_failed evs)).
Proof.
  induction n as [|n IH]; intros config ls ls' w w' evs Hrange Hrun.
  - cbn in Hrun. injection Hrun as <- _ <-.
    destruct Hrange as (Hlc & Hcc & Hpc & Hpe).
    cbn [drained sends_ok sends_failed published collect filter zlength length Z.of_nat].
    rewrite !Z.add_0_r, !wrap32_small by assumption.
    repeat split; assumption || lia.
  - rewrite main_loop_succ in Hrun.
    apply bind_inv_done in Hrun as (ls1 & w1 & evs1 & evs2 & Hn & Ht & ->).
    destruct (IH _ _ _ _ _ _ Hrange Hn) as (Hrange1 & Hlc & Hcc & Hpc & Hpe).
    destruct (tick_counters _ _ _ _ _ _ Hrange1 Ht)
      as (Hrange2 & Hlc2 & Hcc2 & Hpc2 & Hpe2).
    split; [exact Hrange2|].
    rewrite Hlc2, Hcc2, Hpc2, Hpe2, Hlc, Hcc, Hpc, Hpe, !wrap32_add_l.
    unfold drained. rewrite collect_app, sends_ok_app, sends_failed_app, !zlength_app.
    rewrite Nat2Z.inj_succ.
    repeat split; f_equal; lia.
Qed.


(** X4.  After any number of iterations that did not restart the device,
    the four counters of the main loop agree with what happened, modulo
    2^32: [loop_counter] grew by the number of iterations,
    [csi_data_count] by the number of samples drained,
    [mqtt_publish_count] by the number of sends that returned [ESP_OK]
    and [mqtt_publish_errors] by the number of sends that failed. *)
Theorem X4_loop_counters_follow_trace :
  forall (n : nat) (config : app_config_t) (ls ls' : loop_state) (w w' : W)
         (evs : list event),
    counters_in_range ls ->
    main_loop n config ls w = (Done ls', w', evs) ->
    counters_in_range ls' /\
    loop_counter ls' = wrap32 (loop_counter ls + Z.of_nat n) /\
    csi_data_count ls' = wrap32 (csi_data_count ls + zlength (drained evs)) /\
    mqtt_publish_count ls'
    = wrap32 (mqtt_publish_count ls + zlength (sends_ok evs)) /\
    mqtt_publish_errors ls'
    = wrap32 (mqtt_publish_errors ls + zlength (sends_failed evs)).
Proof.
  intros n config ls ls' w w' evs Hrange Hrun.
  exact (main_loop_counters n config ls ls' w w' evs Hrange Hrun).
Qed.

(** X19.  From the start of the loop (main.c lines 192-198 set the four
    counters to zero and read the tick counter three times), after [n]
    iterations that did not restart the device [loop_counter] is [n],
    [csi_data_count] is the number of samples drained,
    [mqtt_publish_count] the number of sends that returned [ESP_OK] and
    [mqtt_publish_errors] the number of sends that failed, all modulo
    2^32. *)
Theorem X19_counters_count_from_the_start :
  forall (n : nat) (config : app_config_t) (ls' : loop_state) (w w' : W)
         (evs : list event),
    bind loop_start (main_loop n config) w = (Done ls', w', evs) ->
    loop_counter ls' = wrap32 (Z.of_nat n) /\
    csi_data_count ls' = wrap32 (zlength (drained evs)) /\
    mqtt_publish_count ls' = wrap32 (zlength (sends_ok evs)) /\
    mqtt_publish_errors ls' = wrap32 (zlength (sends_failed evs)).
Proof.
  intros n config ls' w w' evs Hrun.
  apply bind_inv_done in Hrun as (ls0 & w0 & evs0 & evs1 & Hstart & Hloop & ->).
  unfold loop_start, bind, do_call, ret in Hstart.
  destruct (perform xTaskGetTickCount w) as [t1 w1].
  destruct (perform xTaskGetTickCount w1) as [t2 w2].
  destruct (perform xTaskGetTickCount w2) as [t3 w3].
  injection Hstart as <- <- <-.
  assert (Hrange : counters_in_range
                     {| loop_counter := 0; csi_data_count := 0;
                        mqtt_publish_count := 0; mqtt_publish_errors := 0;
                        last_stats_time := t1; last_ota_check := t2;
                        last_system_metrics := t3 |})
    by (unfold counters_in_range; cbn; lia).
  destruct (main_loop_counters _ _ _ _ _ _ _ Hrange Hloop)
    as (_ & Hlc & Hcc & Hpc & Hpe).
  cbn [loop_counter csi_data_count mqtt_publish_count mqtt_publish_errors] in *.
  rewrite Z.add_0_l in Hlc, Hcc, Hpc, Hpe.
  repeat split; assumption.
Qed.

Lemma not_elapsed_within (t t' ms : Z) :
  wrap32 (t' - t) < pdMS_TO_TICKS ms -> elapsed t' t ms = false.
Proof. intros Hlt. unfold elapsed. apply Z.leb_gt. exact Hlt. Qed.

(** X5.  The three periodic actions of the main loop are rate limited:
    once the status report, the metrics publication or the update check
    has run at tick count [t], it does not run again at any tick count
    [t'] less than its period after [t] (30 s for the report, 300 s for
    the other two), whatever the collaborators answer; the report and the
    update check then make no call at all. *)
Theorem X5_periodic_actions_rate_limited :
  forall (config : app_config_t) (ls : loop_state) (t : Z) (w : W),
    (forall ls' w' evs,
       report_status config ls t w = (Done ls', w', evs) ->
       evs <> [] ->
       forall t' w2,
         wrap32 (t' - t) < pdMS_TO_TICKS 30000 ->
         report_status config ls' t' w2 = (Done ls', w2, [])) /\
    (forall ls' w' evs,
       publish_metrics config ls t w = (Done ls', w', evs) ->
       metrics_publications evs <> [] ->
       forall t' w2,
         wrap32 (t' - t) < pdMS_TO_TICKS 300000 ->
         metrics_publications (events_of (publish_metrics config ls' t' w2)) = [] /\
         outcome_of (publish_metrics config ls' t' w2) = Done ls') /\
    (forall ls' w' evs,
       check_ota config ls t w = (Done ls', w', evs) ->
       update_checks evs <> [] ->
       forall t' w2,
         wrap32 (t' - t) < pdMS_TO_TICKS 300000 ->
         check_ota config ls' t' w2 = (Done ls', w2, [])).
Proof.
  intros config ls t w. split; [|split].
  - intros ls' w' evs Hrun Hevs t' w2 Hlt.
    rewrite (report_status_elapsed _ _ _ _ _ _ _ Hrun Hevs).
    apply report_status_not_elapsed. cbn [last_stats_time set_last_stats_time].
    now apply not_elapsed_within.
  - intros ls' w' evs Hrun Hevs t' w2 Hlt.
    pose proof (publish_metrics_run config ls t w) as Hfirst.
    assert (Hls : ls' = set_last_system_metrics ls t).
    { destruct (mqtt_enabled (mqtt config)).
      - destruct (fst (perform mqtt_client_is_connected w)
                  && elapsed t (last_system_metrics ls) 300000).
        + destruct Hfirst as (h & mh & tk & r & w3 & Hfirst).
          rewrite Hfirst in Hrun. now injection Hrun as <- _ _.
        + rewrite Hfirst in Hrun. injection Hrun as _ _ <-. now elim Hevs.
      - rewrite Hfirst in Hrun. injection Hrun as _ _ <-. now elim Hevs. }
    subst ls'.
    pose proof (publish_metrics_run config (set_last_system_metrics ls t) t' w2)
      as Hnext.
    cbn [last_system_metrics set_last_system_metrics] in Hnext.
    rewrite (not_elapsed_within t t' 300000 Hlt), andb_false_r in Hnext.
    destruct (mqtt_enabled (mqtt config)); rewrite Hnext; split; reflexivity.
  - intros ls' w' evs Hrun Hevs t' w2 Hlt.
    pose proof (check_ota_run config ls t w) as Hfirst.
    assert (Hls : ls' = set_last_ota_check ls t).
    { destruct (ota_enabled (ota config) && auto_update (ota config)
                && elapsed t (last_ota_check ls) 300000).
      - destruct Hfirst as (r & w3 & failure & Hfirst & _).
        rewrite Hfirst in Hrun. now injection Hrun as <- _ _.
      - rewrite Hfirst in Hrun. injection Hrun as _ _ <-. now elim Hevs. }
    subst ls'.
    pose proof (check_ota_run config (set_last_ota_check ls t) t' w2) as Hnext.
    cbn [last_ota_check set_last_ota_check] in Hnext.
    rewrite (not_elapsed_within t t' 300000 Hlt), andb_false_r in Hnext.
    exact Hnext.
Qed.

Lemma process_csi_quiet_metrics (ls : loop_state) :
  quiet metrics_of (process_csi (W := W) ls).
Proof.
  unfold process_csi, correct_timestamp, publish_if_connected, Supervisor.log.
  repeat quiet_step.
Qed.

Lemma process_csi_quiet_checks (ls : loop_state) :
  quiet update_check_of (process_csi (W := W) ls).
Proof.
  unfold process_csi, correct_timestamp, publish_if_connected, Supervisor.log.
  repeat quiet_step.
Qed.

Lemma report_status_quiet_metrics config ls t :
  quiet metrics_of (report_status (W := W) config ls t).
Proof.
  unfold report_status, report_ntp, report_mqtt, Supervisor.log.
  repeat quiet_step.
Qed.

Lemma report_status_quiet_checks config ls t :
  quiet update_check_of (report_status (W := W) config ls t).
Proof.
  unfold report_status, report_ntp, report_mqtt, Supervisor.log.
  repeat quiet_step.
Qed.

Lemma publish_metrics_quiet_checks config ls t :
  quiet update_check_of (publish_metrics (W := W) config ls t).
Proof. unfold publish_metrics, Supervisor.log. repeat quiet_step. Qed.

Lemma check_ota_quiet_metrics config ls t :
  quiet metrics_of (check_ota (W := W) config ls t).
Proof. unfold check_ota, Supervisor.log. repeat quiet_step. Qed.

Lemma guard_quiet_metrics config ls :
  quiet metrics_of (guard_and_delay (W := W) config ls).
Proof.
  unfold guard_and_delay, health_guard, Supervisor.log. repeat quiet_step.
Qed.

Lemma guard_quiet_checks config ls :
  quiet update_check_of (guard_and_delay (W := W) config ls).
Proof.
  unfold guard_and_delay, health_guard, Supervisor.log. repeat quiet_step.
Qed.


(** X18.  The timestamp written from the synchronized clock counts
    microseconds: for a time of day with a non-negative number of seconds
    and 0 to 999,999 microseconds whose count fits 64 bits, the seconds
    and the microseconds are recovered from it by division, and a later
    time gives a larger timestamp. *)
Theorem X18_corrected_timestamp_counts_microseconds :
  forall tv : timeval,
    0 <= tv_sec tv ->
    0 <= tv_usec tv < 1000000 ->
    tv_sec tv * 1000000 + tv_usec tv < 2 ^ 64 ->
    corrected_timestamp tv / 1000000 = tv_sec tv /\
    corrected_timestamp tv mod 1000000 = tv_usec tv /\
    (forall tv' : timeval,
       0 <= tv_usec tv' < 1000000 ->
       tv_sec tv' < tv_sec tv \/
       (tv_sec tv' = tv_sec tv /\ tv_usec tv' < tv_usec tv) ->
       0 <= tv_sec tv' ->
       corrected_timestamp tv' < corrected_timestamp tv).
Proof.
  intros tv Hsec Husec Hfit.
  assert (Hts : corrected_timestamp tv = tv_sec tv * 1000000 + tv_usec tv).
  { unfold corrected_timestamp, wrap64. apply Z.mod_small. lia. }
  rewrite Hts. split; [|split].
  - symmetry. apply (Z.div_unique _ _ (tv_sec tv) (tv_usec tv)); lia.
  - symmetry. apply (Z.mod_unique _ _ (tv_sec tv) (tv_usec tv)); lia.
  - intros tv' Husec' Hbefore Hsec'.
    unfold corrected_timestamp, wrap64. rewrite Z.mod_small; lia.
Qed.

End LoopProperties.

Section LoopRuns.
Import CStr Json Platform Trace Supervisor CsiFlow Observations Bench.
Local Open Scope string_scope.
Local Open Scope list_scope.
Local Open Scope Z_scope.

(** X1 on the bench platform (100 ticks per second): 3,005 ticks after a
    reading taken 5 ticks before the counter wraps, 30 s have passed. *)
Lemma X1_elapsed_across_wrap_witness :
  elapsed (W := script) (wrap32 (4294967291 + 3005)) 4294967291 30000
  = (pdMS_TO_TICKS (W := script) 30000 <=? 3005).
Proof.
  apply (X1_elapsed_across_counter_wrap (W := script) 4294967291 3005 30000).
  split; [lia | reflexivity].
Defined.

(** X3 on the bench world: two iterations, two delays of 10 ticks, at
    most two waits on the queue. *)
Lemma X3_two_iterations_witness :
  delays (events_of (main_loop 2 bench_config bench_loop_state bench_world))
  = repeat (pdMS_TO_TICKS (W := script) 100) 2 /\
  (length (pops (events_of (main_loop 2 bench_config bench_loop_state
                              bench_world))) <= 2)%nat.
Proof.
  assert (Hrun : main_loop 2 bench_config bench_loop_state bench_world
                 = (Done (final_state bench_loop_state
                            (main_loop 2 bench_config bench_loop_state bench_world)),
                    world_of (main_loop 2 bench_config bench_loop_state bench_world),
                    events_of (main_loop 2 bench_config bench_loop_state bench_world)))
    by (vm_compute; reflexivity).
  destruct (X3_loop_delays_once_per_iteration 2%nat bench_config bench_loop_state
              _ bench_world _ _ Hrun) as (Hdelays & _ & _ & Hcount).
  split; [exact Hdelays|exact Hcount].
Defined.

(** X4 on the bench world: after two iterations the counters are 2, 2, 2
    and 0. *)
Lemma X4_two_iterations_witness :
  let run := main_loop 2 bench_config bench_loop_state bench_world in
  counters_in_range (final_state bench_loop_state run) /\
  loop_counter (final_state bench_loop_state run)
  = wrap32 (loop_counter bench_loop_state + Z.of_nat 2) /\
  csi_data_count (final_state bench_loop_state run)
  = wrap32 (csi_data_count bench_loop_state + zlength (drained (events_of run))) /\
  mqtt_publish_count (final_state bench_loop_state run)
  = wrap32 (mqtt_publish_count bench_loop_state
            + zlength (sends_ok (events_of run))) /\
  mqtt_publish_errors (final_state bench_loop_state run)
  = wrap32 (mqtt_publish_errors bench_loop_state
            + zlength (sends_failed (events_of run))).
Proof.
  refine (X4_loop_counters_follow_trace 2%nat bench_config bench_loop_state
            (final_state bench_loop_state
               (main_loop 2 bench_config bench_loop_state bench_world))
            bench_world
            (world_of (main_loop 2 bench_config bench_loop_state bench_world))
            _ _ _).
  - unfold counters_in_range. cbn. lia.
  - vm_compute. reflexivity.
Defined.

(** X5 on the bench world: a status report made at tick 4000 is not
    repeated at tick 5000. *)
Lemma X5_report_not_repeated_witness :
  report_status bench_config (set_last_stats_time bench_loop_state 4000) 5000
    bench_world
  = (Done (set_last_stats_time bench_loop_state 4000), bench_world, []).
Proof.
  refine (proj1 (X5_periodic_actions_rate_limited bench_config bench_loop_state
                   4000 bench_world)
            (set_last_stats_time bench_loop_state 4000)
            (world_of (report_status bench_config bench_loop_state 4000 bench_world))
            (events_of (report_status bench_config bench_loop_state 4000 bench_world))
            _ _ 5000 bench_world _).
  - vm_compute. reflexivity.
  - vm_compute. discriminate.
  - vm_compute. reflexivity.
Defined.


(** X18 on the time of the bench clock. *)
Lemma X18_bench_clock_witness :
  corrected_timestamp (mk_timeval 1700000000 250000) / 1000000 = 1700000000 /\
  corrected_timestamp (mk_timeval 1700000000 250000) mod 1000000 = 250000.
Proof.
  pose proof (X18_corrected_timestamp_counts_microseconds
                (mk_timeval 1700000000 250000)) as Hts.
  cbn [tv_sec tv_usec] in Hts.
  destruct Hts as (Hsec & Husec & _); [lia|lia|reflexivity|].
  split; [exact Hsec|exact Husec].
Defined.

(** X19 on the bench world: two iterations from the start. *)
Lemma X19_two_iterations_witness :
  loop_counter
    (final_state bench_loop_state
       (bind loop_start (main_loop 2 bench_config) bench_world))
  = wrap32 (Z.of_nat 2).
Proof.
  refine (proj1 (X19_counters_count_from_the_start 2%nat bench_config
                   (final_state bench_loop_state
                      (bind loop_start (main_loop 2 bench_config) bench_world))
                   bench_world
                   (world_of (bind loop_start (main_loop 2 bench_config)
                                bench_world))
                   (events_of (bind loop_start (main_loop 2 bench_config)
                                 bench_world))
                   _)).
  vm_compute. reflexivity.
Defined.

End LoopRuns.

(** ** The wait for the first clock synchronization *)

Section StartupProperties.
Import CStr Json Platform Trace Observations Startup.
Local Open Scope string_scope.
Local Open Scope list_scope.
Local Open Scope Z_scope.

Context {W : Type} `{Platform W}.

(** X7.  The start-up wait for the first clock synchronization always
    ends: with [n] rounds allowed (main.c allows 30) it asks the clock at
    most [n] times and waits at most [n] times, each time for 1000 ms;
    every answer but the last one is [false], it stops at the first
    [true], and after [n] negative answers it gives up without asking
    again.  It makes no other call. *)
Theorem X7_sync_wait_is_bounded :
  forall (n : nat) (w : W),
    let run := wait_for_sync n w in
    outcome_of run = Done tt /\
    exists k : nat,
      (k <= n)%nat /\
      delays (events_of run) = repeat (pdMS_TO_TICKS 1000) k /\
      synchronized_answers (events_of run)
      = repeat false k ++ (if (k <? n)%nat then [true] else []) /\
      length (events_of run)
      = (k + length (synchronized_answers (events_of run)))%nat.
Proof.
  induction n as [|n IH]; intros w; cbv zeta.
  - split; [reflexivity|]. exists 0%nat. repeat split. lia.
  - cbn [wait_for_sync].
    rewrite (bind_done _ _ w _ _ _ (do_call_run ntp_sync_is_synchronized w)).
    destruct (perform ntp_sync_is_synchronized w) as [[|] w1]; cbn [fst snd].
    + split; [reflexivity|]. exists 0%nat. repeat split. lia.
    + rewrite (bind_done _ _ w1 _ _ _ (do_call_run _ w1)).
      destruct (perform (vTaskDelay (pdMS_TO_TICKS 1000)) w1) as [[] w2].
      cbn [fst snd].
      destruct (IH w2) as (Hout & k & Hk & Hdelays & Hanswers & Hlen).
      split; [exact Hout|]. exists (S k).
      unfold outcome_of, events_of in *. cbn [fst snd].
      split; [lia|]. split; [|split].
      * cbn. now rewrite Hdelays.
      * cbn. rewrite Hanswers. reflexivity.
      * cbn. rewrite Hlen. lia.
Qed.

End StartupProperties.

(** ** Remote commands and configuration updates *)

(** Reads the outcome and the events off a run that is written out. *)
Ltac run_parts :=
  repeat match goal with
         | |- context [Platform.outcome_of (?o, ?v, ?e)] =>
             change (Platform.outcome_of (o, v, e)) with o
         | |- context [Platform.events_of (?o, ?v, ?e)] =>
             change (Platform.events_of (o, v, e)) with e
         | |- context [Platform.world_of (?o, ?v, ?e)] =>
             change (Platform.world_of (o, v, e)) with v
         end.

Section RemoteConfigProperties.
Import CStr Json Platform Trace Supervisor RemoteConfig Observations.
Local Open Scope string_scope.
Local Open Scope list_scope.
Local Open Scope Z_scope.

Context {W : Type} `{Platform W}.

Lemma command_run (params : option cJSON) (command : string) (w : W) :
  string_item (cJSON_GetObjectItem params "command") = Some command ->
  remote_command_handler params w
  = bind (RemoteConfig.log LOG_I "Executing remote command: %s")
      (fun _ => run_command command) w.
Proof.
  intros Hcmd. unfold remote_command_handler. destruct params as [p|].
  - now rewrite Hcmd.
  - discriminate Hcmd.
Qed.

Lemma strcmp_eq_other (command a b : string) :
  strcmp_eq command a = true -> strcmp_eq a b = false ->
  strcmp_eq command b = false.
Proof.
  unfold strcmp_eq. intros Ha Hab. apply String.eqb_eq in Ha. now rewrite Ha.
Qed.

Lemma publish_detailed_status_no_erasure :
  quiet erase_of (publish_detailed_status (W := W)).
Proof. unfold publish_detailed_status, RemoteConfig.log. repeat quiet_step. Qed.

Lemma publish_detailed_status_no_delay :
  quiet delay_of (publish_detailed_status (W := W)).
Proof. unfold publish_detailed_status, RemoteConfig.log. repeat quiet_step. Qed.

(** X8.  A remote command restarts the device exactly when it is
    [restart] or [factory_reset].  [restart] waits 2000 ms first and
    erases nothing; [factory_reset] erases the non-volatile storage once
    and restarts at once, whatever the erasure returned; no other command
    erases the storage or waits. *)
Theorem X8_commands_that_restart_or_erase :
  forall (params : option cJSON) (command : string) (w : W),
    string_item (cJSON_GetObjectItem params "command") = Some command ->
    let run := remote_command_handler params w in
    (outcome_of run = Reboot <->
     strcmp_eq command "restart" = true \/
     strcmp_eq command "factory_reset" = true) /\
    (strcmp_eq command "restart" = true ->
     delays (events_of run) = [pdMS_TO_TICKS 2000] /\
     erasures (events_of run) = []) /\
    (strcmp_eq command "factory_reset" = true ->
     delays (events_of run) = [] /\
     length (erasures (events_of run)) = 1%nat) /\
    (strcmp_eq command "restart" = false ->
     strcmp_eq command "factory_reset" = false ->
     delays (events_of run) = [] /\ erasures (events_of run) = []).
Proof.
  intros params command w Hcmd. cbv zeta.
  rewrite (command_run params command w Hcmd). unfold RemoteConfig.log.
  rewrite (bind_done _ _ w _ _ _ (do_call_run _ w)).
  destruct (perform (esp_log LOG_I "Executing remote command: %s") w) as [[] w1].
  cbn [fst snd].
  run_parts.
  unfold delays, erasures. cbn [app collect delay_of erase_of].
  unfold run_command.
  destruct (strcmp_eq command "restart") eqn:E1.
  { pose proof (strcmp_eq_other command "restart" "factory_reset" E1 eq_refl) as E5.
    rewrite E5.
    unfold RemoteConfig.log, bind, do_call, restart.
    destruct (perform (esp_log LOG_W _) w1) as [[] w2].
    destruct (perform (vTaskDelay (pdMS_TO_TICKS 2000)) w2) as [[] w3].
    destruct (perform esp_restart w3) as [[] w4]. cbn.
    repeat split; try discriminate; auto. }
  destruct (strcmp_eq command "start_csi") eqn:E2.
  { rewrite (strcmp_eq_other command "start_csi" "factory_reset" E2 eq_refl).
    rewrite do_call_run. cbn.
    repeat split; try discriminate; intuition discriminate. }
  destruct (strcmp_eq command "stop_csi") eqn:E3.
  { rewrite (strcmp_eq_other command "stop_csi" "factory_reset" E3 eq_refl).
    rewrite do_call_run. cbn.
    repeat split; try discriminate; intuition discriminate. }
  destruct (strcmp_eq command "calibrate") eqn:E4.
  { rewrite (strcmp_eq_other command "calibrate" "factory_reset" E4 eq_refl).
    unfold RemoteConfig.log, bind, do_call, ret.
    destruct (perform (esp_log LOG_I _) w1) as [[] w2]. cbn.
    repeat split; try discriminate; intuition discriminate. }
  destruct (strcmp_eq command "factory_reset") eqn:E5.
  { unfold RemoteConfig.log, bind, do_call, restart.
    destruct (perform (esp_log LOG_W _) w1) as [[] w2].
    destruct (perform nvs_flash_erase w2) as [r w3].
    destruct (perform esp_restart w3) as [[] w4]. cbn.
    repeat split; try discriminate; auto. }
  destruct (strcmp_eq command "get_status") eqn:E6.
  { destruct (bind_split publish_detailed_status (fun _ => ret ESP_OK) w1
                publish_detailed_status_returns) as (u & w2 & _ & Hb).
    rewrite Hb. run_parts. rewrite !collect_app.
    rewrite (publish_detailed_status_no_erasure w1).
    rewrite (publish_detailed_status_no_delay w1). cbn.
    repeat split; try discriminate; intuition discriminate. }
  unfold RemoteConfig.log, bind, do_call, ret.
  destruct (perform (esp_log LOG_W _) w1) as [[] w2]. cbn.
  repeat split; try discriminate; intuition discriminate.
Qed.

End RemoteConfigProperties.

(** ** Bounded copies and the fields remote updates write *)

Section CopyProperties.
Import CStr Json Platform Supervisor RemoteConfig Observations.
Local Open Scope string_scope.
Local Open Scope list_scope.

Lemma length_string_of_list_ascii (l : list ascii) :
  String.length (string_of_list_ascii l) = length l.
Proof. induction l as [|c l IH]; cbn; [reflexivity|]. now rewrite IH. Qed.

Lemma prefix_short (n : nat) (s : string) :
  (String.length s <= n)%nat -> prefix n s = s.
Proof.
  intros Hn. unfold prefix.
  rewrite firstn_all2 by (rewrite length_list_ascii_of_string; exact Hn).
  apply string_of_list_ascii_of_string.
Qed.

Lemma prefix_length (n : nat) (s : string) :
  (String.length (prefix n s) <= n)%nat.
Proof.
  unfold prefix. rewrite length_string_of_list_ascii, length_firstn. lia.
Qed.

Lemma terminated_positive (buf : list ascii) :
  terminated buf -> (0 < length buf)%nat.
Proof.
  unfold terminated. intros Hlast.
  assert (length buf - 1 < length buf)%nat by (apply nth_error_Some; congruence).
  lia.
Qed.

Lemma bounded_copy_length (dst : list ascii) (src : string) :
  length (bounded_copy dst src) = length dst.
Proof. unfold bounded_copy. apply strncpy_length. lia. Qed.

Lemma bounded_copy_terminated (dst : list ascii) (src : string) :
  terminated dst -> terminated (bounded_copy dst src).
Proof.
  unfold terminated. rewrite bounded_copy_length. intros Hlast.
  rewrite <- Hlast.
  assert (Hskip : forall l : list ascii,
            nth_error l (length dst - 1)
            = nth_error (skipn (length dst - 1) l) 0).
  { intros l. rewrite nth_error_skipn. now rewrite Nat.add_0_r. }
  rewrite (Hskip (bounded_copy dst src)), (Hskip dst). unfold bounded_copy.
  now rewrite strncpy_tail.
Qed.

(** X9.  [strncpy(dst, src, sizeof(dst) - 1)] into an array whose last
    byte is NUL keeps the size of the array and its last byte, so the
    array still holds a terminated string, of at most [sizeof(dst) - 1]
    characters; a source string that fits is stored whole. *)
Theorem X9_bounded_copy_keeps_terminator :
  forall (dst : list ascii) (src : string),
    terminated dst ->
    length (bounded_copy dst src) = length dst /\
    terminated (bounded_copy dst src) /\
    (String.length (c_str (bounded_copy dst src)) <= length dst - 1)%nat /\
    ((String.length (c_string src) <= length dst - 1)%nat ->
     c_str (bounded_copy dst src) = c_string src).
Proof.
  intros dst src Hlast.
  split; [apply bounded_copy_length|].
  split; [now apply bounded_copy_terminated|].
  rewrite (bounded_copy_stored dst src Hlast).
  split; [apply prefix_length|]. apply prefix_short.
Qed.

Lemma apply_node_settings_fields (section : cJSON) (cfg : app_config_t) :
  let cfg' := fst (apply_node_settings section cfg) in
  firmware_version cfg' = firmware_version cfg /\
  mqtt cfg' = mqtt cfg /\ web_server cfg' = web_server cfg /\
  ntp cfg' = ntp cfg /\ ota cfg' = ota cfg.
Proof.
  cbv zeta. unfold apply_node_settings.
  destruct (string_item (cJSON_GetObjectItem (Some section) "node_name"));
    destruct (cJSON_GetObjectItem (Some section) "wifi") as [wifi_item|];
    try (destruct (string_item (cJSON_GetObjectItem (Some wifi_item) "ssid"));
         destruct (string_item (cJSON_GetObjectItem (Some wifi_item) "password")));
    repeat split.
Qed.

Lemma apply_mqtt_config_fields (section : cJSON) (cfg : app_config_t) :
  let cfg' := apply_mqtt_config section cfg in
  device_name cfg' = device_name cfg /\
  firmware_version cfg' = firmware_version cfg /\
  wifi cfg' = wifi cfg /\ web_server cfg' = web_server cfg /\
  ntp cfg' = ntp cfg /\ ota cfg' = ota cfg /\
  mqtt_enabled (mqtt cfg') = mqtt_enabled (mqtt cfg) /\
  mqtt_username (mqtt cfg') = mqtt_username (mqtt cfg) /\
  mqtt_password (mqtt cfg') = mqtt_password (mqtt cfg) /\
  client_id (mqtt cfg') = client_id (mqtt cfg) /\
  ssl_enabled (mqtt cfg') = ssl_enabled (mqtt cfg) /\
  keepalive (mqtt cfg') = keepalive (mqtt cfg).
Proof.
  cbv zeta. unfold apply_mqtt_config.
  destruct (string_item (cJSON_GetObjectItem (Some section) "broker_url"));
    destruct (number_item (cJSON_GetObjectItem (Some section) "port")) as [[i d]|];
    destruct (string_item (cJSON_GetObjectItem (Some section) "topic_prefix"));
    repeat split.
Qed.


(** X11.  Remote updates never overrun a string field: when the five
    string fields they write (device name, WiFi SSID and password, broker
    URL, topic prefix) end in a NUL byte, they still do after a node
    section or an MQTT section has been applied, and the fields keep
    their sizes, whatever the lengths of the strings in the section. *)
Theorem X11_updates_keep_strings_terminated :
  forall (section : cJSON) (cfg : app_config_t),
    strings_terminated cfg ->
    strings_terminated (fst (apply_node_settings section cfg)) /\
    same_sizes cfg (fst (apply_node_settings section cfg)) /\
    strings_terminated (apply_mqtt_config section cfg) /\
    same_sizes cfg (apply_mqtt_config section cfg).
Proof.
  intros section cfg (Hname & Hssid & Hpass & Hurl & Htopic).
  unfold strings_terminated, same_sizes.
  split; [|split; [|split]].
  - unfold apply_node_settings.
    destruct (string_item (cJSON_GetObjectItem (Some section) "node_name"));
      destruct (cJSON_GetObjectItem (Some section) "wifi") as [wifi_item|];
      try (destruct (string_item (cJSON_GetObjectItem (Some wifi_item) "ssid"));
           destruct (string_item (cJSON_GetObjectItem (Some wifi_item) "password")));
      cbn [fst snd device_name wifi mqtt ssid password broker_url topic_prefix
           set_device_name set_wifi set_ssid set_password set_mqtt
           set_broker_url set_port set_topic_prefix];
      repeat split; auto using bounded_copy_terminated.
  - unfold apply_node_settings.
    destruct (string_item (cJSON_GetObjectItem (Some section) "node_name"));
      destruct (cJSON_GetObjectItem (Some section) "wifi") as [wifi_item|];
      try (destruct (string_item (cJSON_GetObjectItem (Some wifi_item) "ssid"));
           destruct (string_item (cJSON_GetObjectItem (Some wifi_item) "password")));
      cbn [fst snd device_name wifi mqtt ssid password broker_url topic_prefix
           set_device_name set_wifi set_ssid set_password set_mqtt
           set_broker_url set_port set_topic_prefix];
      repeat split; auto using bounded_copy_length.
  - unfold apply_mqtt_config.
    destruct (string_item (cJSON_GetObjectItem (Some section) "broker_url"));
      destruct (number_item (cJSON_GetObjectItem (Some section) "port")) as [[i d]|];
      destruct (string_item (cJSON_GetObjectItem (Some section) "topic_prefix"));
      cbn [fst snd device_name wifi mqtt ssid password broker_url topic_prefix
           set_device_name set_wifi set_ssid set_password set_mqtt
           set_broker_url set_port set_topic_prefix];
      repeat split; auto using bounded_copy_terminated.
  - unfold apply_mqtt_config.
    destruct (string_item (cJSON_GetObjectItem (Some section) "broker_url"));
      destruct (number_item (cJSON_GetObjectItem (Some section) "port")) as [[i d]|];
      destruct (string_item (cJSON_GetObjectItem (Some section) "topic_prefix"));
      cbn [fst snd device_name wifi mqtt ssid password broker_url topic_prefix
           set_device_name set_wifi set_ssid set_password set_mqtt
           set_broker_url set_port set_topic_prefix];
      repeat split; auto using bounded_copy_length.
Qed.

End CopyProperties.

(** ** The configurations built at start-up *)

Section BuilderProperties.
Import CStr Json Platform Supervisor Observations.
Local Open Scope string_scope.
Local Open Scope list_scope.

Lemma copy_field_passed_on (size : nat) (src : list ascii) (after : string) :
  (0 < size)%nat ->
  passed_on size (read_from src after) (copy_field size src after).
Proof.
  intros Hsize. unfold passed_on.
  assert (Hlen : length (copy_field size src after) = size).
  { unfold copy_field. rewrite bounded_copy_length. apply repeat_length. }
  split; [exact Hlen|]. split.
  - unfold copy_field. apply bounded_copy_terminated.
    now apply zeroed_last.
  - intros Hfits. rewrite (copy_field_stored size src after Hsize).
    now apply prefix_short.
Qed.

(** X20.  Every string field of the four configurations main.c builds
    at start-up (web server, NTP, MQTT, OTA) is a terminated string of
    the field's size, and the C string that starts at the configured
    array is passed on whole when it fits the field, with room for the
    terminator.  That C string is the array's own string when the array
    holds a NUL; when it holds none, the string runs on into the bytes
    that follow the array in memory. *)
Theorem X20_startup_configurations_pass_fitting_strings :
  forall (sz : field_sizes) (after : memory_after) (config : app_config_t),
    ((0 < sizeof_web_username sz)%nat ->
     passed_on (sizeof_web_username sz)
       (read_from (web_username (web_server config)) (after Web_username))
       (wc_username (make_web_config sz after config))) /\
    ((0 < sizeof_web_password sz)%nat ->
     passed_on (sizeof_web_password sz)
       (read_from (web_password (web_server config)) (after Web_password))
       (wc_password (make_web_config sz after config))) /\
    ((0 < sizeof_ntp_server1 sz)%nat ->
     passed_on (sizeof_ntp_server1 sz)
       (read_from (server1 (ntp config)) (after Ntp_server1))
       (nc_server1 (make_ntp_config sz after config))) /\
    ((0 < sizeof_ntp_server2 sz)%nat ->
     passed_on (sizeof_ntp_server2 sz)
       (read_from (server2 (ntp config)) (after Ntp_server2))
       (nc_server2 (make_ntp_config sz after config))) /\
    ((0 < sizeof_ntp_server3 sz)%nat ->
     passed_on (sizeof_ntp_server3 sz)
       (read_from (server3 (ntp config)) (after Ntp_server3))
       (nc_server3 (make_ntp_config sz after config))) /\
    ((0 < sizeof_mqtt_broker_url sz)%nat ->
     passed_on (sizeof_mqtt_broker_url sz)
       (read_from (broker_url (mqtt config)) (after Mqtt_broker_url))
       (mc_broker_url (make_mqtt_config sz after config))) /\
    ((0 < sizeof_mqtt_username sz)%nat ->
     passed_on (sizeof_mqtt_username sz)
       (read_from (mqtt_username (mqtt config)) (after Mqtt_username))
       (mc_username (make_mqtt_config sz after config))) /\
    ((0 < sizeof_mqtt_password sz)%nat ->
     passed_on (sizeof_mqtt_password sz)
       (read_from (mqtt_password (mqtt config)) (after Mqtt_password))
       (mc_password (make_mqtt_config sz after config))) /\
    ((0 < sizeof_mqtt_client_id sz)%nat ->
     passed_on (sizeof_mqtt_client_id sz)
       (read_from (client_id (mqtt config)) (after Mqtt_client_id))
       (mc_client_id (make_mqtt_config sz after config))) /\
    ((0 < sizeof_mqtt_topic_prefix sz)%nat ->
     passed_on (sizeof_mqtt_topic_prefix sz)
       (read_from (topic_prefix (mqtt config)) (after Mqtt_topic_prefix))
       (mc_topic_prefix (make_mqtt_config sz after config))) /\
    ((0 < sizeof_ota_server_url sz)%nat ->
     passed_on (sizeof_ota_server_url sz)
       (read_from (update_url (ota config)) (after Ota_update_url))
       (oc_server_url (make_ota_config sz after config))) /\
    (forall (src : list ascii) (bytes : string),
       In NUL src -> c_string (read_from src bytes) = c_str src).
Proof.
  intros sz after config.
  repeat match goal with |- _ /\ _ => split end;
    try apply read_from_terminated; intros Hsize;
    cbn [make_web_config make_ntp_config make_mqtt_config make_ota_config
         wc_username wc_password nc_server1 nc_server2 nc_server3 mc_broker_url
         mc_username mc_password mc_client_id mc_topic_prefix oc_server_url];
    now apply copy_field_passed_on.
Qed.

End BuilderProperties.

(** ** The handlers of remote_config.c *)

Section HandlerProperties.
Import CStr Json Platform Trace Supervisor RemoteConfig Observations.
Local Open Scope string_scope.
Local Open Scope list_scope.
Local Open Scope Z_scope.

Context {W : Type} `{Platform W}.

(** X12.  [handle_mqtt_config] never restarts the device and publishes
    nothing.  When the configuration cannot be loaded it returns the
    load's error and neither saves nor touches the MQTT client.
    Otherwise it saves the updated configuration once and returns what
    the save returned; the client is restarted (stop, a wait of 1000 ms,
    init with the settings just saved, start) exactly when the save
    succeeded, and what the client calls return is ignored. *)
Theorem X12_mqtt_update_restarts_client_after_save :
  forall (section : cJSON) (w : W),
    let loaded := perform app_config_load w in
    let app_cfg := apply_mqtt_config section (snd (fst loaded)) in
    let stored := perform (app_config_save app_cfg) (snd loaded) in
    let run := handle_mqtt_config section w in
    (is_ok (fst (fst loaded)) = false ->
     outcome_of run = Done (fst (fst loaded)) /\
     saved (events_of run) = [] /\
     client_steps (events_of run) = []) /\
    (is_ok (fst (fst loaded)) = true ->
     outcome_of run = Done (fst stored) /\
     saved (events_of run) = [app_cfg] /\
     client_steps (events_of run)
     = if is_ok (fst stored)
       then [Client_stop; Client_wait (pdMS_TO_TICKS 1000);
             Client_init (mqtt app_cfg); Client_start]
       else []) /\
    restarts (events_of run) = [] /\
    publish_calls (events_of run) = [].
Proof.
  intros section w. cbv zeta.
  unfold handle_mqtt_config, RemoteConfig.log, bind, do_call, ret.
  destruct (perform app_config_load w) as [[err cfg] w1]. cbn [fst snd].
  destruct (is_ok err) eqn:Hload.
  - destruct (perform (app_config_save (apply_mqtt_config section cfg)) w1)
      as [err' w2]. cbn [fst snd].
    destruct (is_ok err') eqn:Hsave.
    + destruct (perform mqtt_client_stop w2) as [r1 w3].
      destruct (perform (vTaskDelay (pdMS_TO_TICKS 1000)) w3) as [[] w4].
      destruct (perform (mqtt_client_init (mqtt (apply_mqtt_config section cfg))) w4)
        as [r2 w5].
      destruct (perform mqtt_client_start w5) as [r3 w6].
      repeat split; intros; try discriminate; reflexivity.
    + repeat split; intros; try discriminate; reflexivity.
  - destruct (perform (esp_log LOG_E "Failed to load config: %s") w1) as [[] w2].
    repeat split; intros; try discriminate; reflexivity.
Qed.

(** X13.  [handle_csi_config] returns the error of
    [csi_collector_get_config] without updating anything when the
    current configuration cannot be read; otherwise it makes exactly one
    [csi_collector_update_config] call and returns its result.  In the
    configuration it hands over, each of the four fields is the value
    under its own key when that value has the right type (a number's
    integer reading for the sample rate and the buffer size, its double
    reading for the threshold, a boolean for the filter switch) and the
    current value otherwise. *)
Theorem X13_csi_update_applies_well_typed_fields :
  forall (section : cJSON) (w : W),
    let got := perform csi_collector_get_config w in
    let current := snd (fst got) in
    let updated := apply_csi_config section current in
    let applied := perform (csi_collector_update_config updated) (snd got) in
    (handle_csi_config section w
     = if is_ok (fst (fst got))
       then (Done (fst applied), snd applied,
             [Ev csi_collector_get_config (fst got);
              Ev (csi_collector_update_config updated) (fst applied)])
       else (Done (fst (fst got)), snd got,
             [Ev csi_collector_get_config (fst got)])) /\
    sample_rate updated
    = match number_item (cJSON_GetObjectItem (Some section) "sample_rate") with
      | Some (i, _) => i
      | None => sample_rate current
      end /\
    buffer_size updated
    = match number_item (cJSON_GetObjectItem (Some section) "buffer_size") with
      | Some (i, _) => i
      | None => buffer_size current
      end /\
    filter_enabled updated
    = match bool_item (cJSON_GetObjectItem (Some section) "filter_enabled") with
      | Some b => b
      | None => filter_enabled current
      end /\
    filter_threshold updated
    = match number_item (cJSON_GetObjectItem (Some section) "filter_threshold") with
      | Some (_, d) => d
      | None => filter_threshold current
      end.
Proof.
  intros section w. cbv zeta. split.
  - unfold handle_csi_config, bind, do_call, ret.
    destruct (perform csi_collector_get_config w) as [[err current] w1].
    cbn [fst snd]. destruct (is_ok err); [|reflexivity].
    destruct (perform (csi_collector_update_config
                         (apply_csi_config section current)) w1) as [r w2].
    reflexivity.
  - unfold apply_csi_config.
    destruct (number_item (cJSON_GetObjectItem (Some section) "sample_rate"))
      as [[i1 d1]|];
      destruct (number_item (cJSON_GetObjectItem (Some section) "buffer_size"))
        as [[i2 d2]|];
      destruct (bool_item (cJSON_GetObjectItem (Some section) "filter_enabled"));
      destruct (number_item (cJSON_GetObjectItem (Some section) "filter_threshold"))
        as [[i4 d4]|];
      repeat split.
Qed.

Lemma snprintf_cut_length (size : nat) (formatted : string) :
  (String.length (snprintf_cut size formatted) <= size - 1)%nat.
Proof.
  unfold snprintf_cut. rewrite length_string_of_list_ascii, length_firstn. lia.
Qed.



End HandlerProperties.

(** ** The update handler as a whole *)

Ltac quiet_sections :=
  unfold RemoteConfig.sections_before_node, RemoteConfig.node_section,
    RemoteConfig.run_section, RemoteConfig.handle_csi_config,
    RemoteConfig.handle_mqtt_config, RemoteConfig.handle_node_settings,
    RemoteConfig.log;
  repeat quiet_step.

Section UpdateProperties.
Import CStr Json Platform Trace Supervisor RemoteConfig Observations.
Local Open Scope string_scope.
Local Open Scope list_scope.
Local Open Scope Z_scope.

Context {W : Type} `{Platform W}.

Lemma send_ack_returns (err : esp_err_t) : returns (send_ack (W := W) err).
Proof. unfold send_ack. repeat returns_step. Qed.

Lemma restart_required_is_wifi_change (node : cJSON) (cfg : app_config_t) :
  snd (apply_node_settings node cfg) = wifi_change_requested node.
Proof.
  unfold apply_node_settings, wifi_change_requested.
  destruct (cJSON_GetObjectItem (Some node) "wifi") as [wifi_item|];
    try (destruct (string_item (cJSON_GetObjectItem (Some wifi_item) "ssid"));
         destruct (string_item (cJSON_GetObjectItem (Some wifi_item) "password")));
    reflexivity.
Qed.

Lemma handle_node_settings_returns (node : cJSON) :
  wifi_change_requested node = false ->
  returns (handle_node_settings (W := W) node).
Proof.
  intros Hwifi w. pose proof (handle_node_settings_run node w) as Hrun.
  cbv zeta in Hrun. rewrite restart_required_is_wifi_change, Hwifi in Hrun.
  rewrite andb_false_r in Hrun.
  destruct (is_ok (fst (fst (perform app_config_load w)))).
  - rewrite Hrun. now eexists.
  - destruct Hrun as [w' Hrun]. rewrite Hrun. now eexists.
Qed.

(** The result of a run followed by its acknowledgment is the result
    of the run. *)
Lemma with_ack_outcome (m : M W esp_err_t) (w : W) :
  outcome_of (bind m (fun err => bind (send_ack err) (fun _ => ret err)) w)
  = outcome_of (m w).
Proof.
  destruct (m w) as [[[err|] w1] evs1] eqn:Hm.
  - rewrite (bind_done _ _ _ _ _ _ Hm).
    destruct (bind_split (send_ack err) (fun _ => ret err) w1
                (send_ack_returns err)) as (u & w2 & _ & Hb).
    rewrite Hb. reflexivity.
  - now rewrite (bind_reboot _ _ _ _ _ Hm).
Qed.

(** A section block whose section is present ends as its handler does. *)
Lemma run_section_present (config section : cJSON) (name failure : string)
    (handler : cJSON -> M W esp_err_t) (err : esp_err_t) (w : W) :
  cJSON_GetObjectItem (Some config) name = Some section ->
  outcome_of (run_section config name handler failure err w)
  = outcome_of (handler section w).
Proof.
  intros Hsection. unfold run_section. rewrite Hsection.
  destruct (handler section w) as [[[err'|] w1] evs1] eqn:Hh.
  - rewrite (bind_done _ _ _ _ _ _ Hh).
    unfold RemoteConfig.log, bind, do_call, ret.
    destruct (is_ok err'); [reflexivity|].
    now destruct (perform (esp_log LOG_E failure) w1) as [[] w2].
  - now rewrite (bind_reboot _ _ _ _ _ Hh).
Qed.

Lemma run_section_absent (config : cJSON) (name failure : string)
    (handler : cJSON -> M W esp_err_t) (err : esp_err_t) (w : W) :
  cJSON_GetObjectItem (Some config) name = None ->
  run_section config name handler failure err w = (Done err, w, []).
Proof. intros Hsection. unfold run_section. now rewrite Hsection. Qed.

Lemma update_handler_run (config : cJSON) (w : W) :
  remote_config_update_handler (Some config) w
  = bind (bind (sections_before_node config) (node_section config))
      (fun err => bind (send_ack err) (fun _ => ret err)) w.
Proof.
  unfold remote_config_update_handler. symmetry. apply bind_assoc.
Qed.

(** X16.  [remote_config_update_handler] returns [ESP_ERR_INVALID_ARG]
    for a NULL document, without calling anything.  Otherwise its result
    is the result of the last section the document has, in the order
    ["csi"], ["mqtt"], ["node"]: what an earlier section returned is
    logged when it is an error and then dropped; a document with none of
    the three sections gives [ESP_OK]. *)
Theorem X16_update_returns_last_sections_result :
  forall (config : cJSON) (w : W),
    let run := remote_config_update_handler (Some config) w in
    remote_config_update_handler None w = (Done ESP_ERR_INVALID_ARG, w, []) /\
    (forall node err0 w1 evs1,
       cJSON_GetObjectItem (Some config) "node" = Some node ->
       sections_before_node config w = (Done err0, w1, evs1) ->
       outcome_of run = outcome_of (handle_node_settings node w1)) /\
    (forall section err0 w1 evs1,
       cJSON_GetObjectItem (Some config) "node" = None ->
       cJSON_GetObjectItem (Some config) "mqtt" = Some section ->
       run_section config "csi" handle_csi_config
         "Failed to update CSI config: %s" ESP_OK w = (Done err0, w1, evs1) ->
       outcome_of run = outcome_of (handle_mqtt_config section w1)) /\
    (forall section,
       cJSON_GetObjectItem (Some config) "node" = None ->
       cJSON_GetObjectItem (Some config) "mqtt" = None ->
       cJSON_GetObjectItem (Some config) "csi" = Some section ->
       outcome_of run = outcome_of (handle_csi_config section w)) /\
    (cJSON_GetObjectItem (Some config) "node" = None ->
     cJSON_GetObjectItem (Some config) "mqtt" = None ->
     cJSON_GetObjectItem (Some config) "csi" = None ->
     outcome_of run = Done ESP_OK).
Proof.
  intros config w. cbv zeta. split; [reflexivity|].
  rewrite update_handler_run, with_ack_outcome.
  assert (Hnone : cJSON_GetObjectItem (Some config) "node" = None ->
                  outcome_of (bind (sections_before_node config)
                                (node_section config) w)
                  = outcome_of (sections_before_node config w)).
  { intros Hnode.
    destruct (sections_before_node config w) as [[[err0|] w1] evs1] eqn:Hpre.
    - rewrite (bind_done _ _ _ _ _ _ Hpre). unfold node_section.
      now rewrite run_section_absent.
    - now rewrite (bind_reboot _ _ _ _ _ Hpre). }
  assert (Hcsi : cJSON_GetObjectItem (Some config) "mqtt" = None ->
                 outcome_of (sections_before_node config w)
                 = outcome_of (run_section config "csi" handle_csi_config
                                 "Failed to update CSI config: %s" ESP_OK w)).
  { intros Hmqtt. unfold sections_before_node.
    destruct (run_section config "csi" handle_csi_config
                "Failed to update CSI config: %s" ESP_OK w)
      as [[[err0|] w1] evs1] eqn:Hpre.
    - rewrite (bind_done _ _ _ _ _ _ Hpre). now rewrite run_section_absent.
    - now rewrite (bind_reboot _ _ _ _ _ Hpre). }
  split; [|split; [|split]].
  - intros node err0 w1 evs1 Hnode Hpre.
    rewrite (bind_done _ _ _ _ _ _ Hpre). run_parts.
    unfold node_section. now apply run_section_present.
  - intros section err0 w1 evs1 Hnode Hmqtt Hpre.
    rewrite (Hnone Hnode). unfold sections_before_node.
    rewrite (bind_done _ _ _ _ _ _ Hpre). run_parts.
    now apply run_section_present.
  - intros section Hnode Hmqtt Hsection.
    rewrite (Hnone Hnode), (Hcsi Hmqtt). now apply run_section_present.
  - intros Hnode Hmqtt Hsection.
    rewrite (Hnone Hnode), (Hcsi Hmqtt). now rewrite run_section_absent.
Qed.

Lemma sections_print_nothing (config : cJSON) :
  quiet printed_of
    (bind (sections_before_node (W := W) config) (node_section config)).
Proof. quiet_sections. Qed.

Lemma sections_publish_nothing (config : cJSON) :
  quiet publish_args_of
    (bind (sections_before_node (W := W) config) (node_section config)).
Proof. quiet_sections. Qed.

Lemma send_ack_status (err : esp_err_t) (w : W) :
  Forall (fun doc =>
            out_member "status" doc
            = Some (Out_String (if is_ok err then "success" else "failed")))
         (printed (events_of (send_ack err w))) /\
  (length (publish_calls (events_of (send_ack err w))) <= 1)%nat.
Proof.
  unfold send_ack, bind, do_call, ret.
  destruct (perform app_config_load w) as [[e cfg] w1]; cbn [fst snd].
  destruct (is_ok e); [|split; [constructor|cbn; lia]].
  destruct (perform esp_timer_get_time w1) as [now w2].
  match goal with
  | |- context [perform (cJSON_PrintUnformatted ?doc) ?v] =>
      destruct (perform (cJSON_PrintUnformatted doc) v) as [[s|] v']
  end.
  - match goal with
    | |- context [perform (mqtt_client_publish ?t ?p ?l ?q ?r) ?v] =>
        destruct (perform (mqtt_client_publish t p l q r) v) as [res v'']
    end.
    split; [repeat constructor|cbn; lia].
  - split; [repeat constructor|cbn; lia].
Qed.

(** X17.  An update that returns is acknowledged with its own result:
    only the acknowledgment, which comes after all the sections, prints
    or publishes; every document printed has ["status"] ["success"]
    exactly when the returned result is [ESP_OK], and at most one message
    is published.  And the handler does return whenever the document's
    ["node"] section, if it has one, asks for no new WiFi credentials. *)
Theorem X17_update_acknowledged_with_its_result :
  forall (config : cJSON) (w : W),
    let run := remote_config_update_handler (Some config) w in
    (forall err w' evs,
       run = (Done err, w', evs) ->
       (exists w1 evs1,
          evs = evs1 ++ events_of (send_ack err w1) /\
          printed evs1 = [] /\ publish_calls evs1 = []) /\
       Forall (fun doc =>
                 out_member "status" doc
                 = Some (Out_String (if is_ok err then "success" else "failed")))
              (printed evs) /\
       (length (publish_calls evs) <= 1)%nat) /\
    ((forall node,
        cJSON_GetObjectItem (Some config) "node" = Some node ->
        wifi_change_requested node = false) ->
     exists err, outcome_of run = Done err).
Proof.
  intros config w. cbv zeta. rewrite update_handler_run. split.
  - intros err w' evs Hrun.
    apply bind_inv_done in Hrun.
    destruct Hrun as (err' & w1 & evs1 & evs2 & Hsections & Hack & ->).
    apply bind_inv_done in Hack.
    destruct Hack as (u & w2 & evs3 & evs4 & Hsend & Hret & ->).
    unfold ret in Hret. injection Hret as -> -> <-.
    pose proof (sections_print_nothing config w) as Hq1.
    pose proof (sections_publish_nothing config w) as Hq2.
    rewrite Hsections in Hq1, Hq2.
    change (printed evs1 = []) in Hq1. change (publish_calls evs1 = []) in Hq2.
    assert (Hevs3 : evs3 = events_of (send_ack err w1)) by now rewrite Hsend.
    destruct (send_ack_status err w1) as [Hstatus Hcount].
    rewrite <- Hevs3 in Hstatus, Hcount. rewrite app_nil_r.
    split; [|split].
    + exists w1, evs1. now rewrite <- Hevs3.
    + unfold printed in *. now rewrite collect_app, Hq1.
    + unfold publish_calls in *. now rewrite collect_app, Hq2.
  - intros Hnode. rewrite with_ack_outcome.
    assert (Hpre : returns (sections_before_node (W := W) config)).
    { unfold sections_before_node, run_section, RemoteConfig.log.
      apply returns_bind; [|intros err1].
      - destruct (cJSON_GetObjectItem (Some config) "csi"); [|apply returns_ret].
        apply returns_bind; [apply handle_csi_config_returns|intros].
        repeat returns_step.
      - destruct (cJSON_GetObjectItem (Some config) "mqtt"); [|apply returns_ret].
        apply returns_bind; [apply handle_mqtt_config_returns|intros].
        repeat returns_step. }
    apply returns_bind; [exact Hpre|intros err0].
    unfold node_section, run_section, RemoteConfig.log.
    destruct (cJSON_GetObjectItem (Some config) "node") as [node|];
      [|apply returns_ret].
    apply returns_bind;
      [apply handle_node_settings_returns; now apply Hnode|intros].
    repeat returns_step.
Qed.

End UpdateProperties.

(** ** The handlers on the bench worlds *)

Section HandlerRuns.
Import CStr Json Platform Trace Supervisor RemoteConfig Observations Bench.
Local Open Scope string_scope.
Local Open Scope list_scope.
Local Open Scope Z_scope.

(** X8 on the [factory_reset] command: one erasure, no wait. *)
Lemma X8_factory_reset_witness :
  delays (events_of (remote_command_handler
                       (Some (cJSON_Object [("command", cJSON_String "factory_reset")]))
                       bench_world)) = [] /\
  length (erasures (events_of (remote_command_handler
                                 (Some (cJSON_Object
                                          [("command", cJSON_String "factory_reset")]))
                                 bench_world))) = 1%nat.
Proof.
  apply (proj1 (proj2 (proj2
           (X8_commands_that_restart_or_erase
              (Some (cJSON_Object [("command", cJSON_String "factory_reset")]))
              "factory_reset" bench_world eq_refl)))).
  reflexivity.
Defined.

(** X9 on an 8-byte field and a name of 6 characters. *)
Lemma X9_fitting_name_witness :
  c_str (bounded_copy (zeroed 8) "node-1") = c_string "node-1".
Proof.
  refine (proj2 (proj2 (proj2
            (X9_bounded_copy_keeps_terminator (zeroed 8) "node-1" _))) _).
  - reflexivity.
  - cbn. lia.
Defined.


(** X11 on the bench configuration and a node name of 21 characters. *)
Lemma X11_long_name_witness :
  strings_terminated
    (fst (apply_node_settings
            (cJSON_Object [("node_name", cJSON_String "a-very-long-node-name")])
            bench_config)) /\
  same_sizes bench_config
    (fst (apply_node_settings
            (cJSON_Object [("node_name", cJSON_String "a-very-long-node-name")])
            bench_config)).
Proof.
  assert (Hbench : strings_terminated bench_config) by (repeat split; reflexivity).
  split.
  - apply (proj1 (X11_updates_keep_strings_terminated
                    (cJSON_Object
                       [("node_name", cJSON_String "a-very-long-node-name")])
                    bench_config Hbench)).
  - apply (proj1 (proj2 (X11_updates_keep_strings_terminated
                           (cJSON_Object
                              [("node_name", cJSON_String "a-very-long-node-name")])
                           bench_config Hbench))).
Defined.

(** X12 on a new port, with a store that saves it: the client is
    restarted. *)
Lemma X12_new_port_witness :
  outcome_of (handle_mqtt_config
                (cJSON_Object [("port", cJSON_Number 8883 (Dbl_lit "8883"))])
                bench_world) = Done ESP_OK /\
  port (mqtt (apply_mqtt_config
                (cJSON_Object [("port", cJSON_Number 8883 (Dbl_lit "8883"))])
                bench_config)) = 8883 /\
  client_steps (events_of (handle_mqtt_config
                             (cJSON_Object
                                [("port", cJSON_Number 8883 (Dbl_lit "8883"))])
                             bench_world))
  = [Client_stop; Client_wait 100;
     Client_init (mqtt (apply_mqtt_config
                          (cJSON_Object
                             [("port", cJSON_Number 8883 (Dbl_lit "8883"))])
                          bench_config));
     Client_start].
Proof.
  pose proof (proj1 (proj2
                (X12_mqtt_update_restarts_client_after_save
                   (cJSON_Object [("port", cJSON_Number 8883 (Dbl_lit "8883"))])
                   bench_world)) eq_refl) as (Hout & _ & Hsteps).
  split; [exact Hout|]. split; [reflexivity|]. exact Hsteps.
Defined.



(** X16 on a document whose CSI section fails (the collector refuses the
    update) and whose node section succeeds: the handler returns
    [ESP_OK]. *)
Lemma X16_failed_csi_then_node_witness :
  outcome_of (remote_config_update_handler
                (Some (cJSON_Object
                         [("csi", cJSON_Object
                                    [("sample_rate",
                                      cJSON_Number 200 (Dbl_lit "200"))]);
                          ("node", cJSON_Object
                                     [("node_name", cJSON_String "node-2")])]))
                busy_collector_world)
  = outcome_of (handle_node_settings
                  (cJSON_Object [("node_name", cJSON_String "node-2")])
                  busy_collector_world).
Proof.
  refine (proj1 (proj2
            (X16_update_returns_last_sections_result
               (cJSON_Object
                  [("csi", cJSON_Object
                             [("sample_rate", cJSON_Number 200 (Dbl_lit "200"))]);
                   ("node", cJSON_Object [("node_name", cJSON_String "node-2")])])
               busy_collector_world))
            (cJSON_Object [("node_name", cJSON_String "node-2")])
            259 busy_collector_world
            (events_of (sections_before_node
                          (cJSON_Object
                             [("csi", cJSON_Object
                                        [("sample_rate",
                                          cJSON_Number 200 (Dbl_lit "200"))]);
                              ("node", cJSON_Object
                                         [("node_name", cJSON_String "node-2")])])
                          busy_collector_world))
            _ _).
  - reflexivity.
  - vm_compute. reflexivity.
Defined.

(** X17 on the update of the node name: acknowledged as a success. *)
Lemma X17_name_update_witness :
  Forall (fun doc => out_member "status" doc = Some (Out_String "success"))
    (printed (events_of (remote_config_update_handler (Some name_update)
                           bench_world))) /\
  (length (publish_calls
             (events_of (remote_config_update_handler (Some name_update)
                           bench_world))) <= 1)%nat.
Proof.
  refine (proj2 (proj1 (X17_update_acknowledged_with_its_result name_update
                          bench_world)
                   ESP_OK
                   (world_of (remote_config_update_handler (Some name_update)
                                bench_world))
                   (events_of (remote_config_update_handler (Some name_update)
                                 bench_world))
                   _)).
  vm_compute. reflexivity.
Defined.

(** X20 on the bench configuration and fields of 32 bytes: the web
    user name, held in an array that ends in NUL bytes, is passed on
    whole, whatever follows the array. *)
Lemma X20_web_username_witness :
  passed_on 32
    (read_from (web_username (web_server bench_config)) "correct-horse")
    (wc_username
       (make_web_config (mk_sizes 32 32 32 32 32 32 32 32 32 32 32)
          (fun _ => "correct-horse") bench_config)).
Proof.
  apply (proj1 (X20_startup_configurations_pass_fitting_strings
                  (mk_sizes 32 32 32 32 32 32 32 32 32 32 32)
                  (fun _ => "correct-horse") bench_config)).
  cbn. lia.
Defined.

(** A user name that fills its 16-byte array, with no NUL, followed in
    memory by the password: the copy runs on into the password. *)
Lemma copy_field_reads_on :
  c_str (copy_field 32 (list_ascii_of_string "ABCDEFGHIJKLMNOP") "correct-horse")
  = "ABCDEFGHIJKLMNOPcorrect-horse".
Proof. reflexivity. Qed.

End HandlerRuns.
